(** * Utah Pollinator Path: scoring rule set, cache manager and engine

    A shallow embedding of [scoring_v2.py], [scoring_config.py] and
    [core/engine.py], with the properties of the specification stated and
    proved over it.

    Numbers.  Python mixes [int] and [float] in the scoring functions.  The
    embedding uses exact rationals ([Q]) for every score and percentage and
    [Z] for counts, so [0.5] is [1#2] and [0.35] is [7#20]; rounding of
    binary floating point and NaN are outside the model.  Time stamps are
    [Z] microseconds, the resolution of [datetime]. *)

From Stdlib Require Import QArith Lqa Sorted Ascii.
From stdpp Require Import gmap strings list pretty.

Local Open Scope string_scope.
Local Open Scope Z_scope.

(** ** Python's two-argument [min] and [max]

    [min(a, b)] returns [a] unless [b < a]; [max(a, b)] returns [a] unless
    [b > a]. *)

Definition Qltb (a b : Q) : bool := negb (Qle_bool b a).

Definition py_min (a b : Q) : Q := if Qltb b a then b else a.
Definition py_max (a b : Q) : Q := if Qltb a b then b else a.

(** [x >= t] on rationals, as a boolean. *)
Definition Qgeb (x t : Q) : bool := Qle_bool t x.

(** The clamp of the specification, in its words: a value below the lower
    bound becomes the lower bound, a value above the upper bound becomes
    the upper bound, any other value is kept. *)
Definition clamp (x lo hi : Q) : Q :=
  if Qltb x lo then lo else if Qltb hi x then hi else x.

(** ** scoring_v2.py *)

Module ScoringV2.

Inductive Season := SPRING | SUMMER | FALL.

Definition Season_eqb (a b : Season) : bool :=
  match a, b with
  | SPRING, SPRING | SUMMER, SUMMER | FALL, FALL => true
  | _, _ => false
  end.

Record PlantInventory := {
  species : string;
  count : Z;
  bloom_seasons : list Season;
  is_native : bool;
  is_milkweed : bool
}.

Record PropertyData := {
  lat : Q;
  lng : Q;
  grid_hash : string;
  plants : list PlantInventory;
  estimated_flower_coverage_pct : Q;
  has_bare_ground : bool;
  bare_ground_sqft : Q;
  has_dead_wood : bool;
  has_brush_pile : bool;
  has_bee_hotel : bool;
  leaves_stems_over_winter : bool;
  neighbors_in_program : Z;
  green_space_within_500m : Q;
  distance_to_nearest_habitat_m : Q;
  uses_pesticides : bool;
  pesticide_frequency : string;
  mowing_frequency : string;
  lot_size_sqft : Q;
  impervious_surface_pct : Q
}.

(** [PropertyData(lat, lng)] with every other field at its default. *)
Definition default_PropertyData (la ln : Q) : PropertyData := {|
  lat := la; lng := ln; grid_hash := "";
  plants := [];
  estimated_flower_coverage_pct := 0;
  has_bare_ground := false;
  bare_ground_sqft := 0;
  has_dead_wood := false;
  has_brush_pile := false;
  has_bee_hotel := false;
  leaves_stems_over_winter := false;
  neighbors_in_program := 0;
  green_space_within_500m := 0;
  distance_to_nearest_habitat_m := 1000;
  uses_pesticides := false;
  pesticide_frequency := "never";
  mowing_frequency := "weekly";
  lot_size_sqft := 5000;
  impervious_surface_pct := 30
|}.

(** A recommendation is a Python dict literal; the keys differ between
    rules, so it is kept as an ordered list of key and value. *)
Inductive RecValue :=
| RStr (s : string)
| RList (l : list string).

Definition RecDict := list (string * RecValue).

Record ScoreBreakdown := {
  floral_score : Q;
  nesting_score : Q;
  connectivity_score : Q;
  connectivity_pioneer : Q;
  management_score : Q;
  floral_diversity : Q;
  floral_coverage : Q;
  floral_spring : Q;
  floral_summer : Q;
  floral_fall : Q;
  floral_milkweed_bonus : Q;
  nesting_ground : Q;
  nesting_cavity : Q;
  nesting_undisturbed : Q;
  impervious_penalty : Q;
  raw_score : Q;
  final_score : Q;
  grade : string;
  confidence : string;
  data_completeness : Q;
  recommendations : list RecDict
}.

Definition len {A} (l : list A) : Z := Z.of_nat (length l).

Module Floral.
Record scores := {
  diversity : Q; coverage : Q; spring : Q; summer : Q; fall : Q;
  milkweed_bonus : Q; total : Q
}.
End Floral.

Definition seasons_covered (ps : list PlantInventory) (s : Season) : bool :=
  existsb (fun p => existsb (Season_eqb s) (bloom_seasons p)) ps.

Definition milkweed_count (ps : list PlantInventory) : Z :=
  fold_right Z.add 0 (List.map count (List.filter (fun p => is_milkweed p) ps)).

Definition score_floral_resources (data : PropertyData) : Floral.scores :=
  let ps := plants data in
  let native_species := len (List.filter (fun p => is_native p) ps) in
  let total_species := len ps in
  let diversity0 : Q :=
    if 10 <=? native_species then 12%Q
    else if 7 <=? native_species then 10%Q
    else if 5 <=? native_species then 8%Q
    else if 3 <=? native_species then 5%Q
    else if 1 <=? native_species then 2%Q
    else 0%Q in
  let non_native_bonus :=
    py_min (inject_Z (total_species - native_species) * (1 # 2)) 2 in
  let diversity := py_min (diversity0 + non_native_bonus) 12 in
  let cov := estimated_flower_coverage_pct data in
  let coverage : Q :=
    if Qgeb cov 30 then 8%Q
    else if Qgeb cov 20 then 6%Q
    else if Qgeb cov 10 then 4%Q
    else if Qgeb cov 5 then 2%Q
    else 0%Q in
  let spring : Q := if seasons_covered ps SPRING then 2%Q else 0%Q in
  let summer : Q := if seasons_covered ps SUMMER then 2%Q else 0%Q in
  let fall : Q := if seasons_covered ps FALL then 6%Q else 0%Q in
  let mc := milkweed_count ps in
  let milkweed_bonus : Q :=
    if 5 <=? mc then 5%Q
    else if 3 <=? mc then 4%Q
    else if 1 <=? mc then 3%Q
    else 0%Q in
  {| Floral.diversity := diversity;
     Floral.coverage := coverage;
     Floral.spring := spring;
     Floral.summer := summer;
     Floral.fall := fall;
     Floral.milkweed_bonus := milkweed_bonus;
     Floral.total :=
       py_min (diversity + coverage + spring + summer + fall + milkweed_bonus) 35
  |}.

Module Nesting.
Record scores := { ground : Q; cavity : Q; undisturbed : Q; total : Q }.
End Nesting.

Definition score_nesting_habitat (data : PropertyData) : Nesting.scores :=
  let ground : Q :=
    if has_bare_ground data then
      if Qgeb (bare_ground_sqft data) 50 then 10%Q
      else if Qgeb (bare_ground_sqft data) 25 then 7%Q
      else if Qgeb (bare_ground_sqft data) 10 then 5%Q
      else 3%Q
    else 0%Q in
  let cavity_features : Q :=
    ((if has_dead_wood data then 4 else 0)
     + (if has_bee_hotel data then 3 else 0)
     + (if has_brush_pile data then 3 else 0))%Q in
  let cavity := py_min cavity_features 10 in
  let mf := mowing_frequency data in
  let undisturbed0 : Q :=
    ((if leaves_stems_over_winter data then 5 else 0)
     + (if String.eqb mf "monthly" || String.eqb mf "rarely" then 3
        else if String.eqb mf "biweekly" then 1 else 0)
     + (if has_brush_pile data then 2 else 0))%Q in
  let undisturbed := py_min undisturbed0 10 in
  {| Nesting.ground := ground;
     Nesting.cavity := cavity;
     Nesting.undisturbed := undisturbed;
     Nesting.total := ground + cavity + undisturbed |}.

Module Connectivity.
Record scores := {
  neighbors : Q; green_space : Q; pioneer_bonus : Q; total : Q
}.
End Connectivity.

Definition score_connectivity (data : PropertyData) : Connectivity.scores :=
  let n := neighbors_in_program data in
  let '(pioneer_bonus, neighbors) :=
    if n =? 0 then (8%Q, 0%Q)
    else if n <=? 2 then (4%Q, inject_Z (n * 2))
    else (0%Q,
          if 5 <=? n then 10%Q else if 3 <=? n then 7%Q else 5%Q) in
  let green_pct := green_space_within_500m data in
  let green_space : Q :=
    if Qgeb green_pct 30 then 10%Q
    else if Qgeb green_pct 20 then 7%Q
    else if Qgeb green_pct 10 then 5%Q
    else if Qgeb green_pct 5 then 3%Q
    else 2%Q in
  {| Connectivity.neighbors := neighbors;
     Connectivity.green_space := green_space;
     Connectivity.pioneer_bonus := pioneer_bonus;
     Connectivity.total :=
       py_min (neighbors + green_space + pioneer_bonus) 20 |}.

Module Management.
Record scores := { pesticide_free : Q; native_proportion : Q; total : Q }.
End Management.

Definition score_management (data : PropertyData) : Management.scores :=
  let pf := pesticide_frequency data in
  let pesticide_free : Q :=
    if negb (uses_pesticides data) || String.eqb pf "never" then 8%Q
    else if String.eqb pf "rarely" then 5%Q
    else if String.eqb pf "sometimes" then 2%Q
    else 0%Q in
  let total_plants := len (plants data) in
  let native_proportion : Q :=
    if 0 <? total_plants then
      let native_pct :=
        (inject_Z (len (List.filter (fun p => is_native p) (plants data)))
         / inject_Z total_plants * 100)%Q in
      if Qgeb native_pct 80 then 7%Q
      else if Qgeb native_pct 60 then 5%Q
      else if Qgeb native_pct 40 then 3%Q
      else if Qgeb native_pct 20 then 1%Q
      else 0%Q
    else 0%Q in
  {| Management.pesticide_free := pesticide_free;
     Management.native_proportion := native_proportion;
     Management.total := pesticide_free + native_proportion |}.

(** The pesticide credit of the specification, in its words: never 8,
    rarely 5, sometimes 2, often 0. *)
Definition pesticide_credit_by_frequency (frequency : string) : Q :=
  if String.eqb frequency "never" then 8%Q
  else if String.eqb frequency "rarely" then 5%Q
  else if String.eqb frequency "sometimes" then 2%Q
  else 0%Q.

Definition THRESHOLD : Q := 22.
Definition MAX_PENALTY : Q := 10.

(** The literal [0.35] is read as the rational 7/20.  The double of the
    code is below it by less than 2^-55 and the product is rounded, so a
    value the code returns can differ from the one computed here in its
    last place; comparisons with the bounds and the order of two
    penalties are the same in both. *)
Definition calculate_impervious_penalty (data : PropertyData) : Q :=
  if Qle_bool (impervious_surface_pct data) THRESHOLD then 0%Q
  else
    let excess := (impervious_surface_pct data - THRESHOLD)%Q in
    let penalty := py_min (excess * (7 # 20)) MAX_PENALTY in
    (- penalty)%Q.

Definition b2Z (b : bool) : Z := if b then 1 else 0.

Definition calculate_data_completeness (data : PropertyData) : Q :=
  let fields_provided :=
    b2Z (0 <? len (plants data))
    + b2Z (Qltb 0 (estimated_flower_coverage_pct data))
    + b2Z (has_bare_ground data || Qltb 0 (bare_ground_sqft data))
    + b2Z (has_dead_wood data || has_bee_hotel data || has_brush_pile data)
    + b2Z (leaves_stems_over_winter data)
    + b2Z (negb (String.eqb (mowing_frequency data) "weekly"))
    + b2Z (negb (String.eqb (pesticide_frequency data) "never"))
    + b2Z (negb (Qeq_bool (lot_size_sqft data) 5000))
    + b2Z (negb (Qeq_bool (impervious_surface_pct data) 30))
    + b2Z (0 <? neighbors_in_program data) in
  (inject_Z fields_provided / 10 * 100)%Q.

Definition generate_recommendations
    (data : PropertyData) (scores : ScoreBreakdown) : list RecDict :=
  let has_fall_blooms :=
    existsb (fun p => existsb (Season_eqb FALL) (bloom_seasons p)) (plants data) in
  let has_milkweed := existsb (fun p => is_milkweed p) (plants data) in
  (if negb has_fall_blooms then
     [[("priority", RStr "critical");
       ("title", RStr "September Nectar Gap");
       ("message", RStr "Add fall-blooming plants for monarch migration");
       ("plants", RList ["Rabbitbrush"; "Goldenrod"; "Asters"]);
       ("impact", RStr "+6 points")]]
   else [])
  ++ (if negb has_milkweed then
     [[("priority", RStr "high");
       ("title", RStr "Missing Host Plant");
       ("message", RStr "Monarchs can only lay eggs on milkweed");
       ("plants", RList ["Showy Milkweed"; "Narrowleaf Milkweed"]);
       ("impact", RStr "+3-5 points")]]
   else [])
  ++ (if Qltb (nesting_score scores) 15 then
        (if negb (has_bare_ground data) then
           [[("priority", RStr "medium");
             ("title", RStr "Ground Nesting Habitat");
             ("message", RStr "70% of native bees nest in bare ground");
             ("action", RStr "Leave a patch of undisturbed bare soil");
             ("impact", RStr "+5-10 points")]]
         else [])
        ++ (if negb (leaves_stems_over_winter data) then
           [[("priority", RStr "medium");
             ("title", RStr "Overwintering Habitat");
             ("message", RStr "Leave stems and leaves through winter");
             ("action", RStr "Delay spring cleanup until temps exceed 50°F");
             ("impact", RStr "+5 points")]]
         else [])
      else [])
  ++ (if neighbors_in_program data =? 0 then
     [[("priority", RStr "medium");
       ("title", RStr "Invite a Neighbor");
       ("message", RStr "Connected habitats are more effective");
       ("action", RStr "Invite a neighbor to join the program");
       ("impact", RStr "+3-10 points")]]
   else [])
  ++ (if uses_pesticides data
         && (String.eqb (pesticide_frequency data) "sometimes"
             || String.eqb (pesticide_frequency data) "often") then
     [[("priority", RStr "high");
       ("title", RStr "Reduce Pesticides");
       ("message", RStr "Pesticides harm pollinators directly");
       ("action", RStr "Try integrated pest management instead");
       ("impact", RStr "+5-8 points")]]
   else []).

Definition get_grade (score : Q) : string :=
  if Qgeb score 90 then "A+"
  else if Qgeb score 80 then "A"
  else if Qgeb score 70 then "B"
  else if Qgeb score 60 then "C"
  else if Qgeb score 50 then "D"
  else "F".

Definition get_confidence (completeness : Q) : string :=
  if Qgeb completeness 70 then "high"
  else if Qgeb completeness 40 then "medium"
  else "low".

Definition score_property (data : PropertyData) : ScoreBreakdown :=
  let floral := score_floral_resources data in
  let nesting := score_nesting_habitat data in
  let connectivity := score_connectivity data in
  let management := score_management data in
  let impervious := calculate_impervious_penalty data in
  let raw :=
    (Floral.total floral + Nesting.total nesting
     + Connectivity.total connectivity + Management.total management)%Q in
  let final := py_max 0 (py_min 100 (raw + impervious)) in
  let completeness := calculate_data_completeness data in
  (* the breakdown as it stands when generate_recommendations reads it *)
  let before_recs := {|
    floral_score := Floral.total floral;
    nesting_score := Nesting.total nesting;
    connectivity_score := Connectivity.total connectivity;
    connectivity_pioneer := 0;
    management_score := Management.total management;
    floral_diversity := Floral.diversity floral;
    floral_coverage := Floral.coverage floral;
    floral_spring := Floral.spring floral;
    floral_summer := Floral.summer floral;
    floral_fall := Floral.fall floral;
    floral_milkweed_bonus := Floral.milkweed_bonus floral;
    nesting_ground := Nesting.ground nesting;
    nesting_cavity := Nesting.cavity nesting;
    nesting_undisturbed := Nesting.undisturbed nesting;
    impervious_penalty := impervious;
    raw_score := raw;
    final_score := final;
    grade := get_grade final;
    confidence := get_confidence completeness;
    data_completeness := completeness;
    recommendations := []
  |} in
  {| floral_score := floral_score before_recs;
     nesting_score := nesting_score before_recs;
     connectivity_score := connectivity_score before_recs;
     connectivity_pioneer := connectivity_pioneer before_recs;
     management_score := management_score before_recs;
     floral_diversity := floral_diversity before_recs;
     floral_coverage := floral_coverage before_recs;
     floral_spring := floral_spring before_recs;
     floral_summer := floral_summer before_recs;
     floral_fall := floral_fall before_recs;
     floral_milkweed_bonus := floral_milkweed_bonus before_recs;
     nesting_ground := nesting_ground before_recs;
     nesting_cavity := nesting_cavity before_recs;
     nesting_undisturbed := nesting_undisturbed before_recs;
     impervious_penalty := impervious_penalty before_recs;
     raw_score := raw_score before_recs;
     final_score := final_score before_recs;
     grade := grade before_recs;
     confidence := confidence before_recs;
     data_completeness := data_completeness before_recs;
     recommendations := generate_recommendations data before_recs |}.

(** [PropertyData(lat=40.666, lng=-111.897, plants=.., uses_pesticides=..,
    pesticide_frequency=.., mowing_frequency=..)], the other fields at their
    defaults. *)
Definition garden (ps : list PlantInventory) (uses : bool)
    (pesticide mowing : string) : PropertyData := {|
  lat := 40666 # 1000; lng := -111897 # 1000; grid_hash := "";
  plants := ps;
  estimated_flower_coverage_pct := 0;
  has_bare_ground := false;
  bare_ground_sqft := 0;
  has_dead_wood := false;
  has_brush_pile := false;
  has_bee_hotel := false;
  leaves_stems_over_winter := false;
  neighbors_in_program := 0;
  green_space_within_500m := 0;
  distance_to_nearest_habitat_m := 1000;
  uses_pesticides := uses;
  pesticide_frequency := pesticide;
  mowing_frequency := mowing;
  lot_size_sqft := 5000;
  impervious_surface_pct := 30
|}.

Definition yard : bool -> string -> string -> PropertyData := garden [].

(** The input of the test "High Impervious Surface (60%)" of the module. *)
Definition high_impervious_lot : PropertyData := {|
  lat := 40666 # 1000; lng := -111897 # 1000; grid_hash := "";
  plants := [
    {| species := "Milkweed"; count := 1; bloom_seasons := [SUMMER];
       is_native := true; is_milkweed := true |}];
  estimated_flower_coverage_pct := 0;
  has_bare_ground := false;
  bare_ground_sqft := 0;
  has_dead_wood := false;
  has_brush_pile := false;
  has_bee_hotel := false;
  leaves_stems_over_winter := false;
  neighbors_in_program := 0;
  green_space_within_500m := 0;
  distance_to_nearest_habitat_m := 1000;
  uses_pesticides := false;
  pesticide_frequency := "never";
  mowing_frequency := "weekly";
  lot_size_sqft := 5000;
  impervious_surface_pct := 60
|}.

(** [PlantInventory("Rabbitbrush", 2, [Season.FALL])] *)
Definition rabbitbrush : PlantInventory := {|
  species := "Rabbitbrush"; count := 2; bloom_seasons := [FALL];
  is_native := true; is_milkweed := false
|}.

End ScoringV2.

(** ** Python dictionaries that keep insertion order

    A [dict] iterates in insertion order; assigning to a key that is
    present keeps its position, assigning to a fresh key appends it.  The
    cache and the source registry are iterated, so they are kept as ordered
    association lists without repeated keys. *)

Module PyDict.

Section Ops.
Context {V : Type}.

Definition t := list (string * V).

Fixpoint get (k : string) (d : t) : option V :=
  match d with
  | [] => None
  | (k', v) :: rest => if String.eqb k k' then Some v else get k rest
  end.

(** [d[k] = v] *)
Fixpoint setitem (k : string) (v : V) (d : t) : t :=
  match d with
  | [] => [(k, v)]
  | (k', v') :: rest =>
      if String.eqb k k' then (k', v) :: rest
      else (k', v') :: setitem k v rest
  end.

(** [del d[k]] for a key that is present *)
Fixpoint delitem (k : string) (d : t) : t :=
  match d with
  | [] => []
  | (k', v') :: rest =>
      if String.eqb k k' then rest else (k', v') :: delitem k rest
  end.

Definition keys (d : t) : list string := map fst d.

(** The representation invariant: a dict holds a key once. *)
Definition wf (d : t) : Prop := NoDup (keys d).
End Ops.

Arguments t : clear implicits.

End PyDict.

(** ** scoring_config.py *)

Module ScoringConfig.

(** The model table is a nested dict literal. *)
#[local] Unset Elimination Schemes.
Inductive Json :=
| JNum (q : Q)
| JStr (s : string)
| JArr (l : list Json)
| JObj (o : list (string * Json)).
#[local] Set Elimination Schemes.

Definition ACTIVE_MODEL_VERSION : string := "2.0.0".

Definition tier (key : string) (bound points : Q) : Json :=
  JObj [(key, JNum bound); ("points", JNum points)].

Definition level_tier (level : string) (points : Q) : Json :=
  JObj [("level", JStr level); ("points", JNum points)].

Definition SCORING_MODELS : PyDict.t Json := [
  ("2.0.0", JObj [
     ("name", JStr "Research-Validated v2");
     ("description", JStr "Based on ESTIMAP, InVEST, Berlin study");
     ("created_at", JStr "2025-12-21");
     ("weights", JObj [
        ("floral", JNum 35); ("nesting", JNum 30);
        ("connectivity", JNum 20); ("management", JNum 15)]);
     ("floral_config", JObj [
        ("diversity_max", JNum 12);
        ("coverage_max", JNum 8);
        ("spring_points", JNum 2);
        ("summer_points", JNum 2);
        ("fall_points", JNum 6);
        ("milkweed_max", JNum 5);
        ("diversity_tiers", JArr [
           tier "min_species" 10 12; tier "min_species" 7 10;
           tier "min_species" 5 8; tier "min_species" 3 5;
           tier "min_species" 1 2]);
        ("coverage_tiers", JArr [
           tier "min_pct" 30 8; tier "min_pct" 20 6;
           tier "min_pct" 10 4; tier "min_pct" 5 2])]);
     ("nesting_config", JObj [
        ("ground_max", JNum 10);
        ("cavity_max", JNum 10);
        ("undisturbed_max", JNum 10);
        ("ground_tiers", JArr [
           tier "min_sqft" 50 10; tier "min_sqft" 25 7;
           tier "min_sqft" 10 5; tier "min_sqft" 1 3]);
        ("dead_wood_points", JNum 4);
        ("bee_hotel_points", JNum 3);
        ("brush_pile_points", JNum 3);
        ("hollow_stems_points", JNum 2);
        ("leaves_winter_points", JNum 5);
        ("leaf_litter_points", JNum 2);
        ("mowing_points", JObj [
           ("never", JNum 3); ("monthly", JNum 2);
           ("biweekly", JNum 1); ("weekly", JNum 0)])]);
     ("connectivity_config", JObj [
        ("pioneer_bonus", JNum 8);
        ("early_adopter_bonus", JNum 4);
        ("neighbor_tiers", JArr [
           tier "min_neighbors" 5 10; tier "min_neighbors" 3 7;
           tier "min_neighbors" 2 5; tier "min_neighbors" 1 3]);
        ("green_space_tiers", JArr [
           level_tier "large" 10; level_tier "medium" 7;
           level_tier "small" 4; level_tier "none" 2])]);
     ("management_config", JObj [
        ("pesticide_free_max", JNum 8);
        ("native_pct_max", JNum 7);
        ("pesticide_points", JObj [
           ("never", JNum 8); ("rarely", JNum 5);
           ("sometimes", JNum 2); ("often", JNum 0)]);
        ("native_tiers", JArr [
           tier "min_pct" 80 7; tier "min_pct" 60 5;
           tier "min_pct" 40 3; tier "min_pct" 20 1])]);
     ("impervious_config", JObj [
        ("threshold_pct", JNum 22);
        ("penalty_per_pct", JNum (7 # 20));
        ("max_penalty", JNum 10)]);
     ("grade_thresholds", JObj [
        ("A+", JNum 90); ("A", JNum 85); ("A-", JNum 80);
        ("B+", JNum 75); ("B", JNum 70); ("B-", JNum 65);
        ("C+", JNum 60); ("C", JNum 55); ("C-", JNum 50);
        ("D", JNum 40)]);
     ("citations", JArr [
        JStr "ESTIMAP-Pollination model (Zulian et al., 2013) R²=0.80";
        JStr "InVEST Pollination Model (Sharp et al., 2020) R²=0.65-0.80";
        JStr "Berlin impervious study (Fortel et al., 2014) R²=0.84";
        JStr "September deficit finding (Murray Corridor, 2025) 84.5%"])]);
  ("2.1.0-beta", JObj [
     ("name", JStr "Adjusted Fall Weight");
     ("description", JStr "Testing higher fall bloom weight");
     ("created_at", JStr "2025-12-21");
     ("weights", JObj [
        ("floral", JNum 40); ("nesting", JNum 25);
        ("connectivity", JNum 20); ("management", JNum 15)]);
     ("floral_config", JObj [("fall_points", JNum 8)])])
].

(** [SCORING_MODELS.get(version)] *)
Definition get_model (version : string) : option Json :=
  PyDict.get version SCORING_MODELS.

(** [SCORING_MODELS.get(ACTIVE_MODEL_VERSION, SCORING_MODELS["2.0.0"])];
    the default is evaluated first and would raise [KeyError] ([None]) if
    the table had no "2.0.0". *)
Definition get_active_model : option Json :=
  match PyDict.get "2.0.0" SCORING_MODELS with
  | None => None
  | Some dflt =>
      Some (match PyDict.get ACTIVE_MODEL_VERSION SCORING_MODELS with
            | Some m => m
            | None => dflt
            end)
  end.

Definition get_model_version : string := ACTIVE_MODEL_VERSION.

(** [m[k1][k2]...] on the nested dicts. *)
Fixpoint at_path (path : list string) (j : Json) : option Json :=
  match path with
  | [] => Some j
  | k :: rest =>
      match j with
      | JObj o =>
          match PyDict.get k o with
          | Some j' => at_path rest j'
          | None => None
          end
      | _ => None
      end
  end.

Definition num_at (path : list string) (j : Json) : option Q :=
  match at_path path j with
  | Some (JNum q) => Some q
  | _ => None
  end.

End ScoringConfig.

(** ** core/engine.py *)

(** Exceptions are values: a class name and the message [str(e)].
    [Exception] holds the instances of the class [Exception], the ones
    [except Exception] catches.  [BaseException] adds the exceptions that
    are outside that class, such as [asyncio.CancelledError],
    [KeyboardInterrupt] and [SystemExit], which [except Exception] lets
    through. *)
Inductive Exception := Exc (cls : string) (msg : string).

Inductive BaseException :=
| IsException (e : Exception)
| NotException (cls : string) (msg : string).

Coercion IsException : Exception >-> BaseException.

Definition ValueError (msg : string) : Exception := Exc "ValueError" msg.

Definition str (e : Exception) : string :=
  match e with Exc _ msg => msg end.

Inductive Result (A : Type) :=
| Ok (a : A)
| Raise (e : BaseException).
Arguments Ok {A} a.
Arguments Raise {A} e.

Module HabitatGrade.

Inductive t := A_PLUS | A | B | C | D | F.

Definition letter (g : t) : string :=
  match g with
  | A_PLUS => "A+" | A => "A" | B => "B" | C => "C" | D => "D" | F => "F"
  end.

Definition description (g : t) : string :=
  match g with
  | A_PLUS => "Premium Pollinator Site"
  | A => "Excellent Potential"
  | B => "Good Potential"
  | C => "Moderate Potential"
  | D => "Limited Potential"
  | F => "Challenging Site"
  end.

Definition min_score (g : t) : Z :=
  match g with
  | A_PLUS => 90 | A => 80 | B => 70 | C => 60 | D => 50 | F => 0
  end.

(** Iterating the enum yields the members in definition order. *)
Definition members : list t := [A_PLUS; A; B; C; D; F].

(** [for grade in cls: if score >= grade.min_score: return grade] *)
Fixpoint first_reached (score : Q) (gs : list t) : option t :=
  match gs with
  | [] => None
  | g :: rest =>
      if Qgeb score (inject_Z (min_score g)) then Some g
      else first_reached score rest
  end.

Definition from_score (score : Q) : t :=
  match first_reached score members with
  | Some g => g
  | None => F
  end.

End HabitatGrade.

(** A tier is the first reached tier of a score when its threshold is at
    most the score, or it is the catch-all, and no tier with a higher
    threshold is reached. *)
Definition first_tier (score : Q) (g : HabitatGrade.t) : Prop :=
  ((inject_Z (HabitatGrade.min_score g) <= score)%Q \/ g = HabitatGrade.F)
  /\ forall g', HabitatGrade.min_score g < HabitatGrade.min_score g' ->
               (score < inject_Z (HabitatGrade.min_score g'))%Q.

Module Location.
(** [grid_hash] is the field as it stands after [__post_init__]. *)
Record t := {
  lat : Q;
  lng : Q;
  name : string;
  address : string;
  grid_hash : string
}.
End Location.

(** Provider payloads are opaque mappings to the engine. *)
Inductive PyValue :=
| PyStr (s : string)
| PyInt (z : Z)
| PyBool (b : bool)
| PyNone.

Definition Payload := list (string * PyValue).

Module FactorResult.
Record t := {
  name : string;
  raw_value : PyValue;
  normalized_score : Q;
  weight : Q;
  weighted_score : Q;
  metadata : Payload
}.
End FactorResult.

Module Recommendation.
Record t := {
  priority : string;
  action : string;
  reason : string;
  impact : string;
  species : list string
}.
End Recommendation.

Module ScoringResult.
Record t := {
  location : Location.t;
  total_score : Q;
  max_possible : Q;
  percentage : Q;
  grade : HabitatGrade.t;
  factors : list FactorResult.t;
  recommendations : list Recommendation.t;
  algorithm : string;
  tool : string;
  timestamp : string;
  metadata : Payload
}.
End ScoringResult.

Module CacheManager.

Record entry := { data : Payload; timestamp : Z }.

Record stats_t := { hits : Z; misses : Z; evictions : Z }.

Record t := {
  ttl_hours : Z;
  max_entries : Z;
  _cache : PyDict.t entry;
  stats : stats_t
}.

(** [CacheManager(ttl_hours, max_entries)] *)
Definition init (ttl max : Z) : t := {|
  ttl_hours := ttl;
  max_entries := max;
  _cache := [];
  stats := {| hits := 0; misses := 0; evictions := 0 |}
|}.

Definition _make_key (source grid_hash : string) : string :=
  source ++ ":" ++ grid_hash.

(** [timedelta(hours=ttl_hours)] in microseconds *)
Definition ttl (cm : t) : Z := ttl_hours cm * 3600000000.


Definition with_cache (cm : t) (c : PyDict.t entry) : t :=
  {| ttl_hours := ttl_hours cm; max_entries := max_entries cm;
     _cache := c; stats := stats cm |}.

Definition with_stats (cm : t) (s : stats_t) : t :=
  {| ttl_hours := ttl_hours cm; max_entries := max_entries cm;
     _cache := _cache cm; stats := s |}.

Definition count_hit (s : stats_t) : stats_t :=
  {| hits := hits s + 1; misses := misses s; evictions := evictions s |}.
Definition count_miss (s : stats_t) : stats_t :=
  {| hits := hits s; misses := misses s + 1; evictions := evictions s |}.
Definition count_eviction (s : stats_t) : stats_t :=
  {| hits := hits s; misses := misses s; evictions := evictions s + 1 |}.

(** [get]; [now] is the value [datetime.utcnow()] returns in the call. *)
Definition get (cm : t) (source : string) (location : Location.t)
    (now : Z) : option Payload * t :=
  let key := _make_key source (Location.grid_hash location) in
  match PyDict.get key (_cache cm) with
  | Some e =>
      let age := now - timestamp e in
      if age <? ttl cm then
        (Some (data e), with_stats cm (count_hit (stats cm)))
      else
        (None,
         with_stats (with_cache cm (PyDict.delitem key (_cache cm)))
                    (count_miss (stats cm)))
  | None => (None, with_stats cm (count_miss (stats cm)))
  end.

(** [min(items, key=timestamp)] started from the candidate [best]: a
    later item replaces the candidate only when it is strictly older. *)
Fixpoint min_from (best : string * entry) (rest : PyDict.t entry)
    : string * entry :=
  match rest with
  | [] => best
  | x :: rest' =>
      if timestamp (snd x) <? timestamp (snd best)
      then min_from x rest' else min_from best rest'
  end.

(** [min(self._cache.keys(), key=lambda k: self._cache[k]["timestamp"])];
    [None] is the [ValueError] of [min] on an empty sequence. *)
Definition oldest_key (c : PyDict.t entry) : option string :=
  match c with
  | [] => None
  | x :: rest => Some (fst (min_from x rest))
  end.

Definition insert_entry (cm : t) (source : string)
    (location : Location.t) (d : Payload) (now : Z) : t :=
  let key := _make_key source (Location.grid_hash location) in
  with_cache cm
    (PyDict.setitem key {| data := d; timestamp := now |} (_cache cm)).

(** [set]; [now] is the value [datetime.utcnow()] returns in the call. *)
Definition set (cm : t) (source : string) (location : Location.t)
    (d : Payload) (now : Z) : Result t :=
  if max_entries cm <=? Z.of_nat (length (_cache cm)) then
    match oldest_key (_cache cm) with
    | None => Raise (ValueError "min() arg is an empty sequence")
    | Some oldest =>
        let cm1 :=
          with_stats (with_cache cm (PyDict.delitem oldest (_cache cm)))
                     (count_eviction (stats cm)) in
        Ok (insert_entry cm1 source location d now)
    end
  else Ok (insert_entry cm source location d now).

Definition clear (cm : t) : t := with_cache cm [].

End CacheManager.

(** The key of a source and a location in the store. *)
Definition key_of (source : string) (location : Location.t) : string :=
  CacheManager._make_key source (Location.grid_hash location).






(** Sample values used to run the definitions. *)
Definition murray : Location.t := {|
  Location.lat := 40666 # 1000;
  Location.lng := -111897 # 1000;
  Location.name := "Murray";
  Location.address := "";
  Location.grid_hash := "40.666_-111.897"
|}.

Definition hour : Z := 3600000000.

(** A cache of capacity 2 that is full: "inat" was written at hour 5,
    "soil" at hour 1. *)
Definition full_cache : CacheManager.t := {|
  CacheManager.ttl_hours := 24;
  CacheManager.max_entries := 2;
  CacheManager._cache := [
    ("inat:40.666_-111.897",
     {| CacheManager.data := [("count", PyInt 7)];
        CacheManager.timestamp := 5 * hour |});
    ("soil:40.666_-111.897",
     {| CacheManager.data := [("ph", PyInt 6)];
        CacheManager.timestamp := 1 * hour |})];
  CacheManager.stats :=
    {| CacheManager.hits := 0; CacheManager.misses := 2;
       CacheManager.evictions := 0 |}
|}.

Module DataSource.
(** A source is its name and its [fetch]; what [fetch] does may depend
    on everything that happened before, so it reads the world. *)
Record t (W : Type) := {
  name : string;
  fetch : W -> Location.t -> Result Payload
}.
Arguments name {W} _.
Arguments fetch {W} _ _ _.
End DataSource.

(** What a bundle holds under a key: the location, or a payload. *)
Inductive BundleValue :=
| BLocation (l : Location.t)
| BPayload (p : Payload).

Module ScoringAlgorithm.
Record t := {
  name : string;
  tool : string;
  calculate : Location.t -> gmap string BundleValue -> Result ScoringResult.t
}.
End ScoringAlgorithm.

(** The world outside the engine: the clock, read once per
    [datetime.utcnow()], and the calls made to the sources' [fetch]. *)
Record World := {
  clock : nat -> Z;
  reads : nat;
  fetch_log : list (string * Location.t)
}.

Definition tick (w : World) : World :=
  {| clock := clock w; reads := S (reads w); fetch_log := fetch_log w |}.

Definition log_fetch (name : string) (l : Location.t) (w : World) : World :=
  {| clock := clock w; reads := reads w;
     fetch_log := fetch_log w ++ [(name, l)] |}.

Module PollinatorEngine.

Record t := {
  _sources : PyDict.t (DataSource.t World);
  _algorithms : gmap string ScoringAlgorithm.t;
  _cache : CacheManager.t
}.

Definition init (cache_ttl_hours : Z) : t := {|
  _sources := [];
  _algorithms := ∅;
  _cache := CacheManager.init cache_ttl_hours 1000
|}.

Definition with_cache (e : t) (cm : CacheManager.t) : t :=
  {| _sources := _sources e; _algorithms := _algorithms e; _cache := cm |}.

Definition register_source (e : t) (source : DataSource.t World) : t :=
  {| _sources := PyDict.setitem (DataSource.name source) source (_sources e);
     _algorithms := _algorithms e; _cache := _cache e |}.

Definition register_algorithm (e : t) (a : ScoringAlgorithm.t) : t :=
  {| _sources := _sources e;
     _algorithms := <[ScoringAlgorithm.name a := a]> (_algorithms e);
     _cache := _cache e |}.

Definition list_sources (e : t) : list string := PyDict.keys (_sources e).

(** *** The effects of the engine's methods

    A method runs on the engine and the world and either returns or
    raises; in both cases the state it has reached is kept. *)
Definition M (A : Type) : Type := t * World -> Result A * (t * World).

Definition ret {A} (a : A) : M A := fun s => (Ok a, s).

Definition bind {A B} (m : M A) (k : A -> M B) : M B :=
  fun s =>
    match m s with
    | (Ok a, s') => k a s'
    | (Raise e, s') => (Raise e, s')
    end.

Definition raise {A} (e : Exception) : M A := fun s => (Raise e, s).

(** [try: body / except Exception as e: handler(e)]: the handler runs
    for the instances of [Exception]; any other exception goes on to the
    caller. *)
Definition try_except {A} (body : M A) (handler : Exception -> M A) : M A :=
  fun s =>
    match body s with
    | (Ok a, s') => (Ok a, s')
    | (Raise (IsException e), s') => handler e s'
    | (Raise (NotException cls msg), s') => (Raise (NotException cls msg), s')
    end.

Notation "x <- m ;; k" := (bind m (fun x => k))
  (at level 100, m at next level, right associativity).

(** [self._cache.get(source_name, location)]: [get] reads the clock only
    when it finds the key. *)
Definition cache_get (source_name : string) (location : Location.t)
    : M (option Payload) :=
  fun '(e, w) =>
    let key :=
      CacheManager._make_key source_name (Location.grid_hash location) in
    let '(r, cm) :=
      CacheManager.get (_cache e) source_name location (clock w (reads w)) in
    (Ok r,
     (with_cache e cm,
      match PyDict.get key (CacheManager._cache (_cache e)) with
      | Some _ => tick w
      | None => w
      end)).

(** [self._cache.set(source_name, location, result)]: the clock is read
    in the last statement of [set], after the eviction. *)
Definition cache_set (source_name : string) (location : Location.t)
    (result : Payload) : M unit :=
  fun '(e, w) =>
    match CacheManager.set (_cache e) source_name location result
            (clock w (reads w)) with
    | Ok cm => (Ok tt, (with_cache e cm, tick w))
    | Raise x => (Raise x, (e, w))
    end.

(** [await source.fetch(location)] *)
Definition call_fetch (source : DataSource.t World) (location : Location.t)
    : M Payload :=
  fun '(e, w) =>
    (DataSource.fetch source w location,
     (e, log_fetch (DataSource.name source) location w)).

Definition error_payload (e : Exception) : BundleValue :=
  BPayload [("error", PyStr (str e))].

(** The body of the loop of [fetch_data] for one source name; the bundle
    [data] is threaded through.  In the [try] block the result is put in
    the bundle before [set] runs; when [set] raises, the handler assigns
    the same key again, so the handler's bundle is [data] with the error
    under that key in both cases. *)
Definition fetch_one (location : Location.t) (source_name : string)
    (data : gmap string BundleValue) : M (gmap string BundleValue) :=
  fun '(e, w) =>
    match PyDict.get source_name (_sources e) with
    | None => ret data (e, w)
    | Some source =>
        (cached <- cache_get source_name location ;;
         match cached with
         | Some p => ret (<[source_name := BPayload p]> data)
         | None =>
             try_except
               (result <- call_fetch source location ;;
                _ <- cache_set source_name location result ;;
                ret (<[source_name := BPayload result]> data))
               (fun x => ret (<[source_name := error_payload x]> data))
         end) (e, w)
    end.

Fixpoint fetch_loop (location : Location.t) (names : list string)
    (data : gmap string BundleValue) : M (gmap string BundleValue) :=
  match names with
  | [] => ret data
  | source_name :: rest =>
      data' <- fetch_one location source_name data ;;
      fetch_loop location rest data'
  end.

(** [sources or list(self._sources.keys())]: [None] and the empty list
    both stand for every registered source. *)
Definition requested (e : t) (sources : option (list string))
    : list string :=
  match sources with
  | Some (n :: ns) => n :: ns
  | _ => PyDict.keys (_sources e)
  end.

Definition fetch_data (location : Location.t)
    (sources : option (list string)) : M (gmap string BundleValue) :=
  fun '(e, w) =>
    fetch_loop location (requested e sources)
      {["_location" := BLocation location]} (e, w).

Definition score (location : Location.t) (algorithm : string)
    : M ScoringResult.t :=
  fun '(e, w) =>
    match _algorithms e !! algorithm with
    | None => raise (ValueError ("Unknown algorithm: " ++ algorithm)) (e, w)
    | Some algo =>
        (data <- fetch_data location None ;;
         fun s => (ScoringAlgorithm.calculate algo location data, s)) (e, w)
    end.

Fixpoint batch_score (locations : list Location.t) (algorithm : string)
    : M (list ScoringResult.t) :=
  match locations with
  | [] => ret []
  | loc :: rest =>
      result <- score loc algorithm ;;
      results <- batch_score rest algorithm ;;
      ret (result :: results)
  end.

Definition clear_cache (e : t) : t :=
  with_cache e (CacheManager.clear (_cache e)).

End PollinatorEngine.

(** Sample sources, engines and worlds used to run the definitions. *)
Definition broken : DataSource.t World := {|
  DataSource.name := "broken";
  DataSource.fetch := fun _ _ => Raise (Exc "ConnectionError" "provider down")
|}.

Definition inat : DataSource.t World := {|
  DataSource.name := "inat";
  DataSource.fetch := fun _ _ => Ok [("count", PyInt 7)]
|}.

Definition sample_engine : PollinatorEngine.t :=
  PollinatorEngine.register_source
    (PollinatorEngine.register_source (PollinatorEngine.init 24) broken) inat.

(** The sample engine with an entry for "broken" written at time 0. *)
Definition stale_engine : PollinatorEngine.t :=
  PollinatorEngine.with_cache sample_engine {|
    CacheManager.ttl_hours := 24;
    CacheManager.max_entries := 1000;
    CacheManager._cache := [
      ("broken:40.666_-111.897",
       {| CacheManager.data := [("status", PyStr "ok")];
          CacheManager.timestamp := 0 |})];
    CacheManager.stats :=
      {| CacheManager.hits := 0; CacheManager.misses := 1;
         CacheManager.evictions := 0 |}
  |}.

(** A world whose clock shows [t] at every reading. *)
Definition world_at (t : Z) : World :=
  {| clock := fun _ => t; reads := 0; fetch_log := [] |}.

(** A source raises only instances of [Exception] when no call of its
    [fetch] raises an exception outside that class; the sources of an
    engine do when every registered source does. *)
Definition raises_only_Exception (source : DataSource.t World) : Prop :=
  forall w location cls msg,
    DataSource.fetch source w location <> Raise (NotException cls msg).

Definition sources_raise_only_Exception (e : PollinatorEngine.t) : Prop :=
  forall n source,
    PyDict.get n (PollinatorEngine._sources e) = Some source ->
    raises_only_Exception source.



(** ** scoring_api.py: the grade and tier ladders of the API *)

Module ScoringApi.

Definition score_to_grade (score : Q) : string :=
  if Qgeb score 90 then "A+"
  else if Qgeb score 85 then "A"
  else if Qgeb score 80 then "A-"
  else if Qgeb score 77 then "B+"
  else if Qgeb score 73 then "B"
  else if Qgeb score 70 then "B-"
  else if Qgeb score 67 then "C+"
  else if Qgeb score 63 then "C"
  else if Qgeb score 60 then "C-"
  else if Qgeb score 50 then "D"
  else "F".

Definition get_tier (score : Q) : string :=
  if Qgeb score 85 then "Pollinator Champion"
  else if Qgeb score 70 then "Habitat Hero"
  else if Qgeb score 55 then "Bee Friendly"
  else if Qgeb score 40 then "Growing"
  else "Seedling".

End ScoringApi.

(** ** Vocabulary of the further properties *)

(** The property [d] with [neighbors_in_program] replaced by [n]. *)
Definition with_neighbors (n : Z) (d : ScoringV2.PropertyData)
    : ScoringV2.PropertyData := {|
  ScoringV2.lat := ScoringV2.lat d;
  ScoringV2.lng := ScoringV2.lng d;
  ScoringV2.grid_hash := ScoringV2.grid_hash d;
  ScoringV2.plants := ScoringV2.plants d;
  ScoringV2.estimated_flower_coverage_pct :=
    ScoringV2.estimated_flower_coverage_pct d;
  ScoringV2.has_bare_ground := ScoringV2.has_bare_ground d;
  ScoringV2.bare_ground_sqft := ScoringV2.bare_ground_sqft d;
  ScoringV2.has_dead_wood := ScoringV2.has_dead_wood d;
  ScoringV2.has_brush_pile := ScoringV2.has_brush_pile d;
  ScoringV2.has_bee_hotel := ScoringV2.has_bee_hotel d;
  ScoringV2.leaves_stems_over_winter := ScoringV2.leaves_stems_over_winter d;
  ScoringV2.neighbors_in_program := n;
  ScoringV2.green_space_within_500m := ScoringV2.green_space_within_500m d;
  ScoringV2.distance_to_nearest_habitat_m :=
    ScoringV2.distance_to_nearest_habitat_m d;
  ScoringV2.uses_pesticides := ScoringV2.uses_pesticides d;
  ScoringV2.pesticide_frequency := ScoringV2.pesticide_frequency d;
  ScoringV2.mowing_frequency := ScoringV2.mowing_frequency d;
  ScoringV2.lot_size_sqft := ScoringV2.lot_size_sqft d;
  ScoringV2.impervious_surface_pct := ScoringV2.impervious_surface_pct d
|}.

(** The ten signals [calculate_data_completeness] counts, as conditions
    on the fields, in the order of the code. *)
Definition signals (d : ScoringV2.PropertyData) : list Prop := [
  ScoringV2.plants d <> [];
  (0 < ScoringV2.estimated_flower_coverage_pct d)%Q;
  ScoringV2.has_bare_ground d = true \/ (0 < ScoringV2.bare_ground_sqft d)%Q;
  ScoringV2.has_dead_wood d = true \/ ScoringV2.has_bee_hotel d = true
    \/ ScoringV2.has_brush_pile d = true;
  ScoringV2.leaves_stems_over_winter d = true;
  ScoringV2.mowing_frequency d <> "weekly";
  ScoringV2.pesticide_frequency d <> "never";
  ~ (ScoringV2.lot_size_sqft d == 5000)%Q;
  ~ (ScoringV2.impervious_surface_pct d == 30)%Q;
  0 < ScoringV2.neighbors_in_program d
].

(** The number of [true] in a list of truth values. *)
Definition count_true (bs : list bool) : Z :=
  Z.of_nat (length (List.filter (fun b => b) bs)).

(** The value a recommendation holds under a key, when it is a string. *)
Definition rec_str (key : string) (r : ScoringV2.RecDict) : option string :=
  match PyDict.get key r with
  | Some (ScoringV2.RStr s) => Some s
  | _ => None
  end.

Definition titles (recs : list ScoringV2.RecDict) : list (option string) :=
  List.map (rec_str "title") recs.

Definition priorities (recs : list ScoringV2.RecDict) : list (option string) :=
  List.map (rec_str "priority") recs.

(** The letter of a grade without its sign: its first character. *)
Definition base_letter (grade : string) : string :=
  match grade with
  | String c _ => String c EmptyString
  | EmptyString => EmptyString
  end.

(** The position of a grade of the API ladder, F lowest. *)
Definition api_grade_rank (grade : string) : nat :=
  if String.eqb grade "A+" then 10
  else if String.eqb grade "A" then 9
  else if String.eqb grade "A-" then 8
  else if String.eqb grade "B+" then 7
  else if String.eqb grade "B" then 6
  else if String.eqb grade "B-" then 5
  else if String.eqb grade "C+" then 4
  else if String.eqb grade "C" then 3
  else if String.eqb grade "C-" then 2
  else if String.eqb grade "D" then 1
  else 0.

(** The position of a tier of the API, Seedling lowest. *)
Definition tier_rank (tier : string) : nat :=
  if String.eqb tier "Pollinator Champion" then 4
  else if String.eqb tier "Habitat Hero" then 3
  else if String.eqb tier "Bee Friendly" then 2
  else if String.eqb tier "Growing" then 1
  else 0.

(** The property [d] with [impervious_surface_pct] replaced by [pct]. *)
Definition with_impervious (pct : Q) (d : ScoringV2.PropertyData)
    : ScoringV2.PropertyData := {|
  ScoringV2.lat := ScoringV2.lat d;
  ScoringV2.lng := ScoringV2.lng d;
  ScoringV2.grid_hash := ScoringV2.grid_hash d;
  ScoringV2.plants := ScoringV2.plants d;
  ScoringV2.estimated_flower_coverage_pct :=
    ScoringV2.estimated_flower_coverage_pct d;
  ScoringV2.has_bare_ground := ScoringV2.has_bare_ground d;
  ScoringV2.bare_ground_sqft := ScoringV2.bare_ground_sqft d;
  ScoringV2.has_dead_wood := ScoringV2.has_dead_wood d;
  ScoringV2.has_brush_pile := ScoringV2.has_brush_pile d;
  ScoringV2.has_bee_hotel := ScoringV2.has_bee_hotel d;
  ScoringV2.leaves_stems_over_winter := ScoringV2.leaves_stems_over_winter d;
  ScoringV2.neighbors_in_program := ScoringV2.neighbors_in_program d;
  ScoringV2.green_space_within_500m := ScoringV2.green_space_within_500m d;
  ScoringV2.distance_to_nearest_habitat_m :=
    ScoringV2.distance_to_nearest_habitat_m d;
  ScoringV2.uses_pesticides := ScoringV2.uses_pesticides d;
  ScoringV2.pesticide_frequency := ScoringV2.pesticide_frequency d;
  ScoringV2.mowing_frequency := ScoringV2.mowing_frequency d;
  ScoringV2.lot_size_sqft := ScoringV2.lot_size_sqft d;
  ScoringV2.impervious_surface_pct := pct
|}.

(** The sum of the four component weights of a model. *)
Definition weights_sum (model : ScoringConfig.Json) : option Q :=
  match ScoringConfig.num_at ["weights"; "floral"] model,
        ScoringConfig.num_at ["weights"; "nesting"] model,
        ScoringConfig.num_at ["weights"; "connectivity"] model,
        ScoringConfig.num_at ["weights"; "management"] model with
  | Some f, Some n, Some c, Some m => Some (f + n + c + m)%Q
  | _, _, _, _ => None
  end.

(** The engine's cache holds each key once and is within its positive
    capacity. *)
Definition cache_within_capacity (e : PollinatorEngine.t) : Prop :=
  PyDict.wf (CacheManager._cache (PollinatorEngine._cache e))
  /\ 0 < CacheManager.max_entries (PollinatorEngine._cache e)
  /\ Z.of_nat (length (CacheManager._cache (PollinatorEngine._cache e)))
     <= CacheManager.max_entries (PollinatorEngine._cache e).

(** ** score_engine.py: building the property data

    [build_property_data] creates the [PlantInventory] and [PropertyData]
    instances by keyword.  The dataclass decorator generates an [__init__]
    whose parameters are the fields in order, those without a default
    being required; the call binds the keywords to these parameters and
    raises [TypeError] when a keyword names no parameter or a required
    parameter gets no value (messages as CPython 3.10 and later words
    them).  What the argument expressions evaluate to plays no part in
    the binding; their outcomes, a value for each keyword or an exception,
    are parameters here. *)

Module ScoreEngine.

Definition TypeError (msg : string) : Exception := Exc "TypeError" msg.

(** The fields of the two dataclasses of [scoring_v2.py]: name, and
    whether the field has a default. *)
Definition PlantInventory_fields : list (string * bool) := [
  ("species", false); ("count", true); ("bloom_seasons", true);
  ("is_native", true); ("is_milkweed", true)].

Definition PropertyData_fields : list (string * bool) := [
  ("lat", false); ("lng", false); ("grid_hash", true);
  ("plants", true); ("estimated_flower_coverage_pct", true);
  ("has_bare_ground", true); ("bare_ground_sqft", true);
  ("has_dead_wood", true); ("has_brush_pile", true);
  ("has_bee_hotel", true); ("leaves_stems_over_winter", true);
  ("neighbors_in_program", true); ("green_space_within_500m", true);
  ("distance_to_nearest_habitat_m", true);
  ("uses_pesticides", true); ("pesticide_frequency", true);
  ("mowing_frequency", true);
  ("lot_size_sqft", true); ("impervious_surface_pct", true)].

(** A value: one the caller supplies, an instance with the keyword
    arguments bound by its constructor, or a list. *)
#[local] Unset Elimination Schemes.
Inductive PyObj (V : Type) :=
| Given (v : V)
| Instance (cls : string) (bound : list (string * PyObj V))
| PyList (items : list (PyObj V)).
#[local] Set Elimination Schemes.
Arguments Given {V} v.
Arguments Instance {V} cls bound.
Arguments PyList {V} items.

Definition quoted (s : string) : string := "'" ++ s ++ "'".

(** The names of the missing parameters, as the message lists them. *)
Fixpoint last_names (names : list string) : string :=
  match names with
  | [] => ""
  | [y] => quoted y
  | [y; z] => quoted y ++ ", and " ++ quoted z
  | a :: rest => quoted a ++ ", " ++ last_names rest
  end.

Definition missing_names (names : list string) : string :=
  match names with
  | [a] => quoted a
  | [a; b] => quoted a ++ " and " ++ quoted b
  | _ => last_names names
  end.

Definition is_field (fields : list (string * bool)) (k : string) : bool :=
  existsb (fun f => String.eqb k (fst f)) fields.

Definition provided {A} (kwargs : list (string * A)) (k : string) : bool :=
  existsb (fun kv => String.eqb k (fst kv)) kwargs.

(** The call [cls(k1=v1, ..., kn=vn)] of a dataclass. *)
Definition construct {V} (cls : string) (fields : list (string * bool))
    (kwargs : list (string * PyObj V)) : Result (PyObj V) :=
  match List.find (fun kv => negb (is_field fields (fst kv))) kwargs with
  | Some (k, _) =>
      Raise (TypeError (cls ++ ".__init__() got an unexpected keyword argument "
                        ++ quoted k))
  | None =>
      let missing :=
        List.map fst
          (List.filter (fun f => negb (snd f) && negb (provided kwargs (fst f)))
                       fields) in
      match missing with
      | [] => Ok (Instance cls kwargs)
      | _ =>
          Raise (TypeError
            (cls ++ ".__init__() missing " ++ pretty (length missing)
             ++ " required positional argument"
             ++ (if Nat.eqb (length missing) 1 then "" else "s")
             ++ ": " ++ missing_names missing))
      end
  end.

(** The loop that builds [plant_list]: for each plant row the argument
    expressions are evaluated, which gives a value for each keyword or
    raises, and then [PlantInventory] is called. *)
Fixpoint build_plant_list {V} (plants : list (Result (string -> V)))
    : Result (list (PyObj V)) :=
  match plants with
  | [] => Ok []
  | Raise x :: _ => Raise x
  | Ok p :: rest =>
      match construct "PlantInventory" PlantInventory_fields [
              ("species", Given (p "species"));
              ("count", Given (p "count"));
              ("bloom_seasons", Given (p "bloom_seasons"));
              ("is_native", Given (p "is_native"));
              ("is_milkweed", Given (p "is_milkweed"))] with
      | Raise x => Raise x
      | Ok plant =>
          match build_plant_list rest with
          | Raise x => Raise x
          | Ok plant_list => Ok (plant :: plant_list)
          end
      end
  end.

(** [build_property_data]: the plant list is built, then the coverage
    estimate and the argument expressions of the final call are evaluated,
    which gives a value for each keyword or raises, and then
    [PropertyData] is called. *)
Definition build_property_data {V} (plants : list (Result (string -> V)))
    (args : Result (string -> V)) : Result (PyObj V) :=
  match build_plant_list plants with
  | Raise x => Raise x
  | Ok plant_list =>
      match args with
      | Raise x => Raise x
      | Ok arg =>
          construct "PropertyData" PropertyData_fields [
            ("lat", Given (arg "lat"));
            ("lng", Given (arg "lng"));
            ("grid_hash", Given (arg "grid_hash"));
            ("plants", PyList plant_list);
            ("flower_coverage_pct", Given (arg "flower_coverage_pct"));
            ("has_bare_ground", Given (arg "has_bare_ground"));
            ("bare_ground_sqft", Given (arg "bare_ground_sqft"));
            ("has_dead_wood", Given (arg "has_dead_wood"));
            ("has_bee_hotel", Given (arg "has_bee_hotel"));
            ("has_brush_pile", Given (arg "has_brush_pile"));
            ("leaves_stems_over_winter", Given (arg "leaves_stems_over_winter"));
            ("uses_pesticides", Given (arg "uses_pesticides"));
            ("pesticide_frequency", Given (arg "pesticide_frequency"));
            ("mowing_frequency", Given (arg "mowing_frequency"));
            ("neighbors_in_program", Given (arg "neighbors_in_program"));
            ("green_space_within_500m", Given (arg "green_space_within_500m"));
            ("impervious_surface_pct", Given (arg "impervious_surface_pct"));
            ("lot_size_sqft", Given (arg "lot_size_sqft"))]
      end
  end.

End ScoreEngine.

(** Whether a string contains the separator of the cache keys. *)
Fixpoint has_colon (s : string) : bool :=
  match s with
  | EmptyString => false
  | String c rest => Ascii.eqb c ":"%char || has_colon rest
  end.

(** * Properties *)

(** ** Comparisons, [min] and [max] *)

Lemma Qltb_lt a b : Qltb a b = true <-> (a < b)%Q.
Proof.
  unfold Qltb. rewrite negb_true_iff.
  destruct (Qle_bool b a) eqn:E.
  - apply Qle_bool_iff in E. split; [discriminate | intros H; lra].
  - split; [intros _ | reflexivity].
    destruct (Qlt_le_dec a b) as [H | H]; [exact H |].
    apply Qle_bool_iff in H. congruence.
Qed.

Lemma Qltb_ge a b : Qltb a b = false <-> (b <= a)%Q.
Proof.
  unfold Qltb. rewrite negb_false_iff. apply Qle_bool_iff.
Qed.

Lemma Qgeb_le x t : Qgeb x t = true <-> (t <= x)%Q.
Proof. apply Qle_bool_iff. Qed.

Lemma Qgeb_lt x t : Qgeb x t = false <-> (x < t)%Q.
Proof.
  unfold Qgeb. destruct (Qle_bool t x) eqn:E.
  - apply Qle_bool_iff in E. split; [discriminate | intros H; lra].
  - split; [intros _ | reflexivity].
    destruct (Qlt_le_dec x t) as [H | H]; [exact H |].
    apply Qle_bool_iff in H. congruence.
Qed.

Ltac case_Qltb :=
  repeat match goal with
  | |- context [Qltb ?a ?b] =>
      let E := fresh "E" in
      destruct (Qltb a b) eqn:E;
      [apply Qltb_lt in E | apply Qltb_ge in E]
  end.

Lemma py_min_le_l a b : (py_min a b <= a)%Q.
Proof. unfold py_min. case_Qltb; lra. Qed.

Lemma py_min_le_r a b : (py_min a b <= b)%Q.
Proof. unfold py_min. case_Qltb; lra. Qed.

Lemma py_max_ge_l a b : (a <= py_max a b)%Q.
Proof. unfold py_max. case_Qltb; lra. Qed.

Lemma py_max_min_clamp x lo hi :
  (lo <= hi)%Q -> (py_max lo (py_min hi x) == clamp x lo hi)%Q.
Proof.
  intros Hlh. unfold py_min.
  destruct (Qltb x hi) eqn:E1; [apply Qltb_lt in E1 | apply Qltb_ge in E1];
    unfold py_max, clamp; case_Qltb; lra.
Qed.

Lemma clamp_bounds x lo hi :
  (lo <= hi)%Q -> (lo <= clamp x lo hi <= hi)%Q.
Proof.
  intros Hlh. unfold clamp. case_Qltb; lra.
Qed.


(** ** The scoring rule set *)

Section ScoringV2_properties.
Import ScoringV2.

Lemma final_score_unfold data :
  final_score (score_property data) =
  py_max 0 (py_min 100 (raw_score (score_property data)
                        + impervious_penalty (score_property data))).
Proof.
  unfold score_property.
  cbn [final_score raw_score impervious_penalty]. reflexivity.
Qed.

Lemma raw_score_unfold data :
  raw_score (score_property data) =
  (floral_score (score_property data) + nesting_score (score_property data)
   + connectivity_score (score_property data)
   + management_score (score_property data))%Q.
Proof.
  unfold score_property.
  cbn [raw_score floral_score nesting_score connectivity_score
       management_score].
  reflexivity.
Qed.

(** The two scenarios of the specification, run on the embedding: the
    empty yard scores 15.2 (raw 18, penalty -2.8), grade F, completeness 0,
    confidence low; one native milkweed blooming in summer on a lot with 60%
    impervious surface scores 22 (floral 7, management 15, penalty -10). *)
Example empty_yard_scenario :
  let b := score_property (default_PropertyData (40666 # 1000) (-111897 # 1000)) in
  (Qred (raw_score b), Qred (impervious_penalty b), Qred (final_score b),
   grade b, Qred (data_completeness b), confidence b)
  = (18%Q, (-14 # 5)%Q, (76 # 5)%Q, "F", 0%Q, "low").
Proof. vm_compute. reflexivity. Qed.

Example high_impervious_scenario :
  let b := score_property (high_impervious_lot) in
  (Qred (floral_score b), Qred (nesting_score b), Qred (connectivity_score b),
   Qred (management_score b), Qred (impervious_penalty b),
   Qred (final_score b), grade b)
  = (7%Q, 0%Q, 10%Q, 15%Q, (-10)%Q, 22%Q, "F").
Proof. vm_compute. reflexivity. Qed.

(** C1. The final score of [score_property] is the clamp to [0, 100] of
    the four category totals plus the impervious penalty, where the
    breakdown's category scores and penalty are the results of the four
    category scorers and of [calculate_impervious_penalty]; so the final
    score lies in [0, 100] for every input. *)
Theorem score_property_final_score_clamped (data : PropertyData) :
  (final_score (score_property data) ==
     clamp (floral_score (score_property data)
            + nesting_score (score_property data)
            + connectivity_score (score_property data)
            + management_score (score_property data)
            + impervious_penalty (score_property data)) 0 100)%Q
  /\ floral_score (score_property data)
     = Floral.total (score_floral_resources data)
  /\ nesting_score (score_property data)
     = Nesting.total (score_nesting_habitat data)
  /\ connectivity_score (score_property data)
     = Connectivity.total (score_connectivity data)
  /\ management_score (score_property data)
     = Management.total (score_management data)
  /\ impervious_penalty (score_property data)
     = calculate_impervious_penalty data
  /\ (0 <= final_score (score_property data) <= 100)%Q.
Proof.
  assert (H : (final_score (score_property data) ==
     clamp (floral_score (score_property data)
            + nesting_score (score_property data)
            + connectivity_score (score_property data)
            + management_score (score_property data)
            + impervious_penalty (score_property data)) 0 100)%Q).
  { rewrite final_score_unfold, raw_score_unfold.
    apply py_max_min_clamp. lra. }
  split; [exact H |].
  repeat (split;
    [unfold score_property;
     cbn [floral_score nesting_score connectivity_score management_score
          impervious_penalty]; reflexivity |]).
  rewrite H. apply clamp_bounds. lra.
Qed.

(** C7, as stated, fails: with the default [uses_pesticides = False] a
    property whose frequency is "often" gets the full credit of 8, not 0,
    and two inputs with the same frequency get different credits. *)
Lemma pesticide_credit_not_by_frequency_alone :
  pesticide_frequency (yard false "often" "weekly") = "often"
  /\ pesticide_frequency (yard true "often" "weekly") = "often"
  /\ Management.pesticide_free (score_management (yard false "often" "weekly"))
     = 8%Q
  /\ Management.pesticide_free (score_management (yard true "often" "weekly"))
     = 0%Q
  /\ ~ (Management.pesticide_free
          (score_management (yard false "often" "weekly")) == 0)%Q.
Proof.
  repeat split; try reflexivity. intros H. vm_compute in H. discriminate.
Qed.

(** C7, amended. The pesticide credit depends on [uses_pesticides] and on
    [pesticide_frequency]: it is 8 whenever [uses_pesticides] is false, and
    when it is true the credit is the one the frequency table gives
    (never 8, rarely 5, sometimes 2, often 0). *)
Theorem pesticide_credit (data : PropertyData) :
  Management.pesticide_free (score_management data) =
  if uses_pesticides data
  then pesticide_credit_by_frequency (pesticide_frequency data)
  else 8%Q.
Proof.
  unfold score_management, pesticide_credit_by_frequency.
  cbn [Management.pesticide_free].
  destruct (uses_pesticides data); cbn [negb orb]; reflexivity.
Qed.

(** C6 fails on the code.  [score_property] takes no configuration, and
    [ScoreBreakdown] has no field for a version; the point values it uses
    are its own and differ from those of the model table: under the active
    model "2.0.0" the table gives monthly mowing 2 points and sets grade A
    at 85, where the code gives 3 points and grade A from 80; and the fall
    points of model "2.1.0-beta" (8) are not the 6 the code awards. *)
Lemma score_property_ignores_model_configuration :
  ScoringConfig.get_model_version = "2.0.0"
  /\ (ScoringConfig.get_active_model
      ≫= ScoringConfig.num_at ["nesting_config"; "mowing_points"; "monthly"])
     = Some 2%Q
  /\ nesting_undisturbed (score_property (yard false "never" "monthly")) = 3%Q
  /\ (ScoringConfig.get_active_model
      ≫= ScoringConfig.num_at ["grade_thresholds"; "A"]) = Some 85%Q
  /\ get_grade 82 = "A"
  /\ (ScoringConfig.get_model "2.1.0-beta"
      ≫= ScoringConfig.num_at ["floral_config"; "fall_points"]) = Some 8%Q
  /\ floral_fall (score_property (garden [rabbitbrush] false "never" "weekly"))
     = 6%Q.
Proof. repeat split; vm_compute; reflexivity. Qed.

End ScoringV2_properties.

(** ** Grades *)

Section Grade_properties.
Import HabitatGrade.

Ltac grade_cases s :=
  unfold ScoringV2.get_grade, from_score, members, first_reached;
  cbn [min_score]; unfold inject_Z;
  repeat match goal with
  | |- context [Qgeb s ?t] =>
      let E := fresh "E" in
      destruct (Qgeb s t) eqn:E;
      [apply Qgeb_le in E | apply Qgeb_lt in E]
  end.

Lemma members_strictly_decreasing :
  StronglySorted Z.gt (map min_score members).
Proof.
  cbn. repeat (constructor; [| repeat constructor; lia]). constructor.
Qed.

Lemma get_grade_letter s :
  ScoringV2.get_grade s = letter (from_score s).
Proof. grade_cases s; reflexivity. Qed.

Lemma from_score_first_tier s : first_tier s (from_score s).
Proof.
  unfold first_tier. split.
  - grade_cases s; cbn [min_score]; unfold inject_Z;
      first [left; assumption | right; reflexivity].
  - intros g'. grade_cases s; destruct g'; cbn [min_score]; unfold inject_Z;
      intros Hlt; first [lia | assumption | lra].
Qed.

Lemma from_score_monotone s1 s2 :
  (s1 <= s2)%Q -> min_score (from_score s1) <= min_score (from_score s2).
Proof.
  intros H. grade_cases s1; grade_cases s2; cbn [min_score];
    first [lia | exfalso; lra].
Qed.

(** C8. Grade assignment is monotone: for [s1 <= s2] the tier of [s1] is
    never strictly higher than the tier of [s2], for [from_score] and, as
    [get_grade] returns the letter of that tier, for [get_grade]; the
    thresholds are strictly decreasing in iteration order, and the tier
    returned is the first one whose threshold is at most the score, ending
    in the catch-all F. *)
Theorem grade_monotone (s1 s2 : Q) (H : (s1 <= s2)%Q) :
  min_score (from_score s1) <= min_score (from_score s2)
  /\ ScoringV2.get_grade s1 = letter (from_score s1)
  /\ ScoringV2.get_grade s2 = letter (from_score s2)
  /\ StronglySorted Z.gt (map min_score members)
  /\ first_tier s1 (from_score s1)
  /\ first_tier s2 (from_score s2).
Proof.
  repeat split;
    auto using from_score_monotone, get_grade_letter,
      members_strictly_decreasing;
    apply from_score_first_tier.
Qed.

Lemma grade_monotone_witness :
  (72 <= 85)%Q
  /\ min_score (from_score 72) <= min_score (from_score 85)
  /\ ScoringV2.get_grade 72 = "B" /\ ScoringV2.get_grade 85 = "A".
Proof.
  assert (H : (72 <= 85)%Q) by (unfold Qle; simpl; lia).
  split; [exact H |].
  destruct (grade_monotone 72 85 H) as (Hm & _).
  split; [exact Hm |]. split; reflexivity.
Defined.

End Grade_properties.

(** ** Ordered dictionaries *)

Section PyDict_properties.
Context {V : Type}.
Implicit Types (d : PyDict.t V) (k : string) (v : V).

Lemma get_In k v d : PyDict.get k d = Some v -> In (k, v) d.
Proof.
  induction d as [| [k' v'] d IH]; cbn; [discriminate |].
  destruct (String.eqb k k') eqn:E.
  - apply String.eqb_eq in E. intros [= ->]. left. congruence.
  - intros H. right. auto.
Qed.

Lemma get_None_keys k d : PyDict.get k d = None <-> ~ In k (PyDict.keys d).
Proof.
  induction d as [| [k' v'] d IH]; cbn; [tauto |].
  destruct (String.eqb k k') eqn:E.
  - apply String.eqb_eq in E. subst k'.
    split; [discriminate | intros H; tauto].
  - apply String.eqb_neq in E. rewrite IH. split; [| tauto].
    intros H [Heq | Hin]; [congruence | tauto].
Qed.

Lemma In_get k v d : PyDict.wf d -> In (k, v) d -> PyDict.get k d = Some v.
Proof.
  unfold PyDict.wf.
  induction d as [| [k' v'] d IH]; cbn; [tauto |].
  intros Hnd [Heq | Hin]; inversion Hnd as [| ? ? Hnotin Hnd']; subst;
    rewrite list_elem_of_In in Hnotin.
  - inversion Heq; subst. now rewrite String.eqb_refl.
  - destruct (String.eqb k k') eqn:E; [| auto].
    apply String.eqb_eq in E. subst k'. exfalso. apply Hnotin.
    change k with (fst (k, v)). now apply in_map.
Qed.

Lemma get_setitem_eq k v d : PyDict.get k (PyDict.setitem k v d) = Some v.
Proof.
  induction d as [| [k' v'] d IH]; cbn.
  - now rewrite String.eqb_refl.
  - destruct (String.eqb k k') eqn:E; cbn; rewrite E; auto.
Qed.

Lemma get_setitem_ne k k' v d :
  k <> k' -> PyDict.get k' (PyDict.setitem k v d) = PyDict.get k' d.
Proof.
  intros Hne. induction d as [| [k0 v0] d IH]; cbn.
  - destruct (String.eqb k' k) eqn:E; [| reflexivity].
    apply String.eqb_eq in E. congruence.
  - destruct (String.eqb k k0) eqn:E; cbn.
    + apply String.eqb_eq in E. subst k0.
      destruct (String.eqb k' k) eqn:E'; [| reflexivity].
      apply String.eqb_eq in E'. congruence.
    + now rewrite IH.
Qed.

Lemma get_delitem_ne k k' d :
  k <> k' -> PyDict.get k' (PyDict.delitem k d) = PyDict.get k' d.
Proof.
  intros Hne. induction d as [| [k0 v0] d IH]; cbn; [reflexivity |].
  destruct (String.eqb k k0) eqn:E; cbn.
  - apply String.eqb_eq in E. subst k0.
    destruct (String.eqb k' k) eqn:E'; [| reflexivity].
    apply String.eqb_eq in E'. congruence.
  - now rewrite IH.
Qed.

Lemma get_delitem_eq k d :
  PyDict.wf d -> PyDict.get k (PyDict.delitem k d) = None.
Proof.
  unfold PyDict.wf.
  induction d as [| [k0 v0] d IH]; cbn; [reflexivity |].
  intros Hnd. inversion Hnd as [| ? ? Hnotin Hnd']; subst.
  rewrite list_elem_of_In in Hnotin.
  destruct (String.eqb k k0) eqn:E; cbn.
  - apply String.eqb_eq in E. subst k0. now apply get_None_keys.
  - rewrite E. auto.
Qed.

Lemma length_delitem k v d :
  PyDict.get k d = Some v -> S (length (PyDict.delitem k d)) = length d.
Proof.
  induction d as [| [k0 v0] d IH]; cbn; [discriminate |].
  destruct (String.eqb k k0) eqn:E; cbn; [reflexivity |].
  intros H. now rewrite IH.
Qed.

Lemma length_setitem_present k v v0 d :
  PyDict.get k d = Some v0 -> length (PyDict.setitem k v d) = length d.
Proof.
  induction d as [| [k1 v1] d IH]; cbn; [discriminate |].
  destruct (String.eqb k k1) eqn:E; cbn; [reflexivity |].
  intros H. now rewrite IH.
Qed.

Lemma length_setitem_fresh k v d :
  PyDict.get k d = None -> length (PyDict.setitem k v d) = S (length d).
Proof.
  induction d as [| [k1 v1] d IH]; cbn; [reflexivity |].
  destruct (String.eqb k k1) eqn:E; cbn; [discriminate |].
  intros H. now rewrite IH.
Qed.

Lemma keys_delitem_incl k d x :
  In x (PyDict.keys (PyDict.delitem k d)) -> In x (PyDict.keys d).
Proof.
  induction d as [| [k0 v0] d IH]; cbn; [tauto |].
  destruct (String.eqb k k0); cbn; tauto.
Qed.

Lemma wf_delitem k d : PyDict.wf d -> PyDict.wf (PyDict.delitem k d).
Proof.
  unfold PyDict.wf.
  induction d as [| [k0 v0] d IH]; cbn; [auto |].
  intros Hnd. inversion Hnd as [| ? ? Hnotin Hnd']; subst.
  rewrite list_elem_of_In in Hnotin.
  destruct (String.eqb k k0); cbn; [assumption |].
  constructor; [| auto].
  rewrite list_elem_of_In.
  intros Hin. apply Hnotin. eapply keys_delitem_incl, Hin.
Qed.

Lemma keys_setitem_incl k v d x :
  In x (PyDict.keys (PyDict.setitem k v d)) -> x = k \/ In x (PyDict.keys d).
Proof.
  induction d as [| [k0 v0] d IH]; cbn; [intuition auto |].
  destruct (String.eqb k k0); cbn; intuition auto.
Qed.

Lemma wf_setitem k v d : PyDict.wf d -> PyDict.wf (PyDict.setitem k v d).
Proof.
  unfold PyDict.wf.
  induction d as [| [k0 v0] d IH]; cbn.
  - intros _. apply NoDup_singleton.
  - intros Hnd. inversion Hnd as [| ? ? Hnotin Hnd']; subst.
    rewrite list_elem_of_In in Hnotin.
    destruct (String.eqb k k0) eqn:E; cbn; [assumption |].
    constructor; [| auto].
    rewrite list_elem_of_In.
    intros Hin. apply keys_setitem_incl in Hin as [-> | Hin]; [| tauto].
    now rewrite String.eqb_refl in E.
Qed.

End PyDict_properties.

(** ** The cache manager *)

Section CacheManager_properties.
Import CacheManager.

Lemma min_from_In best rest : In (min_from best rest) (best :: rest).
Proof.
  revert best. induction rest as [| x rest IH]; intros best; cbn; [auto |].
  destruct (timestamp x.2 <? timestamp best.2).
  - specialize (IH x). cbn in IH. tauto.
  - specialize (IH best). cbn in IH. tauto.
Qed.

Lemma min_from_le_best best rest :
  timestamp (min_from best rest).2 <= timestamp best.2.
Proof.
  revert best. induction rest as [| x rest IH]; intros best; cbn; [lia |].
  destruct (timestamp x.2 <? timestamp best.2) eqn:E.
  - apply Z.ltb_lt in E. specialize (IH x). lia.
  - apply IH.
Qed.

Lemma min_from_le best rest x :
  In x (best :: rest) -> timestamp (min_from best rest).2 <= timestamp x.2.
Proof.
  revert best. induction rest as [| y rest IH]; intros best; cbn.
  - intros [<- | []]. lia.
  - intros Hin.
    destruct (timestamp y.2 <? timestamp best.2) eqn:E;
      [apply Z.ltb_lt in E | apply Z.ltb_ge in E];
      destruct Hin as [<- | [<- | Hin]].
    + pose proof (min_from_le_best y rest). lia.
    + apply min_from_le_best.
    + apply IH. now right.
    + apply min_from_le_best.
    + pose proof (min_from_le_best best rest). lia.
    + apply IH. now right.
Qed.

(** The key [min] selects holds an entry whose write time is at most that
    of every entry of the store. *)
Lemma oldest_key_spec (c : PyDict.t entry) :
  PyDict.wf c -> c <> [] ->
  exists oldest e_old,
    oldest_key c = Some oldest
    /\ PyDict.get oldest c = Some e_old
    /\ forall k e, PyDict.get k c = Some e -> timestamp e_old <= timestamp e.
Proof.
  intros Hwf Hne. destruct c as [| x rest]; [congruence |].
  exists (min_from x rest).1, (min_from x rest).2.
  split; [reflexivity |]. split.
  - apply In_get; [assumption |].
    rewrite <- surjective_pairing. apply min_from_In.
  - intros k e Hget. apply get_In in Hget.
    apply (min_from_le x rest (k, e)). exact Hget.
Qed.

Lemma oldest_key_None (c : PyDict.t entry) : oldest_key c = None <-> c = [].
Proof. destruct c; cbn; split; congruence. Qed.

(** The store holds a key once in every state the manager reaches. *)
Lemma wf_init ttl_h max : PyDict.wf (_cache (init ttl_h max)).
Proof. apply NoDup_nil_2. Qed.

Lemma wf_get cm source location now :
  PyDict.wf (_cache cm) ->
  PyDict.wf (_cache (get cm source location now).2).
Proof.
  intros Hwf. unfold get.
  destruct (PyDict.get _ (_cache cm)) as [e |]; [| exact Hwf].
  destruct (_ <? _); [exact Hwf |]. cbn. now apply wf_delitem.
Qed.

Lemma wf_set cm source location d now cm' :
  PyDict.wf (_cache cm) ->
  set cm source location d now = Ok cm' ->
  PyDict.wf (_cache cm').
Proof.
  intros Hwf. unfold set.
  destruct (_ <=? _); [destruct (oldest_key _); [| discriminate] |];
    intros [= <-]; cbn; auto using wf_setitem, wf_delitem.
Qed.

Lemma wf_clear cm : PyDict.wf (_cache (clear cm)).
Proof. apply NoDup_nil_2. Qed.

(** C4, as stated, fails on a store that is at capacity because the
    capacity is zero: nothing can be evicted from the empty store, and
    [set] raises from [min] instead of evicting and inserting. *)
Lemma set_at_capacity_on_empty_store_raises :
  max_entries (init 24 0) <= Z.of_nat (length (_cache (init 24 0)))
  /\ set (init 24 0) "inat" murray [("count", PyInt 7)] 0
     = Raise (ValueError "min() arg is an empty sequence")
  /\ ~ (exists cm', set (init 24 0) "inat" murray [("count", PyInt 7)] 0
                    = Ok cm').
Proof.
  split; [cbn; lia |]. split; [reflexivity |].
  intros [cm' H]. discriminate H.
Qed.

(** C4, amended. When [set] is called while the store is not empty and
    holds at least [max_entries] entries, exactly one entry is removed, one
    whose write time is at most that of every entry, the eviction counter
    grows by exactly 1, and the new entry is then inserted into what is
    left; whether the written key was present plays no part, so
    overwriting a present key other than the evicted one leaves the store
    one entry smaller.  Below capacity nothing is evicted. *)
Theorem set_evicts_oldest_at_capacity
    (cm : CacheManager.t) (source : string) (location : Location.t)
    (d : Payload) (now : Z)
    (Hwf : PyDict.wf (_cache cm)) :
  (max_entries cm <= Z.of_nat (length (_cache cm)) -> _cache cm <> [] ->
   exists oldest e_old cm',
     oldest_key (_cache cm) = Some oldest
     /\ PyDict.get oldest (_cache cm) = Some e_old
     /\ (forall k e, PyDict.get k (_cache cm) = Some e ->
                     timestamp e_old <= timestamp e)
     /\ S (length (PyDict.delitem oldest (_cache cm))) = length (_cache cm)
     /\ PyDict.get oldest (PyDict.delitem oldest (_cache cm)) = None
     /\ (forall k, k <> oldest ->
           PyDict.get k (PyDict.delitem oldest (_cache cm))
           = PyDict.get k (_cache cm))
     /\ set cm source location d now = Ok cm'
     /\ _cache cm'
        = PyDict.setitem (key_of source location)
            {| data := d; timestamp := now |}
            (PyDict.delitem oldest (_cache cm))
     /\ evictions (stats cm') = evictions (stats cm) + 1
     /\ hits (stats cm') = hits (stats cm)
     /\ misses (stats cm') = misses (stats cm)
     /\ (forall e0, PyDict.get (key_of source location) (_cache cm) = Some e0 ->
           key_of source location <> oldest ->
           S (length (_cache cm')) = length (_cache cm)))
  /\ (Z.of_nat (length (_cache cm)) < max_entries cm ->
      exists cm',
        set cm source location d now = Ok cm'
        /\ _cache cm'
           = PyDict.setitem (key_of source location)
               {| data := d; timestamp := now |} (_cache cm)
        /\ stats cm' = stats cm
        /\ (forall k, k <> key_of source location ->
              PyDict.get k (_cache cm') = PyDict.get k (_cache cm))).
Proof.
  split.
  - intros Hcap Hne.
    destruct (oldest_key_spec (_cache cm) Hwf Hne)
      as (oldest & e_old & Hold & Hget & Hmin).
    exists oldest, e_old.
    eexists. split; [exact Hold |]. split; [exact Hget |].
    split; [exact Hmin |].
    split; [eapply length_delitem; exact Hget |].
    split; [apply get_delitem_eq; exact Hwf |].
    split; [intros k Hk; apply get_delitem_ne; congruence |].
    unfold set. apply Z.leb_le in Hcap. rewrite Hcap, Hold.
    split; [reflexivity |]. cbn.
    repeat (split; [reflexivity |]).
    intros e0 He0 Hk.
    erewrite length_setitem_present.
    + eapply length_delitem; exact Hget.
    + unfold key_of in *. rewrite get_delitem_ne by congruence. exact He0.
  - intros Hlt. eexists. unfold set.
    apply Z.leb_gt in Hlt. rewrite Hlt.
    split; [reflexivity |]. cbn.
    repeat (split; [reflexivity |]).
    intros k Hk. apply get_setitem_ne. unfold key_of in *. congruence.
Qed.

Lemma full_cache_wf : PyDict.wf (_cache full_cache).
Proof. apply (bool_decide_unpack _). vm_compute. exact I. Defined.

Lemma set_evicts_oldest_at_capacity_witness :
  PyDict.wf (_cache full_cache)
  /\ PyDict.get "inat:40.666_-111.897" (_cache full_cache)
     = Some {| data := [("count", PyInt 7)]; timestamp := 5 * hour |}
  /\ exists cm',
       set full_cache "inat" murray [("count", PyInt 9)] (6 * hour) = Ok cm'
       /\ evictions (stats cm') = evictions (stats full_cache) + 1
       /\ S (length (_cache cm')) = length (_cache full_cache).
Proof.
  split; [exact full_cache_wf |]. split; [reflexivity |].
  destruct (set_evicts_oldest_at_capacity full_cache "inat" murray
              [("count", PyInt 9)] (6 * hour) full_cache_wf) as [Hcap _].
  destruct Hcap as (oldest & e_old & cm' & Hold & _ & _ & _ & _ & _ & Hset
                    & _ & Hev & _ & _ & Hlen).
  - cbn. lia.
  - discriminate.
  - exists cm'. split; [exact Hset |]. split; [exact Hev |].
    eapply Hlen; [reflexivity |].
    cbn in Hold. injection Hold as <-. discriminate.
Defined.

Lemma get_unfold cm source location now :
  get cm source location now =
  match PyDict.get (key_of source location) (_cache cm) with
  | Some e =>
      if now - timestamp e <? ttl cm then
        (Some (data e), with_stats cm (count_hit (stats cm)))
      else
        (None,
         with_stats
           (with_cache cm (PyDict.delitem (key_of source location) (_cache cm)))
           (count_miss (stats cm)))
  | None => (None, with_stats cm (count_miss (stats cm)))
  end.
Proof. reflexivity. Qed.

Lemma get_fresh cm source location now e :
  PyDict.get (key_of source location) (_cache cm) = Some e ->
  now - timestamp e < ttl cm ->
  get cm source location now
  = (Some (data e), with_stats cm (count_hit (stats cm))).
Proof.
  intros Hget Hlt. rewrite get_unfold, Hget.
  apply Z.ltb_lt in Hlt. now rewrite Hlt.
Qed.

Lemma get_expired cm source location now e :
  PyDict.get (key_of source location) (_cache cm) = Some e ->
  ttl cm <= now - timestamp e ->
  get cm source location now
  = (None,
     with_stats
       (with_cache cm (PyDict.delitem (key_of source location) (_cache cm)))
       (count_miss (stats cm))).
Proof.
  intros Hget Hge. rewrite get_unfold, Hget.
  apply Z.ltb_ge in Hge. now rewrite Hge.
Qed.



Lemma set_then_get cm source location d T cm1 now :
  set cm source location d T = Ok cm1 ->
  now - T < ttl cm1 ->
  get cm1 source location now
  = (Some d, with_stats cm1 (count_hit (stats cm1))).
Proof.
  intros Hset Hlt.
  assert (Hget : PyDict.get (key_of source location) (_cache cm1)
                 = Some {| data := d; timestamp := T |}).
  { unfold set in Hset.
    destruct (max_entries cm <=? Z.of_nat (length (_cache cm)));
      [destruct (oldest_key (_cache cm)); [| discriminate] |];
      injection Hset as <-; cbn; apply get_setitem_eq. }
  now rewrite (get_fresh _ _ _ _ _ Hget Hlt).
Qed.










(** C10. A hit leaves the store as it is: the mapping, and with it the
    payload and the write time of the entry read, are unchanged, only the
    hit counter moves; so the entry [min] would evict is the same as
    before, and a later read of the key is a hit exactly when it comes
    within the TTL of the original write. *)
Theorem get_hit_leaves_store_unchanged
    (cm : CacheManager.t) (source : string) (location : Location.t) (now : Z)
    (e : entry)
    (Hget : PyDict.get (key_of source location) (_cache cm) = Some e)
    (Hfresh : now - timestamp e < ttl cm) :
  (get cm source location now).1 = Some (data e)
  /\ _cache (get cm source location now).2 = _cache cm
  /\ PyDict.get (key_of source location)
       (_cache (get cm source location now).2) = Some e
  /\ oldest_key (_cache (get cm source location now).2)
     = oldest_key (_cache cm)
  /\ ttl_hours (get cm source location now).2 = ttl_hours cm
  /\ max_entries (get cm source location now).2 = max_entries cm
  /\ misses (stats (get cm source location now).2) = misses (stats cm)
  /\ evictions (stats (get cm source location now).2) = evictions (stats cm)
  /\ hits (stats (get cm source location now).2) = hits (stats cm) + 1
  /\ forall now2,
       is_Some (get (get cm source location now).2 source location now2).1
       <-> now2 - timestamp e < ttl cm.
Proof.
  rewrite (get_fresh _ _ _ _ _ Hget Hfresh). cbn.
  repeat (split; [first [reflexivity | exact Hget] |]).
  intros now2.
  set (cm' := with_stats cm (count_hit (stats cm))).
  assert (Hget' : PyDict.get (key_of source location) (_cache cm') = Some e)
    by exact Hget.
  change (ttl cm) with (ttl cm').
  split.
  - intros [p Hp].
    destruct (Z.lt_ge_cases (now2 - timestamp e) (ttl cm')) as [Hlt | Hge];
      [exact Hlt |].
    rewrite (get_expired _ _ _ _ _ Hget' Hge) in Hp. discriminate.
  - intros Hlt. rewrite (get_fresh _ _ _ _ _ Hget' Hlt). cbn. eauto.
Qed.

Lemma get_hit_leaves_store_unchanged_witness :
  _cache (get full_cache "soil" murray (20 * hour)).2 = _cache full_cache
  /\ oldest_key (_cache (get full_cache "soil" murray (20 * hour)).2)
     = Some "soil:40.666_-111.897".
Proof.
  destruct (get_hit_leaves_store_unchanged full_cache "soil" murray (20 * hour)
              {| data := [("ph", PyInt 6)]; timestamp := 1 * hour |})
    as (_ & Hsame & _ & Hold & _).
  - reflexivity.
  - vm_compute. reflexivity.
  - split; [exact Hsame |]. rewrite Hold. reflexivity.
Defined.

End CacheManager_properties.

(** ** The engine *)

Section PollinatorEngine_properties.
Import PollinatorEngine.

Implicit Types (e : PollinatorEngine.t) (w : World)
  (data : gmap string BundleValue).

(** C3. For a name that is not in the algorithm registry [score] raises
    the unknown-algorithm [ValueError] and returns no result, and the state
    it leaves is the state it found: the cache and its counters, the
    registries, the clock readings and the log of fetch calls (no fetch has
    been made). *)
Theorem score_unknown_algorithm_raises
    (e : PollinatorEngine.t) (w : World) (location : Location.t)
    (algorithm : string)
    (Hunknown : _algorithms e !! algorithm = None) :
  score location algorithm (e, w)
  = (Raise (ValueError ("Unknown algorithm: " ++ algorithm)), (e, w)).
Proof. unfold score. rewrite Hunknown. reflexivity. Qed.

Lemma score_unknown_algorithm_raises_witness :
  score murray "homeowner_v1" (stale_engine, world_at (2 * hour))
  = (Raise (ValueError "Unknown algorithm: homeowner_v1"),
     (stale_engine, world_at (2 * hour))).
Proof.
  apply (score_unknown_algorithm_raises stale_engine (world_at (2 * hour))
           murray "homeowner_v1").
  reflexivity.
Defined.

(** *** One iteration of the loop of [fetch_data] *)

Lemma fetch_one_unregistered location n data e w :
  PyDict.get n (_sources e) = None ->
  fetch_one location n data (e, w) = (Ok data, (e, w)).
Proof. intros H. unfold fetch_one. now rewrite H. Qed.

Lemma fetch_one_hit location n data e w source p s1 :
  PyDict.get n (_sources e) = Some source ->
  cache_get n location (e, w) = (Ok (Some p), s1) ->
  fetch_one location n data (e, w) = (Ok (<[n := BPayload p]> data), s1).
Proof.
  intros Hreg Hget. unfold fetch_one. rewrite Hreg.
  unfold bind. now rewrite Hget.
Qed.

Lemma fetch_one_fetch_raises location n data e w source (x : Exception)
    e1 w1 :
  PyDict.get n (_sources e) = Some source ->
  cache_get n location (e, w) = (Ok None, (e1, w1)) ->
  DataSource.fetch source w1 location = Raise x ->
  fetch_one location n data (e, w)
  = (Ok (<[n := error_payload x]> data),
     (e1, log_fetch (DataSource.name source) location w1)).
Proof.
  intros Hreg Hget Hfetch. unfold fetch_one. rewrite Hreg.
  unfold bind at 1. rewrite Hget.
  unfold try_except, bind, call_fetch. now rewrite Hfetch.
Qed.

(** An exception of [fetch] that is not an instance of [Exception] is not
    handled: the iteration raises it, from the state the call has
    reached. *)
Lemma fetch_one_fetch_escapes location n data e w source cls msg e1 w1 :
  PyDict.get n (_sources e) = Some source ->
  cache_get n location (e, w) = (Ok None, (e1, w1)) ->
  DataSource.fetch source w1 location = Raise (NotException cls msg) ->
  fetch_one location n data (e, w)
  = (Raise (NotException cls msg),
     (e1, log_fetch (DataSource.name source) location w1)).
Proof.
  intros Hreg Hget Hfetch. unfold fetch_one. rewrite Hreg.
  unfold bind at 1. rewrite Hget.
  unfold try_except, bind, call_fetch. now rewrite Hfetch.
Qed.

Lemma fetch_one_stored location n data e w source result e1 w1 cm2 :
  PyDict.get n (_sources e) = Some source ->
  cache_get n location (e, w) = (Ok None, (e1, w1)) ->
  DataSource.fetch source w1 location = Ok result ->
  CacheManager.set (_cache e1) n location result
    (clock w1 (reads w1)) = Ok cm2 ->
  fetch_one location n data (e, w)
  = (Ok (<[n := BPayload result]> data),
     (with_cache e1 cm2,
      tick (log_fetch (DataSource.name source) location w1))).
Proof.
  intros Hreg Hget Hfetch Hset. unfold fetch_one. rewrite Hreg.
  unfold bind at 1. rewrite Hget.
  unfold try_except, bind, call_fetch, cache_set. rewrite Hfetch.
  cbn [clock reads log_fetch]. now rewrite Hset.
Qed.

Lemma fetch_one_set_raises location n data e w source result e1 w1
    (x : Exception) :
  PyDict.get n (_sources e) = Some source ->
  cache_get n location (e, w) = (Ok None, (e1, w1)) ->
  DataSource.fetch source w1 location = Ok result ->
  CacheManager.set (_cache e1) n location result
    (clock w1 (reads w1)) = Raise x ->
  fetch_one location n data (e, w)
  = (Ok (<[n := error_payload x]> data),
     (e1, log_fetch (DataSource.name source) location w1)).
Proof.
  intros Hreg Hget Hfetch Hset. unfold fetch_one. rewrite Hreg.
  unfold bind at 1. rewrite Hget.
  unfold try_except, bind, call_fetch, cache_set. rewrite Hfetch.
  cbn [clock reads log_fetch]. now rewrite Hset.
Qed.

(** The only exception of [set] is the [ValueError] of [min]. *)
Lemma set_raises cm source location d now b :
  CacheManager.set cm source location d now = Raise b ->
  b = ValueError "min() arg is an empty sequence".
Proof.
  unfold CacheManager.set.
  destruct (_ <=? _); [destruct (CacheManager.oldest_key _) |];
    intros H; first [discriminate H | now injection H as <-].
Qed.

Lemma cache_get_returns location n e w :
  exists r e1 w1,
    cache_get n location (e, w) = (Ok r, (e1, w1))
    /\ _sources e1 = _sources e
    /\ _algorithms e1 = _algorithms e.
Proof.
  unfold cache_get.
  destruct (CacheManager.get (_cache e) n location (clock w (reads w)))
    as [r cm].
  eexists _, _, _. split; [reflexivity |]. split; reflexivity.
Qed.

Ltac entry_inserted Hsrc :=
  split; [exact Hsrc |]; split;
  [ intros ? ?; now rewrite lookup_insert_ne
  | intros _; rewrite lookup_insert_eq; eauto ].

(** What one iteration does, whatever the source does.  Either it
    returns, keeps the registries, changes the bundle at most under the
    name, and gives a registered name an entry; or the [fetch] of the
    source registered under the name has raised an exception that is not
    an instance of [Exception], and the iteration raises it. *)
Lemma fetch_one_cases location n data e w :
  (exists data' e' w',
     fetch_one location n data (e, w) = (Ok data', (e', w'))
     /\ _sources e' = _sources e
     /\ (forall k, k <> n -> data' !! k = data !! k)
     /\ (is_Some (PyDict.get n (_sources e)) -> is_Some (data' !! n)))
  \/ (exists source cls msg e' w' w1,
        PyDict.get n (_sources e) = Some source
        /\ DataSource.fetch source w1 location = Raise (NotException cls msg)
        /\ fetch_one location n data (e, w)
           = (Raise (NotException cls msg), (e', w'))
        /\ _sources e' = _sources e).
Proof.
  destruct (PyDict.get n (_sources e)) as [source |] eqn:Hreg.
  - destruct (cache_get_returns location n e w)
      as (r & e1 & w1 & Hget & Hsrc & _).
    destruct r as [p |].
    + left. eexists _, _, _. split; [eapply fetch_one_hit; eassumption |].
      entry_inserted Hsrc.
    + destruct (DataSource.fetch source w1 location)
        as [result | [x | cls msg]] eqn:Hf.
      * destruct (CacheManager.set (_cache e1) n location result
                    (clock w1 (reads w1))) as [cm2 | b] eqn:Hset.
        -- left. eexists _, _, _.
           split; [eapply fetch_one_stored; eassumption |].
           entry_inserted Hsrc.
        -- pose proof (set_raises _ _ _ _ _ _ Hset) as ->.
           left. eexists _, _, _.
           split; [eapply fetch_one_set_raises; eassumption |].
           entry_inserted Hsrc.
      * left. eexists _, _, _.
        split; [eapply fetch_one_fetch_raises; eassumption |].
        entry_inserted Hsrc.
      * right. exists source, cls, msg. eexists _, _, w1.
        split; [reflexivity |]. split; [exact Hf |].
        split; [eapply fetch_one_fetch_escapes; eassumption | exact Hsrc].
  - left. eexists _, _, _. split; [now apply fetch_one_unregistered |].
    split; [reflexivity |]. split; [reflexivity |].
    intros [? ?]. discriminate.
Qed.

(** When the sources raise only instances of [Exception] the iteration
    returns. *)
Lemma fetch_one_returns location n data e w :
  sources_raise_only_Exception e ->
  exists data' e' w',
    fetch_one location n data (e, w) = (Ok data', (e', w'))
    /\ _sources e' = _sources e
    /\ (forall k, k <> n -> data' !! k = data !! k)
    /\ (is_Some (PyDict.get n (_sources e)) -> is_Some (data' !! n)).
Proof.
  intros Hexc.
  destruct (fetch_one_cases location n data e w)
    as [H | (source & cls & msg & e' & w' & w1 & Hreg & Hf & _)];
    [exact H |].
  destruct (Hexc n source Hreg w1 location cls msg Hf).
Qed.

Lemma fetch_one_ok location n data e w data' e' w' :
  fetch_one location n data (e, w) = (Ok data', (e', w')) ->
  _sources e' = _sources e
  /\ (forall k, k <> n -> data' !! k = data !! k)
  /\ (is_Some (PyDict.get n (_sources e)) -> is_Some (data' !! n)).
Proof.
  intros Hone.
  destruct (fetch_one_cases location n data e w)
    as [(d & e0 & w0 & H & Hrest)
       | (source & cls & msg & e0 & w0 & w1 & _ & _ & H & _)];
    rewrite H in Hone; [| discriminate].
  injection Hone as <- <- <-. exact Hrest.
Qed.

Lemma fetch_loop_cons location n rest data s data' s' :
  fetch_one location n data s = (Ok data', s') ->
  fetch_loop location (n :: rest) data s = fetch_loop location rest data' s'.
Proof. intros H. cbn [fetch_loop]. unfold bind. now rewrite H. Qed.

Lemma fetch_loop_cons_raise location n rest data s b s' :
  fetch_one location n data s = (Raise b, s') ->
  fetch_loop location (n :: rest) data s = (Raise b, s').
Proof. intros H. cbn [fetch_loop]. unfold bind. now rewrite H. Qed.

Lemma fetch_loop_cons_ok location n rest data s bundle s' :
  fetch_loop location (n :: rest) data s = (Ok bundle, s') ->
  exists data1 s1,
    fetch_one location n data s = (Ok data1, s1)
    /\ fetch_loop location rest data1 s1 = (Ok bundle, s').
Proof.
  cbn [fetch_loop]. unfold bind.
  destruct (fetch_one location n data s) as [[data1 | b] s1];
    [eauto | discriminate].
Qed.


(** When the loop returns, names outside the list keep what the bundle
    held for them, and every registered name of the list has an entry. *)
Lemma fetch_loop_ok location names : forall data e w bundle e' w',
  fetch_loop location names data (e, w) = (Ok bundle, (e', w')) ->
  _sources e' = _sources e
  /\ (forall k, ~ In k names -> bundle !! k = data !! k)
  /\ (forall n, In n names -> is_Some (PyDict.get n (_sources e)) ->
                is_Some (bundle !! n)).
Proof.
  induction names as [| n rest IH]; intros data e w bundle e' w' Hloop.
  - cbn in Hloop. unfold ret in Hloop. injection Hloop as <- <- <-.
    cbn. repeat split; tauto.
  - apply fetch_loop_cons_ok in Hloop as (data1 & [e1 w1] & Hone & Hloop).
    apply fetch_one_ok in Hone as (Hsrc1 & Hframe1 & Hin1).
    apply IH in Hloop as (Hsrc & Hframe & Hin).
    split; [congruence |]. split.
    + intros k Hk. cbn in Hk.
      rewrite Hframe by tauto. apply Hframe1. intros ->. tauto.
    + intros m Hm Hreg.
      destruct (in_dec String.string_dec m rest) as [Hrest | Hrest].
      * apply Hin; [exact Hrest | now rewrite Hsrc1].
      * destruct Hm as [-> | Hm]; [| contradiction].
        rewrite Hframe by exact Hrest. auto.
Qed.

(** When the sources raise only instances of [Exception] the loop returns
    a bundle from every state. *)
Lemma fetch_loop_returns location names : forall data e w,
  sources_raise_only_Exception e ->
  exists bundle e' w',
    fetch_loop location names data (e, w) = (Ok bundle, (e', w')).
Proof.
  induction names as [| n rest IH]; intros data e w Hexc.
  - exists data, e, w. reflexivity.
  - destruct (fetch_one_returns location n data e w Hexc)
      as (data1 & e1 & w1 & Hone & Hsrc1 & _).
    rewrite (fetch_loop_cons _ _ _ _ _ _ _ Hone).
    apply IH. unfold sources_raise_only_Exception. rewrite Hsrc1. exact Hexc.
Qed.

Lemma set_returns cm source location d now :
  0 < CacheManager.max_entries cm ->
  exists cm', CacheManager.set cm source location d now = Ok cm'.
Proof.
  intros Hpos. unfold CacheManager.set.
  destruct (CacheManager.max_entries cm
            <=? Z.of_nat (length (CacheManager._cache cm))) eqn:E;
    [| eauto].
  apply Z.leb_le in E.
  destruct (CacheManager._cache cm) as [| x rest]; cbn in *; [lia | eauto].
Qed.


(** The cache of the engine holds a key once after every iteration. *)
Lemma wf_fetch_one location n data e w :
  PyDict.wf (CacheManager._cache (_cache e)) ->
  PyDict.wf (CacheManager._cache (_cache (fetch_one location n data (e, w)).2.1)).
Proof.
  intros Hwf.
  destruct (PyDict.get n (_sources e)) as [source |] eqn:Hreg;
    [| now rewrite fetch_one_unregistered].
  pose proof (wf_get (_cache e) n location (clock w (reads w)) Hwf) as Hwf1.
  destruct (cache_get n location (e, w)) as [r [e1 w1]] eqn:Hget.
  assert (He1 : _cache e1
                = (CacheManager.get (_cache e) n location (clock w (reads w))).2).
  { unfold cache_get in Hget.
    destruct (CacheManager.get (_cache e) n location (clock w (reads w))).
    now injection Hget as _ <- _. }
  rewrite <- He1 in Hwf1.
  assert (Hr : exists r', r = Ok r').
  { destruct (cache_get_returns location n e w) as (r' & ? & ? & Hg & _).
    rewrite Hg in Hget. injection Hget as <- _ _. eauto. }
  destruct Hr as [[p |] ->].
  - now rewrite (fetch_one_hit _ _ _ _ _ _ _ _ Hreg Hget).
  - destruct (DataSource.fetch source w1 location)
      as [result | [x | cls msg]] eqn:Hf.
    + destruct (CacheManager.set (_cache e1) n location result
                  (clock w1 (reads w1))) as [cm2 | b] eqn:Hset.
      * rewrite (fetch_one_stored _ _ _ _ _ _ _ _ _ _ Hreg Hget Hf Hset).
        cbn. eapply wf_set; eassumption.
      * pose proof (set_raises _ _ _ _ _ _ Hset) as ->.
        now rewrite (fetch_one_set_raises _ _ _ _ _ _ _ _ _ _ Hreg Hget Hf Hset).
    + now rewrite (fetch_one_fetch_raises _ _ _ _ _ _ _ _ _ Hreg Hget Hf).
    + now rewrite (fetch_one_fetch_escapes _ _ _ _ _ _ _ _ _ _ Hreg Hget Hf).
Qed.

(** A registered source without entry under its key is fetched, whatever
    its [fetch] then does. *)
Lemma fetch_one_absent_calls_fetch location n data e w source :
  PyDict.get n (_sources e) = Some source ->
  PyDict.get (key_of n location) (CacheManager._cache (_cache e)) = None ->
  fetch_log (fetch_one location n data (e, w)).2.2
  = (fetch_log w ++ [(DataSource.name source, location)])%list.
Proof.
  intros Hreg Hnone.
  set (e1 := with_cache e
               (CacheManager.with_stats (_cache e)
                  (CacheManager.count_miss (CacheManager.stats (_cache e))))).
  assert (Hget : cache_get n location (e, w) = (Ok None, (e1, w))).
  { unfold cache_get. rewrite get_unfold.
    fold (key_of n location). rewrite Hnone. reflexivity. }
  destruct (DataSource.fetch source w location)
    as [result | [x | cls msg]] eqn:Hf.
  - destruct (CacheManager.set (_cache e1) n location result
                (clock w (reads w))) as [cm2 | b] eqn:Hset.
    + now rewrite (fetch_one_stored _ _ _ _ _ _ _ _ _ _ Hreg Hget Hf Hset).
    + pose proof (set_raises _ _ _ _ _ _ Hset) as ->.
      now rewrite (fetch_one_set_raises _ _ _ _ _ _ _ _ _ _ Hreg Hget Hf Hset).
  - now rewrite (fetch_one_fetch_raises _ _ _ _ _ _ _ _ _ Hreg Hget Hf).
  - now rewrite (fetch_one_fetch_escapes _ _ _ _ _ _ _ _ _ _ Hreg Hget Hf).
Qed.

(** The sources of the sample engine raise only instances of
    [Exception]. *)
Lemma sample_engine_raises_only_Exception :
  sources_raise_only_Exception sample_engine.
Proof.
  intros n source Hget. apply get_In in Hget.
  destruct Hget as [[= <- <-] | [[= <- <-] | []]];
    intros w location cls msg; discriminate.
Defined.







End PollinatorEngine_properties.

(** * Further properties of the code *)

(** ** Bounds of the category scorers *)

Ltac split_ifs :=
  repeat match goal with
  | |- context [if ?c then _ else _] => destruct c
  end.

Section ScoringV2_bounds.
Import ScoringV2.

Lemma py_min_glb a b c : (c <= a)%Q -> (c <= b)%Q -> (c <= py_min a b)%Q.
Proof. intros Ha Hb. unfold py_min. case_Qltb; lra. Qed.

Lemma py_min_below a b : (a <= b)%Q -> py_min a b = a.
Proof.
  intros H. unfold py_min.
  destruct (Qltb b a) eqn:E; [| reflexivity].
  apply Qltb_lt in E. lra.
Qed.

Lemma len_filter_le {A} (f : A -> bool) (l : list A) :
  (len (List.filter f l) <= len l)%Z.
Proof. unfold len. apply Nat2Z.inj_le, filter_length_le. Qed.

Lemma len_nonneg {A} (l : list A) : (0 <= len l)%Z.
Proof. unfold len. lia. Qed.

Lemma floral_diversity_bounds data :
  (0 <= Floral.diversity (score_floral_resources data) <= 12)%Q.
Proof.
  unfold score_floral_resources. cbn [Floral.diversity].
  pose proof (len_filter_le (fun p => is_native p) (plants data)) as Hle.
  set (k := (len (plants data)
             - len (List.filter (fun p => is_native p) (plants data)))%Z).
  assert (Hk : (0 <= inject_Z k)%Q).
  { change 0%Q with (inject_Z 0). rewrite <- Zle_Qle. subst k. lia. }
  set (bonus := py_min (inject_Z k * (1 # 2)) 2).
  assert (Hb : (0 <= bonus <= 2)%Q).
  { subst bonus. split; [apply py_min_glb; lra | apply py_min_le_r]. }
  split; [apply py_min_glb; [split_ifs; lra | lra] | apply py_min_le_r].
Qed.

(** X1. Every floral sub-score is within its range, the cap at 35 never
    cuts, so the floral total is exactly the sum of the six sub-scores, and
    it lies in [0, 35]. *)
Theorem floral_total_is_sum_of_parts (data : PropertyData) :
  (0 <= Floral.diversity (score_floral_resources data) <= 12)%Q
  /\ (0 <= Floral.coverage (score_floral_resources data) <= 8)%Q
  /\ (0 <= Floral.spring (score_floral_resources data) <= 2)%Q
  /\ (0 <= Floral.summer (score_floral_resources data) <= 2)%Q
  /\ (0 <= Floral.fall (score_floral_resources data) <= 6)%Q
  /\ (0 <= Floral.milkweed_bonus (score_floral_resources data) <= 5)%Q
  /\ Floral.total (score_floral_resources data)
     = (Floral.diversity (score_floral_resources data)
        + Floral.coverage (score_floral_resources data)
        + Floral.spring (score_floral_resources data)
        + Floral.summer (score_floral_resources data)
        + Floral.fall (score_floral_resources data)
        + Floral.milkweed_bonus (score_floral_resources data))%Q
  /\ (0 <= Floral.total (score_floral_resources data) <= 35)%Q.
Proof.
  pose proof (floral_diversity_bounds data) as Hd.
  assert (Hc : (0 <= Floral.coverage (score_floral_resources data) <= 8)%Q).
  { unfold score_floral_resources. cbn [Floral.coverage]. split_ifs; lra. }
  assert (Hsp : (0 <= Floral.spring (score_floral_resources data) <= 2)%Q).
  { unfold score_floral_resources. cbn [Floral.spring]. split_ifs; lra. }
  assert (Hsu : (0 <= Floral.summer (score_floral_resources data) <= 2)%Q).
  { unfold score_floral_resources. cbn [Floral.summer]. split_ifs; lra. }
  assert (Hf : (0 <= Floral.fall (score_floral_resources data) <= 6)%Q).
  { unfold score_floral_resources. cbn [Floral.fall]. split_ifs; lra. }
  assert (Hm : (0 <= Floral.milkweed_bonus (score_floral_resources data) <= 5)%Q).
  { unfold score_floral_resources. cbn [Floral.milkweed_bonus].
    split_ifs; lra. }
  assert (Ht : Floral.total (score_floral_resources data)
     = (Floral.diversity (score_floral_resources data)
        + Floral.coverage (score_floral_resources data)
        + Floral.spring (score_floral_resources data)
        + Floral.summer (score_floral_resources data)
        + Floral.fall (score_floral_resources data)
        + Floral.milkweed_bonus (score_floral_resources data))%Q).
  { change (Floral.total (score_floral_resources data))
      with (py_min
              (Floral.diversity (score_floral_resources data)
               + Floral.coverage (score_floral_resources data)
               + Floral.spring (score_floral_resources data)
               + Floral.summer (score_floral_resources data)
               + Floral.fall (score_floral_resources data)
               + Floral.milkweed_bonus (score_floral_resources data)) 35).
    apply py_min_below. lra. }
  repeat (split; [first [apply Hd | apply Hc | apply Hsp | apply Hsu
                         | apply Hf | apply Hm | exact Ht] |]).
  rewrite Ht. lra.
Qed.

Lemma nesting_parts data :
  (0 <= Nesting.ground (score_nesting_habitat data) <= 10)%Q
  /\ (0 <= Nesting.cavity (score_nesting_habitat data) <= 10)%Q
  /\ (0 <= Nesting.undisturbed (score_nesting_habitat data) <= 10)%Q.
Proof.
  unfold score_nesting_habitat.
  cbn [Nesting.ground Nesting.cavity Nesting.undisturbed].
  split; [split_ifs; lra |].
  split; (split; [apply py_min_glb; [split_ifs; lra | lra] | apply py_min_le_r]).
Qed.

(** X2. The three nesting sub-scores lie in [0, 10] and the nesting total,
    their sum, in [0, 30]; the caps at 10 never cut: the cavity score is
    the plain sum of the contributions of dead wood (4), bee hotel (3) and
    brush pile (3), the undisturbed score the plain sum of winter stems
    (5), the mowing credit and brush pile (2). *)
Theorem nesting_total_within_30 (data : PropertyData) :
  (0 <= Nesting.ground (score_nesting_habitat data) <= 10)%Q
  /\ (0 <= Nesting.cavity (score_nesting_habitat data) <= 10)%Q
  /\ (0 <= Nesting.undisturbed (score_nesting_habitat data) <= 10)%Q
  /\ Nesting.cavity (score_nesting_habitat data)
     = ((if has_dead_wood data then 4 else 0)
        + (if has_bee_hotel data then 3 else 0)
        + (if has_brush_pile data then 3 else 0))%Q
  /\ Nesting.undisturbed (score_nesting_habitat data)
     = ((if leaves_stems_over_winter data then 5 else 0)
        + (if String.eqb (mowing_frequency data) "monthly"
              || String.eqb (mowing_frequency data) "rarely" then 3
           else if String.eqb (mowing_frequency data) "biweekly" then 1
           else 0)
        + (if has_brush_pile data then 2 else 0))%Q
  /\ (0 <= Nesting.total (score_nesting_habitat data) <= 30)%Q.
Proof.
  destruct (nesting_parts data) as (Hg & Hc & Hu).
  repeat (split; [first [apply Hg | apply Hc | apply Hu] |]).
  split; [| split].
  - unfold score_nesting_habitat. cbn [Nesting.cavity].
    apply py_min_below. split_ifs; lra.
  - unfold score_nesting_habitat. cbn [Nesting.undisturbed].
    apply py_min_below. split_ifs; lra.
  - change (Nesting.total (score_nesting_habitat data))
      with (Nesting.ground (score_nesting_habitat data)
            + Nesting.cavity (score_nesting_habitat data)
            + Nesting.undisturbed (score_nesting_habitat data))%Q.
    lra.
Qed.

Lemma connectivity_green_space data :
  (2 <= Connectivity.green_space (score_connectivity data) <= 10)%Q.
Proof.
  unfold score_connectivity.
  destruct (neighbors_in_program data =? 0)%Z;
    [| destruct (neighbors_in_program data <=? 2)%Z];
    cbn [Connectivity.green_space]; split_ifs; lra.
Qed.

Lemma connectivity_total_unfold data :
  Connectivity.total (score_connectivity data)
  = py_min (Connectivity.neighbors (score_connectivity data)
            + Connectivity.green_space (score_connectivity data)
            + Connectivity.pioneer_bonus (score_connectivity data)) 20.
Proof.
  unfold score_connectivity.
  destruct (neighbors_in_program data =? 0)%Z;
    [| destruct (neighbors_in_program data <=? 2)%Z]; reflexivity.
Qed.

Lemma connectivity_neighbor_part data :
  (0 <= neighbors_in_program data)%Z ->
  (6 <= Connectivity.neighbors (score_connectivity data)
        + Connectivity.pioneer_bonus (score_connectivity data) <= 10)%Q
  /\ (0 <= Connectivity.pioneer_bonus (score_connectivity data) <= 8)%Q
  /\ ~ (Connectivity.neighbors (score_connectivity data) == 5)%Q.
Proof.
  intros Hn. unfold score_connectivity.
  destruct (neighbors_in_program data =? 0)%Z eqn:E0.
  { cbn [Connectivity.neighbors Connectivity.pioneer_bonus].
    repeat split; first [lra | intros H; lra]. }
  apply Z.eqb_neq in E0.
  destruct (neighbors_in_program data <=? 2)%Z eqn:E2.
  - apply Z.leb_le in E2.
    cbn [Connectivity.neighbors Connectivity.pioneer_bonus].
    assert (Hcase : neighbors_in_program data = 1%Z
                    \/ neighbors_in_program data = 2%Z) by lia.
    destruct Hcase as [-> | ->]; cbn; repeat split;
      first [lra | intros H; vm_compute in H; discriminate].
  - cbn [Connectivity.neighbors Connectivity.pioneer_bonus].
    apply Z.leb_gt in E2.
    destruct (5 <=? neighbors_in_program data)%Z eqn:E5;
      [| destruct (3 <=? neighbors_in_program data)%Z eqn:E3].
    + repeat split; first [lra | intros H; lra].
    + repeat split; first [lra | intros H; lra].
    + apply Z.leb_gt in E3. lia.
Qed.

(** X3. For a property with no negative neighbour count the cap at 20
    never cuts: the connectivity total is exactly neighbour score plus
    green-space score plus pioneer bonus and lies in [8, 20]; the
    green-space score is at least its floor of 2, and the neighbour score
    is never the 5 of the last branch of the neighbour tiers. *)
Theorem connectivity_total_within_8_and_20 (data : PropertyData)
    (Hn : (0 <= neighbors_in_program data)%Z) :
  Connectivity.total (score_connectivity data)
  = (Connectivity.neighbors (score_connectivity data)
     + Connectivity.green_space (score_connectivity data)
     + Connectivity.pioneer_bonus (score_connectivity data))%Q
  /\ (8 <= Connectivity.total (score_connectivity data) <= 20)%Q
  /\ (2 <= Connectivity.green_space (score_connectivity data) <= 10)%Q
  /\ (0 <= Connectivity.pioneer_bonus (score_connectivity data) <= 8)%Q
  /\ ~ (Connectivity.neighbors (score_connectivity data) == 5)%Q.
Proof.
  pose proof (connectivity_green_space data) as Hg.
  destruct (connectivity_neighbor_part data Hn) as (Hnp & Hp & H5).
  assert (Ht : Connectivity.total (score_connectivity data)
    = (Connectivity.neighbors (score_connectivity data)
       + Connectivity.green_space (score_connectivity data)
       + Connectivity.pioneer_bonus (score_connectivity data))%Q).
  { rewrite connectivity_total_unfold. apply py_min_below. lra. }
  split; [exact Ht |]. split; [rewrite Ht; lra |].
  split; [exact Hg |]. split; [exact Hp | exact H5].
Qed.

Lemma connectivity_total_within_8_and_20_witness :
  (0 <= neighbors_in_program high_impervious_lot)%Z
  /\ (8 <= Connectivity.total (score_connectivity high_impervious_lot) <= 20)%Q.
Proof.
  assert (H : (0 <= neighbors_in_program high_impervious_lot)%Z)
    by (cbn; lia).
  split; [exact H |].
  destruct (connectivity_total_within_8_and_20 high_impervious_lot H)
    as (_ & Hb & _).
  exact Hb.
Defined.

(** X4. A negative neighbour count is taken by the branch for at most two
    neighbours: the pioneer bonus is 4 and the neighbour score is twice the
    count, below zero, so the connectivity total can be negative; in every
    case the total is at most 20. *)
Theorem connectivity_negative_neighbors (data : PropertyData)
    (Hn : (neighbors_in_program data < 0)%Z) :
  Connectivity.pioneer_bonus (score_connectivity data) = 4%Q
  /\ Connectivity.neighbors (score_connectivity data)
     = inject_Z (neighbors_in_program data * 2)
  /\ (Connectivity.neighbors (score_connectivity data) < 0)%Q
  /\ (Connectivity.total (score_connectivity data)
      <= 14 + inject_Z (neighbors_in_program data * 2))%Q
  /\ (Connectivity.total (score_connectivity data) <= 20)%Q.
Proof.
  pose proof (connectivity_green_space data) as Hg.
  pose proof (connectivity_total_unfold data) as Ht.
  assert (Hneg : (inject_Z (neighbors_in_program data * 2) < 0)%Q).
  { change 0%Q with (inject_Z 0). rewrite <- Zlt_Qlt. lia. }
  revert Hg Ht. unfold score_connectivity.
  destruct (neighbors_in_program data =? 0)%Z eqn:E0;
    [apply Z.eqb_eq in E0; lia |].
  destruct (neighbors_in_program data <=? 2)%Z eqn:E2;
    [| apply Z.leb_gt in E2; lia].
  cbn [Connectivity.neighbors Connectivity.pioneer_bonus
       Connectivity.green_space Connectivity.total].
  intros Hg Ht.
  split; [reflexivity |]. split; [reflexivity |]. split; [exact Hneg |].
  split.
  - eapply Qle_trans; [apply py_min_le_l |]. lra.
  - apply py_min_le_r.
Qed.

Lemma connectivity_negative_neighbors_witness :
  (neighbors_in_program (with_neighbors (-10) high_impervious_lot) < 0)%Z
  /\ (Connectivity.total
        (score_connectivity (with_neighbors (-10) high_impervious_lot))
      <= -6)%Q.
Proof.
  assert (H : (neighbors_in_program
                 (with_neighbors (-10) high_impervious_lot) < 0)%Z)
    by (cbn; lia).
  split; [exact H |].
  destruct (connectivity_negative_neighbors _ H) as (_ & _ & _ & Hb & _).
  eapply Qle_trans; [exact Hb |]. vm_compute. discriminate.
Defined.

End ScoringV2_bounds.

(** ** The neighbour count, the penalty and the final score *)

Section ScoringV2_composition.
Import ScoringV2.

Lemma floral_total_bounds data :
  (0 <= Floral.total (score_floral_resources data) <= 35)%Q.
Proof.
  pose proof (floral_diversity_bounds data) as Hd.
  revert Hd. unfold score_floral_resources.
  cbn [Floral.diversity Floral.total]. intros Hd.
  split; [| apply py_min_le_r].
  apply py_min_glb; [| lra].
  set (dv := py_min _ 12) in *. clearbody dv. split_ifs; lra.
Qed.

Lemma nesting_total_bounds data :
  (0 <= Nesting.total (score_nesting_habitat data) <= 30)%Q.
Proof.
  destruct (nesting_parts data) as (Hg & Hc & Hu).
  change (Nesting.total (score_nesting_habitat data))
    with (Nesting.ground (score_nesting_habitat data)
          + Nesting.cavity (score_nesting_habitat data)
          + Nesting.undisturbed (score_nesting_habitat data))%Q.
  lra.
Qed.

Lemma connectivity_total_le_20 data :
  (Connectivity.total (score_connectivity data) <= 20)%Q.
Proof. rewrite connectivity_total_unfold. apply py_min_le_r. Qed.

Lemma connectivity_total_ge_8 data :
  (0 <= neighbors_in_program data)%Z ->
  (8 <= Connectivity.total (score_connectivity data))%Q.
Proof.
  intros Hn. rewrite connectivity_total_unfold.
  pose proof (connectivity_green_space data) as Hg.
  destruct (connectivity_neighbor_part data Hn) as (Hnp & _).
  apply py_min_glb; lra.
Qed.

Lemma management_parts data :
  (0 <= Management.pesticide_free (score_management data) <= 8)%Q
  /\ (0 <= Management.native_proportion (score_management data) <= 7)%Q.
Proof.
  unfold score_management.
  cbn [Management.pesticide_free Management.native_proportion].
  split; split_ifs; lra.
Qed.

Lemma management_total_bounds data :
  (0 <= Management.total (score_management data) <= 15)%Q.
Proof.
  destruct (management_parts data) as (Hp & Hn).
  change (Management.total (score_management data))
    with (Management.pesticide_free (score_management data)
          + Management.native_proportion (score_management data))%Q.
  lra.
Qed.

Lemma penalty_bounds data :
  (-10 <= calculate_impervious_penalty data <= 0)%Q.
Proof.
  unfold calculate_impervious_penalty, THRESHOLD, MAX_PENALTY.
  destruct (Qle_bool (impervious_surface_pct data) 22) eqn:E; [lra |].
  assert (Hgt : (22 < impervious_surface_pct data)%Q).
  { destruct (Qlt_le_dec 22 (impervious_surface_pct data)) as [H | H];
      [exact H |]. apply Qle_bool_iff in H. congruence. }
  pose proof (py_min_le_r ((impervious_surface_pct data - 22) * (7 # 20)) 10).
  assert ((0 <= py_min ((impervious_surface_pct data - 22) * (7 # 20)) 10)%Q)
    by (apply py_min_glb; lra).
  lra.
Qed.

Lemma raw_score_parts data :
  raw_score (score_property data)
  = (Floral.total (score_floral_resources data)
     + Nesting.total (score_nesting_habitat data)
     + Connectivity.total (score_connectivity data)
     + Management.total (score_management data))%Q.
Proof. unfold score_property. cbn [raw_score]. reflexivity. Qed.

Lemma final_score_parts data :
  final_score (score_property data)
  = py_max 0 (py_min 100 (raw_score (score_property data)
                          + calculate_impervious_penalty data)).
Proof. unfold score_property. cbn [final_score raw_score]. reflexivity. Qed.

Lemma clamp_monotone x y :
  (x <= y)%Q -> (py_max 0 (py_min 100 x) <= py_max 0 (py_min 100 y))%Q.
Proof.
  intros H. unfold py_min.
  destruct (Qltb x 100) eqn:E1; [apply Qltb_lt in E1 | apply Qltb_ge in E1];
    destruct (Qltb y 100) eqn:E2;
    [apply Qltb_lt in E2 | apply Qltb_ge in E2 | apply Qltb_lt in E2
     | apply Qltb_ge in E2];
    unfold py_max; case_Qltb; lra.
Qed.

(** X5. The raw score never exceeds 100, so the upper bound of the final
    clamp never cuts: the final score is the raw score plus the penalty, or
    0 when that is negative, and it never exceeds the raw score.  With no
    negative neighbour count the raw score is at least 8. *)
Theorem final_score_is_raw_plus_penalty_floored (data : PropertyData) :
  (raw_score (score_property data) <= 100)%Q
  /\ (final_score (score_property data)
      == py_max 0 (raw_score (score_property data)
                   + impervious_penalty (score_property data)))%Q
  /\ (final_score (score_property data) <= py_max 0 (raw_score (score_property data)))%Q
  /\ ((0 <= neighbors_in_program data)%Z ->
      (8 <= raw_score (score_property data))%Q
      /\ (final_score (score_property data) <= raw_score (score_property data))%Q).
Proof.
  pose proof (floral_total_bounds data) as Hf.
  pose proof (nesting_total_bounds data) as Hn.
  pose proof (connectivity_total_le_20 data) as Hc.
  pose proof (management_total_bounds data) as Hm.
  pose proof (penalty_bounds data) as Hp.
  pose proof (raw_score_parts data) as Hraw.
  assert (Hle : (raw_score (score_property data) <= 100)%Q)
    by (rewrite Hraw; lra).
  split; [exact Hle |].
  change (impervious_penalty (score_property data))
    with (calculate_impervious_penalty data).
  rewrite final_score_parts.
  set (raw := raw_score (score_property data)) in *.
  set (pen := calculate_impervious_penalty data) in *.
  split; [| split].
  - unfold py_min.
    destruct (Qltb (raw + pen) 100) eqn:E;
      [reflexivity | apply Qltb_ge in E].
    unfold py_max. case_Qltb; lra.
  - unfold py_min.
    destruct (Qltb (raw + pen) 100) eqn:E;
      [apply Qltb_lt in E | apply Qltb_ge in E];
      unfold py_max; case_Qltb; lra.
  - intros Hnn.
    pose proof (connectivity_total_ge_8 data Hnn) as Hc8.
    assert (H8 : (8 <= raw)%Q) by (subst raw; rewrite Hraw; lra).
    split; [exact H8 |].
    unfold py_min.
    destruct (Qltb (raw + pen) 100) eqn:E;
      [apply Qltb_lt in E | apply Qltb_ge in E];
      unfold py_max; case_Qltb; lra.
Qed.

Lemma final_score_is_raw_plus_penalty_floored_witness :
  (0 <= neighbors_in_program high_impervious_lot)%Z
  /\ (8 <= raw_score (score_property high_impervious_lot))%Q.
Proof.
  assert (H : (0 <= neighbors_in_program high_impervious_lot)%Z)
    by (cbn; lia).
  split; [exact H |].
  destruct (final_score_is_raw_plus_penalty_floored high_impervious_lot)
    as (_ & _ & _ & Hn).
  exact (proj1 (Hn H)).
Defined.

Lemma connectivity_with_neighbors_green k data :
  Connectivity.green_space (score_connectivity (with_neighbors k data))
  = Connectivity.green_space (score_connectivity data).
Proof.
  unfold score_connectivity.
  cbn [with_neighbors neighbors_in_program green_space_within_500m].
  destruct (k =? 0)%Z; [| destruct (k <=? 2)%Z];
    (destruct (neighbors_in_program data =? 0)%Z;
      [| destruct (neighbors_in_program data <=? 2)%Z]); reflexivity.
Qed.

Lemma connectivity_with_neighbors_total k data :
  (0 <= k)%Z ->
  Connectivity.total (score_connectivity (with_neighbors k data))
  = (Connectivity.neighbors (score_connectivity (with_neighbors k data))
     + Connectivity.green_space (score_connectivity (with_neighbors 0 data))
     + Connectivity.pioneer_bonus (score_connectivity (with_neighbors k data)))%Q.
Proof.
  intros Hk. rewrite connectivity_total_unfold.
  pose proof (connectivity_green_space (with_neighbors k data)) as Hg.
  destruct (connectivity_neighbor_part (with_neighbors k data) Hk)
    as (Hnp & _).
  rewrite (connectivity_with_neighbors_green 0 data).
  rewrite (connectivity_with_neighbors_green k data) in *.
  apply py_min_below. lra.
Qed.

Lemma raw_score_with_neighbors k data :
  (raw_score (score_property (with_neighbors k data))
   - Connectivity.total (score_connectivity (with_neighbors k data))
   == raw_score (score_property data)
      - Connectivity.total (score_connectivity data))%Q.
Proof.
  rewrite !raw_score_parts.
  change (score_floral_resources (with_neighbors k data))
    with (score_floral_resources data).
  change (score_nesting_habitat (with_neighbors k data))
    with (score_nesting_habitat data).
  change (score_management (with_neighbors k data))
    with (score_management data).
  lra.
Qed.

(** X6. More neighbours do not always score more.  Whatever the rest of
    the property is, the first neighbour lowers the connectivity total and
    the raw score by exactly 2 (pioneer bonus 8 against 4 + 2), and the
    third neighbour lowers them by exactly 1 (4 + 4 against 0 + 7); the
    final score does not rise in either step, although the property
    without neighbours is told to invite one. *)
Theorem first_neighbor_lowers_the_score (data : PropertyData) :
  (Connectivity.total (score_connectivity (with_neighbors 1 data))
   == Connectivity.total (score_connectivity (with_neighbors 0 data)) - 2)%Q
  /\ (raw_score (score_property (with_neighbors 1 data))
      == raw_score (score_property (with_neighbors 0 data)) - 2)%Q
  /\ (final_score (score_property (with_neighbors 1 data))
      <= final_score (score_property (with_neighbors 0 data)))%Q
  /\ (Connectivity.total (score_connectivity (with_neighbors 3 data))
      == Connectivity.total (score_connectivity (with_neighbors 2 data)) - 1)%Q
  /\ (raw_score (score_property (with_neighbors 3 data))
      == raw_score (score_property (with_neighbors 2 data)) - 1)%Q
  /\ (final_score (score_property (with_neighbors 3 data))
      <= final_score (score_property (with_neighbors 2 data)))%Q
  /\ In (Some "Invite a Neighbor")
        (titles (recommendations (score_property (with_neighbors 0 data)))).
Proof.
  assert (H01 : (Connectivity.total (score_connectivity (with_neighbors 1 data))
    == Connectivity.total (score_connectivity (with_neighbors 0 data)) - 2)%Q).
  { rewrite !connectivity_with_neighbors_total by lia.
    change (Connectivity.neighbors (score_connectivity (with_neighbors 1 data)))
      with (inject_Z 2).
    change (Connectivity.pioneer_bonus
              (score_connectivity (with_neighbors 1 data))) with 4%Q.
    change (Connectivity.neighbors (score_connectivity (with_neighbors 0 data)))
      with 0%Q.
    change (Connectivity.pioneer_bonus
              (score_connectivity (with_neighbors 0 data))) with 8%Q.
    unfold inject_Z. lra. }
  assert (H23 : (Connectivity.total (score_connectivity (with_neighbors 3 data))
    == Connectivity.total (score_connectivity (with_neighbors 2 data)) - 1)%Q).
  { rewrite !connectivity_with_neighbors_total by lia.
    change (Connectivity.neighbors (score_connectivity (with_neighbors 3 data)))
      with 7%Q.
    change (Connectivity.pioneer_bonus
              (score_connectivity (with_neighbors 3 data))) with 0%Q.
    change (Connectivity.neighbors (score_connectivity (with_neighbors 2 data)))
      with (inject_Z 4).
    change (Connectivity.pioneer_bonus
              (score_connectivity (with_neighbors 2 data))) with 4%Q.
    unfold inject_Z. lra. }
  pose proof (raw_score_with_neighbors 0 data) as R0.
  pose proof (raw_score_with_neighbors 1 data) as R1.
  pose proof (raw_score_with_neighbors 2 data) as R2.
  pose proof (raw_score_with_neighbors 3 data) as R3.
  assert (Hr01 : (raw_score (score_property (with_neighbors 1 data))
      == raw_score (score_property (with_neighbors 0 data)) - 2)%Q) by lra.
  assert (Hr23 : (raw_score (score_property (with_neighbors 3 data))
      == raw_score (score_property (with_neighbors 2 data)) - 1)%Q) by lra.
  split; [exact H01 |]. split; [exact Hr01 |]. split.
  { rewrite !final_score_parts.
    change (calculate_impervious_penalty (with_neighbors 1 data))
      with (calculate_impervious_penalty (with_neighbors 0 data)).
    apply clamp_monotone. lra. }
  split; [exact H23 |]. split; [exact Hr23 |]. split.
  { rewrite !final_score_parts.
    change (calculate_impervious_penalty (with_neighbors 3 data))
      with (calculate_impervious_penalty (with_neighbors 2 data)).
    apply clamp_monotone. lra. }
  unfold score_property. cbn [recommendations].
  unfold generate_recommendations, titles.
  cbn [neighbors_in_program with_neighbors Z.eqb].
  rewrite !map_app, !in_app_iff.
  right. right. right. left. left. reflexivity.
Qed.

End ScoringV2_composition.

(** ** Management, penalty, completeness *)

Section ScoringV2_details.
Import ScoringV2.

Lemma filter_all {A} (f : A -> bool) (l : list A) :
  forallb f l = true -> List.filter f l = l.
Proof.
  induction l as [| x l IH]; cbn; [reflexivity |].
  destruct (f x); cbn; [| discriminate]. intros H. now rewrite IH.
Qed.

Lemma filter_none {A} (f : A -> bool) (l : list A) :
  existsb f l = false -> List.filter f l = [].
Proof.
  induction l as [| x l IH]; cbn; [reflexivity |].
  destruct (f x); cbn; [discriminate | exact IH].
Qed.

(** X7. The management total is the pesticide credit plus the native
    tier and lies in [0, 15].  Without plants the native tier is skipped
    and scores 0; when every recorded plant is native it scores 7, when
    none is it scores 0. *)
Theorem management_total_within_15 (data : PropertyData) :
  (0 <= Management.total (score_management data) <= 15)%Q
  /\ (plants data = [] ->
      Management.native_proportion (score_management data) = 0%Q)
  /\ (plants data <> [] ->
      forallb (fun p => is_native p) (plants data) = true ->
      Management.native_proportion (score_management data) = 7%Q)
  /\ (existsb (fun p => is_native p) (plants data) = false ->
      Management.native_proportion (score_management data) = 0%Q).
Proof.
  split; [apply management_total_bounds |].
  unfold score_management. cbn [Management.native_proportion].
  split; [| split].
  - intros ->. reflexivity.
  - intros Hne Hall. rewrite (filter_all _ _ Hall).
    assert (Hpos : (0 < len (plants data))%Z).
    { unfold len. destruct (plants data); [congruence | cbn; lia]. }
    apply Z.ltb_lt in Hpos as Hb. rewrite Hb.
    assert (Hq : (0 < inject_Z (len (plants data)))%Q).
    { change 0%Q with (inject_Z 0). now rewrite <- Zlt_Qlt. }
    assert (Hpct : (inject_Z (len (plants data)) / inject_Z (len (plants data))
                    * 100 == 100)%Q).
    { field. lra. }
    assert (H80 : Qgeb (inject_Z (len (plants data))
                        / inject_Z (len (plants data)) * 100) 80 = true).
    { apply Qgeb_le. rewrite Hpct. lra. }
    now rewrite H80.
  - intros Hnone. rewrite (filter_none _ _ Hnone).
    destruct (0 <? len (plants data))%Z eqn:Hb; [| reflexivity].
    apply Z.ltb_lt in Hb.
    assert (Hq : (0 < inject_Z (len (plants data)))%Q).
    { change 0%Q with (inject_Z 0). now rewrite <- Zlt_Qlt. }
    assert (Hpct : (inject_Z (len (@nil PlantInventory))
                    / inject_Z (len (plants data)) * 100 == 0)%Q).
    { change (inject_Z (len (@nil PlantInventory))) with 0%Q. field. lra. }
    assert (Hlt : forall t, (0 < t)%Q ->
              Qgeb (inject_Z (len (@nil PlantInventory))
                    / inject_Z (len (plants data)) * 100) t = false).
    { intros t Ht. apply Qgeb_lt. rewrite Hpct. exact Ht. }
    rewrite !Hlt by lra. reflexivity.
Qed.

Lemma management_total_within_15_witness :
  plants high_impervious_lot <> []
  /\ Management.native_proportion (score_management high_impervious_lot) = 7%Q
  /\ Management.native_proportion
       (score_management (yard true "often" "weekly")) = 0%Q.
Proof.
  assert (Hne : plants high_impervious_lot <> []) by discriminate.
  split; [exact Hne |].
  destruct (management_total_within_15 high_impervious_lot)
    as (_ & _ & Hall & _).
  destruct (management_total_within_15 (yard true "often" "weekly"))
    as (_ & Hnil & _).
  split; [apply Hall; [exact Hne | reflexivity] | apply Hnil; reflexivity].
Defined.

Lemma penalty_unfold data :
  calculate_impervious_penalty data
  = if Qle_bool (impervious_surface_pct data) 22 then 0%Q
    else (- py_min ((impervious_surface_pct data - 22) * (7 # 20)) 10)%Q.
Proof. reflexivity. Qed.

Lemma Qle_bool_false x y : Qle_bool x y = false <-> (y < x)%Q.
Proof.
  destruct (Qle_bool x y) eqn:E.
  - apply Qle_bool_iff in E. split; [discriminate | intros H; lra].
  - split; [intros _ | reflexivity].
    destruct (Qlt_le_dec y x) as [H | H]; [exact H |].
    apply Qle_bool_iff in H. congruence.
Qed.

Ltac penalty_cases pct :=
  let E := fresh "E" in
  let F := fresh "F" in
  destruct (Qle_bool pct 22) eqn:E;
  [apply Qle_bool_iff in E
  | apply Qle_bool_false in E;
    unfold py_min;
    destruct (Qltb 10 ((pct - 22) * (7 # 20))) eqn:F;
    [apply Qltb_lt in F | apply Qltb_ge in F]].

(** X8. The impervious penalty lies in [-10, 0] and does not rise when the
    impervious share grows.  It is 0 exactly up to the threshold of 22 and
    negative above it; up to 50 percent it stays strictly above -10 (the
    comment in the code puts the full penalty at 50 percent), and from 51
    percent on it is -10. *)
Theorem impervious_penalty_shape (d1 d2 : PropertyData) :
  (-10 <= calculate_impervious_penalty d1 <= 0)%Q
  /\ ((calculate_impervious_penalty d1 == 0)%Q
      <-> (impervious_surface_pct d1 <= 22)%Q)
  /\ ((22 < impervious_surface_pct d1)%Q ->
      (calculate_impervious_penalty d1 < 0)%Q)
  /\ ((impervious_surface_pct d1 <= 50)%Q ->
      (-10 < calculate_impervious_penalty d1)%Q)
  /\ ((51 <= impervious_surface_pct d1)%Q ->
      (calculate_impervious_penalty d1 == -10)%Q)
  /\ ((impervious_surface_pct d1 <= impervious_surface_pct d2)%Q ->
      (calculate_impervious_penalty d2 <= calculate_impervious_penalty d1)%Q)
  /\ (-10 < calculate_impervious_penalty (with_impervious 50 d1) < 0)%Q.
Proof.
  split; [apply penalty_bounds |].
  rewrite !penalty_unfold.
  split; [| split; [| split; [| split; [| split]]]].
  - penalty_cases (impervious_surface_pct d1); split; intros; lra.
  - intros Hgt. penalty_cases (impervious_surface_pct d1); lra.
  - intros Hle. penalty_cases (impervious_surface_pct d1); lra.
  - intros Hge. penalty_cases (impervious_surface_pct d1); lra.
  - intros Hle.
    penalty_cases (impervious_surface_pct d1);
      penalty_cases (impervious_surface_pct d2); lra.
  - vm_compute. split; reflexivity.
Qed.

Lemma impervious_penalty_shape_witness :
  (impervious_surface_pct (yard false "never" "weekly")
   <= impervious_surface_pct high_impervious_lot)%Q
  /\ (calculate_impervious_penalty high_impervious_lot
      <= calculate_impervious_penalty (yard false "never" "weekly"))%Q.
Proof.
  assert (H : (impervious_surface_pct (yard false "never" "weekly")
               <= impervious_surface_pct high_impervious_lot)%Q)
    by (vm_compute; discriminate).
  split; [exact H |].
  destruct (impervious_penalty_shape (yard false "never" "weekly")
              high_impervious_lot) as (_ & _ & _ & _ & _ & Hmono & _).
  exact (Hmono H).
Defined.

Lemma b2Z_range b : (0 <= b2Z b <= 1)%Z.
Proof. destruct b; cbn; lia. Qed.

Lemma count_true_cons b bs : count_true (b :: bs) = (b2Z b + count_true bs)%Z.
Proof. unfold count_true. destruct b; cbn [List.filter length b2Z]; lia. Qed.

(** X9. The data completeness is ten times the number of signals that
    hold among the ten the code checks (plants recorded, flower coverage,
    bare ground, a cavity feature, leaves left over winter, mowing other
    than weekly, pesticide frequency other than never, lot size other
    than 5000, impervious share other than 30, neighbours), hence a
    percentage in [0, 100]; the confidence is "high" exactly from 7
    signals on, "medium" exactly for 4 to 6 and "low" exactly below 4. *)
Theorem data_completeness_counts_signals (data : PropertyData) :
  exists held : list bool,
    Forall2 (fun b P => b = true <-> P) held (signals data)
    /\ (calculate_data_completeness data
        == inject_Z (10 * count_true held))%Q
    /\ (0 <= count_true held <= 10)%Z
    /\ (0 <= calculate_data_completeness data <= 100)%Q
    /\ (get_confidence (calculate_data_completeness data) = "high"
        <-> (7 <= count_true held)%Z)
    /\ (get_confidence (calculate_data_completeness data) = "medium"
        <-> (4 <= count_true held <= 6)%Z)
    /\ (get_confidence (calculate_data_completeness data) = "low"
        <-> (count_true held <= 3)%Z).
Proof.
  exists [ (0 <? len (plants data))%Z;
           Qltb 0 (estimated_flower_coverage_pct data);
           has_bare_ground data || Qltb 0 (bare_ground_sqft data);
           has_dead_wood data || has_bee_hotel data || has_brush_pile data;
           leaves_stems_over_winter data;
           negb (String.eqb (mowing_frequency data) "weekly");
           negb (String.eqb (pesticide_frequency data) "never");
           negb (Qeq_bool (lot_size_sqft data) 5000);
           negb (Qeq_bool (impervious_surface_pct data) 30);
           (0 <? neighbors_in_program data)%Z ].
  split.
  { unfold signals.
    repeat apply List.Forall2_cons; try apply List.Forall2_nil.
    - rewrite Z.ltb_lt. unfold len.
      destruct (plants data); cbn [length]; split; intros H;
        first [lia | congruence].
    - apply Qltb_lt.
    - rewrite orb_true_iff, Qltb_lt. tauto.
    - rewrite !orb_true_iff. tauto.
    - tauto.
    - rewrite negb_true_iff. split.
      + intros H Heq. rewrite Heq, String.eqb_refl in H. discriminate.
      + intros H. apply String.eqb_neq. exact H.
    - rewrite negb_true_iff. split.
      + intros H Heq. rewrite Heq, String.eqb_refl in H. discriminate.
      + intros H. apply String.eqb_neq. exact H.
    - rewrite negb_true_iff. split.
      + intros H Heq. apply Qeq_bool_iff in Heq. congruence.
      + intros H. destruct (Qeq_bool _ _) eqn:E; [| reflexivity].
        apply Qeq_bool_iff in E. contradiction.
    - rewrite negb_true_iff. split.
      + intros H Heq. apply Qeq_bool_iff in Heq. congruence.
      + intros H. destruct (Qeq_bool _ _) eqn:E; [| reflexivity].
        apply Qeq_bool_iff in E. contradiction.
    - apply Z.ltb_lt. }
  rewrite !count_true_cons.
  change (count_true []) with 0%Z.
  unfold calculate_data_completeness.
  match goal with
  | |- context [(inject_Z ?s / 10 * 100)%Q] => set (s0 := s)
  end.
  set (k := (b2Z _ + (b2Z _ + (b2Z _ + (b2Z _ + (b2Z _ + (b2Z _ + (b2Z _
             + (b2Z _ + (b2Z _ + (b2Z _ + 0))))))))))%Z).
  assert (Hs : s0 = k) by (subst s0 k; lia).
  rewrite Hs. clear Hs s0.
  assert (Hk : (0 <= k <= 10)%Z).
  { subst k.
    repeat match goal with
    | |- context [b2Z ?b] =>
        let H := fresh "H" in
        pose proof (b2Z_range b) as H; generalize dependent (b2Z b); intros
    end. lia. }
  clearbody k.
  assert (Heq : (inject_Z k / 10 * 100 == inject_Z (10 * k))%Q).
  { rewrite inject_Z_mult. change (inject_Z 10) with 10%Q. field. }
  assert (Hq : forall t : Z, (inject_Z t <= inject_Z k / 10 * 100)%Q
                             <-> (t <= 10 * k)%Z).
  { intros t. rewrite Heq, <- Zle_Qle. tauto. }
  split; [exact Heq |]. split; [exact Hk |].
  split; [rewrite Heq; split;
          [change 0%Q with (inject_Z 0) | change 100%Q with (inject_Z 100)];
          rewrite <- Zle_Qle; lia |].
  unfold get_confidence.
  destruct (Qgeb (inject_Z k / 10 * 100) 70) eqn:E70;
    [apply Qgeb_le in E70; apply (Hq 70%Z) in E70
    | apply Qgeb_lt in E70;
      assert (~ (70 <= 10 * k)%Z)
        by (intros Hc; apply (Hq 70%Z) in Hc;
            change (inject_Z 70) with 70%Q in Hc; lra)].
  - repeat split; intros; try discriminate; try lia; reflexivity.
  - destruct (Qgeb (inject_Z k / 10 * 100) 40) eqn:E40;
      [apply Qgeb_le in E40; apply (Hq 40%Z) in E40
      | apply Qgeb_lt in E40;
        assert (~ (40 <= 10 * k)%Z)
          by (intros Hc; apply (Hq 40%Z) in Hc;
              change (inject_Z 40) with 40%Q in Hc; lra)];
      repeat split; intros; try discriminate; try lia; reflexivity.
Qed.

End ScoringV2_details.

(** ** Recommendations *)

Section Recommendation_properties.
Import ScoringV2.

Lemma titles_generate data scores :
  titles (generate_recommendations data scores)
  = ((if negb (seasons_covered (plants data) FALL)
      then [Some "September Nectar Gap"] else [])
     ++ (if negb (existsb (fun p => is_milkweed p) (plants data))
         then [Some "Missing Host Plant"] else [])
     ++ (if Qltb (nesting_score scores) 15
         then (if negb (has_bare_ground data)
               then [Some "Ground Nesting Habitat"] else [])
              ++ (if negb (leaves_stems_over_winter data)
                  then [Some "Overwintering Habitat"] else [])
         else [])
     ++ (if (neighbors_in_program data =? 0)%Z
         then [Some "Invite a Neighbor"] else [])
     ++ (if uses_pesticides data
            && (String.eqb (pesticide_frequency data) "sometimes"
                || String.eqb (pesticide_frequency data) "often")
         then [Some "Reduce Pesticides"] else []))%list.
Proof.
  unfold generate_recommendations, titles, seasons_covered.
  split_ifs; reflexivity.
Qed.

Lemma priorities_generate data scores :
  priorities (generate_recommendations data scores)
  = ((if negb (seasons_covered (plants data) FALL)
      then [Some "critical"] else [])
     ++ (if negb (existsb (fun p => is_milkweed p) (plants data))
         then [Some "high"] else [])
     ++ (if Qltb (nesting_score scores) 15
         then (if negb (has_bare_ground data) then [Some "medium"] else [])
              ++ (if negb (leaves_stems_over_winter data)
                  then [Some "medium"] else [])
         else [])
     ++ (if (neighbors_in_program data =? 0)%Z then [Some "medium"] else [])
     ++ (if uses_pesticides data
            && (String.eqb (pesticide_frequency data) "sometimes"
                || String.eqb (pesticide_frequency data) "often")
         then [Some "high"] else []))%list.
Proof.
  unfold generate_recommendations, priorities, seasons_covered.
  split_ifs; reflexivity.
Qed.

Lemma recommendations_of_score_property data :
  exists scores,
    recommendations (score_property data)
    = generate_recommendations data scores
    /\ nesting_score scores = nesting_score (score_property data).
Proof.
  eexists. split.
  - unfold score_property at 1. cbn [recommendations]. reflexivity.
  - reflexivity.
Qed.

Lemma nesting_ground_unfold data :
  nesting_ground (score_property data)
  = if has_bare_ground data then
      if Qgeb (bare_ground_sqft data) 50 then 10%Q
      else if Qgeb (bare_ground_sqft data) 25 then 7%Q
      else if Qgeb (bare_ground_sqft data) 10 then 5%Q
      else 3%Q
    else 0%Q.
Proof. unfold score_property. cbn [nesting_ground]. reflexivity. Qed.

Lemma floral_fall_unfold data :
  floral_fall (score_property data)
  = if seasons_covered (plants data) FALL then 6%Q else 0%Q.
Proof. unfold score_property. cbn [floral_fall]. reflexivity. Qed.

Ltac decide_In :=
  cbn [In app];
  repeat match goal with
  | |- _ <-> _ => split
  | |- _ -> _ => intro
  | H : _ \/ _ |- _ => destruct H
  | H : False |- _ => destruct H
  | H : Some _ = Some _ |- _ => discriminate H
  | H : @eq Q _ _ |- _ => discriminate H
  | H : @eq bool _ _ |- _ => discriminate H
  end;
  auto 10.

(** X10. At most six recommendations are issued, and they follow the
    breakdown: the September gap is recommended exactly when the fall score
    is 0, a neighbour exactly when the property has none; the pesticide
    recommendation is only issued when the pesticide credit is at most 2;
    the two nesting recommendations are only issued when the nesting score
    is below 15, the one for bare ground only when the ground score is 0. *)
Theorem recommendations_follow_the_breakdown (data : PropertyData) :
  (length (recommendations (score_property data)) <= 6)%nat
  /\ (In (Some "September Nectar Gap")
         (titles (recommendations (score_property data)))
      <-> floral_fall (score_property data) = 0%Q)
  /\ (In (Some "Invite a Neighbor")
         (titles (recommendations (score_property data)))
      <-> neighbors_in_program data = 0%Z)
  /\ (In (Some "Reduce Pesticides")
         (titles (recommendations (score_property data)))
      -> (Management.pesticide_free (score_management data) <= 2)%Q)
  /\ (In (Some "Ground Nesting Habitat")
         (titles (recommendations (score_property data)))
      -> (nesting_score (score_property data) < 15)%Q
         /\ nesting_ground (score_property data) = 0%Q)
  /\ (In (Some "Overwintering Habitat")
         (titles (recommendations (score_property data)))
      -> (nesting_score (score_property data) < 15)%Q).
Proof.
  destruct (recommendations_of_score_property data) as (scores & -> & Hn).
  rewrite <- Hn. clear Hn.
  split.
  { replace (length (generate_recommendations data scores))
      with (length (titles (generate_recommendations data scores)))
      by apply length_map.
    rewrite titles_generate. split_ifs; cbn; lia. }
  rewrite titles_generate, floral_fall_unfold, nesting_ground_unfold.
  split; [| split; [| split; [| split]]].
  - destruct (seasons_covered (plants data) FALL); cbn [negb];
      split_ifs; decide_In.
  - destruct (neighbors_in_program data =? 0)%Z eqn:E;
      [apply Z.eqb_eq in E | apply Z.eqb_neq in E];
      split_ifs; decide_In; contradiction.
  - unfold score_management. cbn [Management.pesticide_free].
    destruct (uses_pesticides data); cbn [andb negb orb];
      [| split_ifs; decide_In].
    destruct (String.eqb (pesticide_frequency data) "sometimes") eqn:Es;
      [apply String.eqb_eq in Es; rewrite Es; cbn; intros _; lra |].
    destruct (String.eqb (pesticide_frequency data) "often") eqn:Eo;
      [apply String.eqb_eq in Eo; rewrite Eo; cbn; intros _; lra |].
    cbn [orb]. split_ifs; decide_In.
  - destruct (Qltb (nesting_score scores) 15) eqn:E;
      [apply Qltb_lt in E |];
      destruct (has_bare_ground data); cbn [negb];
      split_ifs; decide_In.
  - destruct (Qltb (nesting_score scores) 15) eqn:E;
      [apply Qltb_lt in E |]; split_ifs; decide_In.
Qed.

Lemma recommendations_follow_the_breakdown_witness :
  In (Some "Reduce Pesticides")
     (titles (recommendations (score_property (yard true "often" "weekly"))))
  /\ (Management.pesticide_free
        (score_management (yard true "often" "weekly")) <= 2)%Q.
Proof.
  assert (H : In (Some "Reduce Pesticides")
     (titles (recommendations (score_property (yard true "often" "weekly"))))).
  { vm_compute. tauto. }
  split; [exact H |].
  destruct (recommendations_follow_the_breakdown (yard true "often" "weekly"))
    as (_ & _ & _ & Hp & _).
  exact (Hp H).
Defined.

(** X11. The recommendations are issued in the order of the rules, not in
    the order of their priority: when the pesticide rule fires, its
    recommendation of priority "high" is the last one, and for a property
    without neighbours it comes right after one of priority "medium". *)
Theorem recommendations_end_with_the_pesticide_rule (data : PropertyData)
    (Huses : uses_pesticides data = true)
    (Hfreq : pesticide_frequency data = "sometimes"
             \/ pesticide_frequency data = "often") :
  (exists earlier_priorities earlier_titles,
     priorities (recommendations (score_property data))
     = (earlier_priorities ++ [Some "high"])%list
     /\ titles (recommendations (score_property data))
        = (earlier_titles ++ [Some "Reduce Pesticides"])%list)
  /\ (neighbors_in_program data = 0%Z ->
      exists before,
        priorities (recommendations (score_property data))
        = (before ++ [Some "medium"; Some "high"])%list).
Proof.
  destruct (recommendations_of_score_property data) as (scores & -> & _).
  rewrite priorities_generate, titles_generate, Huses.
  assert (Hc : String.eqb (pesticide_frequency data) "sometimes"
               || String.eqb (pesticide_frequency data) "often" = true).
  { destruct Hfreq as [-> | ->]; reflexivity. }
  rewrite Hc. cbn [andb]. split.
  - eexists _, _. split; rewrite !app_assoc; reflexivity.
  - intros ->. cbn [Z.eqb].
    eexists.
    change [Some "medium"; Some "high"]
      with ([Some "medium"] ++ [Some "high"])%list.
    rewrite !app_assoc. reflexivity.
Qed.

Lemma recommendations_end_with_the_pesticide_rule_witness :
  neighbors_in_program (yard true "often" "weekly") = 0%Z
  /\ exists before,
       priorities (recommendations (score_property (yard true "often" "weekly")))
       = (before ++ [Some "medium"; Some "high"])%list.
Proof.
  split; [reflexivity |].
  destruct (recommendations_end_with_the_pesticide_rule
              (yard true "often" "weekly")) as (_ & H0);
    [reflexivity | right; reflexivity |].
  apply H0. reflexivity.
Defined.

End Recommendation_properties.

(** ** The grade and tier ladders of the API *)

Section ScoringApi_properties.
Import ScoringApi.

Ltac ladder_cases s :=
  repeat match goal with
  | |- context [Qgeb s ?t] =>
      let E := fresh "E" in
      destruct (Qgeb s t) eqn:E;
      [apply Qgeb_le in E | apply Qgeb_lt in E]
  end.

(** X12. The eleven-step ladder of the API refines the six-step ladder of
    the scoring module.  From 90 on both give "A+".  Below 90 the API
    grade without its sign is the grade of [get_grade], which is the
    letter of [HabitatGrade.from_score].  So for every score the two
    grades have the same first character, and they agree exactly on F, D
    and A+. *)
Theorem score_to_grade_refines_get_grade (score : Q) :
  ((90 <= score)%Q ->
   score_to_grade score = "A+" /\ ScoringV2.get_grade score = "A+")
  /\ ((score < 90)%Q ->
      base_letter (score_to_grade score) = ScoringV2.get_grade score)
  /\ ScoringV2.get_grade score
     = HabitatGrade.letter (HabitatGrade.from_score score)
  /\ base_letter (score_to_grade score) = base_letter (ScoringV2.get_grade score)
  /\ base_letter (score_to_grade score)
     = base_letter (HabitatGrade.letter (HabitatGrade.from_score score))
  /\ (score_to_grade score = "F" <-> ScoringV2.get_grade score = "F")
  /\ (score_to_grade score = "D" <-> ScoringV2.get_grade score = "D")
  /\ (score_to_grade score = "A+" <-> ScoringV2.get_grade score = "A+").
Proof.
  rewrite <- get_grade_letter.
  unfold score_to_grade, ScoringV2.get_grade.
  ladder_cases score;
    repeat split; intros; first [reflexivity | discriminate | exfalso; lra].
Qed.

Lemma score_to_grade_monotone s1 s2 :
  (s1 <= s2)%Q ->
  (api_grade_rank (score_to_grade s1) <= api_grade_rank (score_to_grade s2))%nat.
Proof.
  intros H. unfold score_to_grade.
  ladder_cases s1; ladder_cases s2;
    first [exfalso; lra | vm_compute; lia].
Qed.

Lemma get_tier_monotone s1 s2 :
  (s1 <= s2)%Q ->
  (tier_rank (get_tier s1) <= tier_rank (get_tier s2))%nat.
Proof.
  intros H. unfold get_tier.
  ladder_cases s1; ladder_cases s2;
    first [exfalso; lra | vm_compute; lia].
Qed.

(** X13. The API grade and the API tier are monotone in the score, and
    the tiers line up with the grades at 85 and 70 only: the tier is
    "Pollinator Champion" exactly for the grades A+ and A and "Habitat
    Hero" exactly for A- to B-, while "Seedling" (below 40) always has
    grade F and grade F (below 50) may already be tier "Growing". *)
Theorem api_grade_and_tier_monotone (s1 s2 : Q) (H : (s1 <= s2)%Q) :
  (api_grade_rank (score_to_grade s1) <= api_grade_rank (score_to_grade s2))%nat
  /\ (tier_rank (get_tier s1) <= tier_rank (get_tier s2))%nat
  /\ (get_tier s1 = "Pollinator Champion"
      <-> (9 <= api_grade_rank (score_to_grade s1))%nat)
  /\ (get_tier s1 = "Habitat Hero"
      <-> (5 <= api_grade_rank (score_to_grade s1) <= 8)%nat)
  /\ (get_tier s1 = "Seedling" -> score_to_grade s1 = "F")
  /\ (score_to_grade s1 = "F"
      <-> get_tier s1 = "Seedling" \/ (get_tier s1 = "Growing" /\ (s1 < 50)%Q)).
Proof.
  split; [now apply score_to_grade_monotone |].
  split; [now apply get_tier_monotone |].
  clear H s2. unfold get_tier, score_to_grade.
  ladder_cases s1;
    repeat split; intros;
    repeat match goal with
    | H : _ \/ _ |- _ => destruct H
    | H : _ /\ _ |- _ => destruct H
    end;
    first [reflexivity | discriminate | exfalso; lra
          | vm_compute; lia
          | exfalso; vm_compute in *; lia
          | left; reflexivity
          | right; split; [reflexivity | lra]].
Qed.

Lemma api_grade_and_tier_monotone_witness :
  (72 <= 86)%Q
  /\ (api_grade_rank (score_to_grade 72) <= api_grade_rank (score_to_grade 86))%nat
  /\ score_to_grade 72 = "B-" /\ score_to_grade 86 = "A"
  /\ get_tier 86 = "Pollinator Champion".
Proof.
  assert (H : (72 <= 86)%Q) by (unfold Qle; simpl; lia).
  split; [exact H |].
  destruct (api_grade_and_tier_monotone 72 86 H) as (Hm & _).
  split; [exact Hm |]. repeat split; reflexivity.
Defined.

End ScoringApi_properties.

(** ** More on the cache manager *)

Section CacheManager_more.
Import CacheManager.

Lemma length_setitem_le {V} k (v : V) d :
  (length (PyDict.setitem k v d) <= S (length d))%nat.
Proof.
  destruct (PyDict.get k d) as [v0 |] eqn:E.
  - rewrite (length_setitem_present _ _ _ _ E). lia.
  - rewrite (length_setitem_fresh _ _ _ E). lia.
Qed.

Lemma keys_setitem_present {V} k (v v0 : V) d :
  PyDict.get k d = Some v0 ->
  PyDict.keys (PyDict.setitem k v d) = PyDict.keys d.
Proof.
  unfold PyDict.keys.
  induction d as [| [k1 v1] d IH]; cbn; [discriminate |].
  destruct (String.eqb k k1) eqn:E; cbn; [reflexivity |].
  intros H. f_equal. auto.
Qed.

Lemma keys_setitem_fresh {V} k (v : V) d :
  PyDict.get k d = None ->
  PyDict.keys (PyDict.setitem k v d) = (PyDict.keys d ++ [k])%list.
Proof.
  unfold PyDict.keys.
  induction d as [| [k1 v1] d IH]; cbn; [reflexivity |].
  destruct (String.eqb k k1) eqn:E; cbn; [discriminate |].
  intros H. f_equal. auto.
Qed.

Lemma set_within_capacity cm source location d now :
  PyDict.wf (_cache cm) ->
  0 < max_entries cm ->
  Z.of_nat (length (_cache cm)) <= max_entries cm ->
  exists cm',
    set cm source location d now = Ok cm'
    /\ Z.of_nat (length (_cache cm')) <= max_entries cm'
    /\ max_entries cm' = max_entries cm
    /\ ttl_hours cm' = ttl_hours cm
    /\ PyDict.wf (_cache cm').
Proof.
  intros Hwf Hpos Hcap.
  destruct (set_returns cm source location d now Hpos) as [cm' Hset].
  exists cm'. split; [exact Hset |].
  pose proof (wf_set _ _ _ _ _ _ Hwf Hset) as Hwf'.
  unfold set in Hset.
  destruct (max_entries cm <=? Z.of_nat (length (_cache cm))) eqn:E.
  - apply Z.leb_le in E.
    assert (Hne : _cache cm <> []).
    { intros Heq. rewrite Heq in E. cbn in E. lia. }
    destruct (oldest_key_spec (_cache cm) Hwf Hne)
      as (o & eo & Ho & Hg & _).
    rewrite Ho in Hset. injection Hset as <-.
    cbn [_cache max_entries ttl_hours insert_entry with_cache with_stats].
    pose proof (length_delitem _ _ _ Hg) as Hlen.
    pose proof (length_setitem_le
                  (_make_key source (Location.grid_hash location))
                  {| data := d; timestamp := now |}
                  (PyDict.delitem o (_cache cm))) as Hle.
    repeat split; [lia | exact Hwf'].
  - apply Z.leb_gt in E. injection Hset as <-.
    cbn [_cache max_entries ttl_hours insert_entry with_cache].
    pose proof (length_setitem_le
                  (_make_key source (Location.grid_hash location))
                  {| data := d; timestamp := now |} (_cache cm)) as Hle.
    repeat split; [lia | exact Hwf'].
Qed.

Lemma get_within_capacity cm source location now :
  (length (_cache (get cm source location now).2) <= length (_cache cm))%nat
  /\ max_entries (get cm source location now).2 = max_entries cm
  /\ ttl_hours (get cm source location now).2 = ttl_hours cm.
Proof.
  rewrite get_unfold.
  destruct (PyDict.get _ (_cache cm)) as [e |] eqn:Hg;
    [destruct (_ <? _) |]; cbn; repeat split; try lia.
  pose proof (length_delitem _ _ _ Hg). lia.
Qed.

(** X14. The store stays within its capacity: with a positive
    [max_entries] a [set] on a store of at most [max_entries] entries
    returns, and the store it leaves again has at most [max_entries]
    entries and holds each key once; [get] never adds an entry.  So a
    manager created with a positive capacity never holds more than
    [max_entries] entries. *)
Theorem store_stays_within_capacity
    (cm : CacheManager.t) (source : string) (location : Location.t)
    (d : Payload) (now : Z)
    (Hwf : PyDict.wf (_cache cm))
    (Hpos : 0 < max_entries cm)
    (Hcap : Z.of_nat (length (_cache cm)) <= max_entries cm) :
  (exists cm',
     set cm source location d now = Ok cm'
     /\ Z.of_nat (length (_cache cm')) <= max_entries cm'
     /\ max_entries cm' = max_entries cm
     /\ PyDict.wf (_cache cm'))
  /\ Z.of_nat (length (_cache (get cm source location now).2))
     <= max_entries (get cm source location now).2
  /\ PyDict.wf (_cache (get cm source location now).2)
  /\ Z.of_nat (length (_cache (init (ttl_hours cm) (max_entries cm))))
     <= max_entries cm.
Proof.
  split; [| split; [| split]].
  - destruct (set_within_capacity cm source location d now Hwf Hpos Hcap)
      as (cm' & Hset & Hlen & Hmax & _ & Hwf').
    exists cm'. auto.
  - destruct (get_within_capacity cm source location now) as (Hlen & Hmax & _).
    rewrite Hmax. lia.
  - now apply wf_get.
  - cbn. lia.
Qed.

Lemma store_stays_within_capacity_witness :
  exists cm',
    set full_cache "soil" murray [("ph", PyInt 7)] (7 * hour) = Ok cm'
    /\ Z.of_nat (length (_cache cm')) <= max_entries cm'.
Proof.
  destruct (store_stays_within_capacity full_cache "soil" murray
              [("ph", PyInt 7)] (7 * hour) full_cache_wf)
    as ((cm' & Hset & Hlen & _) & _); [cbn; lia | cbn; lia |].
  exists cm'. split; [exact Hset | exact Hlen].
Defined.

(** X15. Every [get] counts exactly once: hits plus misses grow by one,
    evictions do not change, the TTL and the capacity are kept, and the
    store does not grow. *)
Theorem get_counts_exactly_once
    (cm : CacheManager.t) (source : string) (location : Location.t) (now : Z) :
  hits (stats (get cm source location now).2)
  + misses (stats (get cm source location now).2)
  = hits (stats cm) + misses (stats cm) + 1
  /\ hits (stats cm) <= hits (stats (get cm source location now).2)
  /\ misses (stats cm) <= misses (stats (get cm source location now).2)
  /\ evictions (stats (get cm source location now).2) = evictions (stats cm)
  /\ ttl_hours (get cm source location now).2 = ttl_hours cm
  /\ max_entries (get cm source location now).2 = max_entries cm
  /\ (length (_cache (get cm source location now).2) <= length (_cache cm))%nat
  /\ ((get cm source location now).1 = None
      <-> misses (stats (get cm source location now).2) = misses (stats cm) + 1).
Proof.
  rewrite get_unfold.
  destruct (PyDict.get _ (_cache cm)) as [e |] eqn:Hg;
    [destruct (_ <? _) |]; cbn;
    repeat split; intros; try lia; try discriminate; try reflexivity.
  pose proof (length_delitem _ _ _ Hg). lia.
Qed.




(** X17. Below capacity [set] evicts nothing and touches one key only: a
    key that is present keeps its place in the store, which keeps its size
    and order, and gets the new payload and write time; a new key is
    appended at the end and the store grows by one. *)
Theorem set_below_capacity_keeps_order
    (cm : CacheManager.t) (source : string) (location : Location.t)
    (d : Payload) (now : Z)
    (Hroom : Z.of_nat (length (_cache cm)) < max_entries cm) :
  exists cm',
    set cm source location d now = Ok cm'
    /\ stats cm' = stats cm
    /\ PyDict.get (key_of source location) (_cache cm')
       = Some {| data := d; timestamp := now |}
    /\ (forall e0,
          PyDict.get (key_of source location) (_cache cm) = Some e0 ->
          PyDict.keys (_cache cm') = PyDict.keys (_cache cm)
          /\ length (_cache cm') = length (_cache cm))
    /\ (PyDict.get (key_of source location) (_cache cm) = None ->
        PyDict.keys (_cache cm')
        = (PyDict.keys (_cache cm) ++ [key_of source location])%list
        /\ length (_cache cm') = S (length (_cache cm))).
Proof.
  unfold set. apply Z.leb_gt in Hroom. rewrite Hroom.
  eexists. split; [reflexivity |].
  cbn [_cache stats insert_entry with_cache]. fold (key_of source location).
  split; [reflexivity |]. split; [apply get_setitem_eq |]. split.
  - intros e0 H0. split;
      [eapply keys_setitem_present | eapply length_setitem_present]; exact H0.
  - intros H0. split;
      [apply keys_setitem_fresh | apply length_setitem_fresh]; exact H0.
Qed.

Lemma set_below_capacity_keeps_order_witness :
  exists cm',
    set (init 24 1000) "inat" murray [("count", PyInt 7)] hour = Ok cm'
    /\ PyDict.keys (_cache cm') = ["inat:40.666_-111.897"].
Proof.
  destruct (set_below_capacity_keeps_order (init 24 1000) "inat" murray
              [("count", PyInt 7)] hour)
    as (cm' & Hset & _ & _ & _ & Hnew); [cbn; lia |].
  exists cm'. split; [exact Hset |].
  destruct Hnew as [Hk _]; [reflexivity | exact Hk].
Defined.



End CacheManager_more.

(** ** More on the engine *)

Section PollinatorEngine_more.
Import PollinatorEngine.

Implicit Types (e : PollinatorEngine.t) (w : World)
  (data : gmap string BundleValue).

(** X19. Registration is last-write-wins.  After [register_source] the
    name of the source is bound to it and every other name is bound as
    before; a name that was registered keeps its place in the list of
    sources, a new one is appended; no name is listed twice; the
    algorithms and the cache are untouched.  [register_algorithm] binds
    the algorithm's name and leaves the other names, the sources and the
    cache as they were. *)
Theorem register_is_last_write_wins
    (e : PollinatorEngine.t) (source : DataSource.t World)
    (a : ScoringAlgorithm.t)
    (Hwf : PyDict.wf (_sources e)) :
  PyDict.get (DataSource.name source) (_sources (register_source e source))
  = Some source
  /\ (forall n, n <> DataSource.name source ->
        PyDict.get n (_sources (register_source e source))
        = PyDict.get n (_sources e))
  /\ (is_Some (PyDict.get (DataSource.name source) (_sources e)) ->
      list_sources (register_source e source) = list_sources e)
  /\ (PyDict.get (DataSource.name source) (_sources e) = None ->
      list_sources (register_source e source)
      = (list_sources e ++ [DataSource.name source])%list)
  /\ PyDict.wf (_sources (register_source e source))
  /\ _algorithms (register_source e source) = _algorithms e
  /\ _cache (register_source e source) = _cache e
  /\ _algorithms (register_algorithm e a) !! ScoringAlgorithm.name a = Some a
  /\ (forall n, n <> ScoringAlgorithm.name a ->
        _algorithms (register_algorithm e a) !! n = _algorithms e !! n)
  /\ _sources (register_algorithm e a) = _sources e
  /\ _cache (register_algorithm e a) = _cache e.
Proof.
  unfold register_source, register_algorithm, list_sources.
  cbn [_sources _algorithms _cache].
  split; [apply get_setitem_eq |].
  split; [intros n Hn; apply get_setitem_ne; congruence |].
  split; [intros [s0 Hs0]; eapply keys_setitem_present; exact Hs0 |].
  split; [apply keys_setitem_fresh |].
  split; [now apply wf_setitem |].
  split; [reflexivity |]. split; [reflexivity |].
  split; [apply lookup_insert_eq |].
  split; [intros n Hn; apply lookup_insert_ne; congruence |].
  split; reflexivity.
Qed.

Lemma register_is_last_write_wins_witness :
  PyDict.wf (_sources sample_engine)
  /\ list_sources
       (register_source sample_engine
          {| DataSource.name := "broken";
             DataSource.fetch := fun _ _ => Ok [] |})
     = ["broken"; "inat"].
Proof.
  assert (Hwf : PyDict.wf (_sources sample_engine))
    by (apply (bool_decide_unpack _); vm_compute; exact I).
  split; [exact Hwf |].
  destruct (register_is_last_write_wins sample_engine
              {| DataSource.name := "broken";
                 DataSource.fetch := fun _ _ => Ok [] |}
              {| ScoringAlgorithm.name := "homeowner_v1";
                 ScoringAlgorithm.tool := "pollinator_path";
                 ScoringAlgorithm.calculate :=
                   fun _ _ => Raise (ValueError "no data") |} Hwf)
    as (_ & _ & Hkeep & _).
  rewrite Hkeep; [reflexivity |]. cbn. eauto.
Defined.

Lemma fetch_one_registered_payload location n data e w source data' s' :
  PyDict.get n (_sources e) = Some source ->
  fetch_one location n data (e, w) = (Ok data', s') ->
  exists p, data' = <[n := BPayload p]> data.
Proof.
  intros Hreg Hone.
  destruct (cache_get_returns location n e w) as (r' & e1 & w1 & Hg & _).
  destruct r' as [p |].
  - rewrite (fetch_one_hit _ _ _ _ _ _ _ _ Hreg Hg) in Hone.
    injection Hone as <- _. eauto.
  - destruct (DataSource.fetch source w1 location)
      as [result | [x | cls msg]] eqn:Hf.
    + destruct (CacheManager.set (_cache e1) n location result
                  (clock w1 (reads w1))) as [cm2 | b] eqn:Hset.
      * rewrite (fetch_one_stored _ _ _ _ _ _ _ _ _ _ Hreg Hg Hf Hset)
          in Hone.
        injection Hone as <- _. eauto.
      * pose proof (set_raises _ _ _ _ _ _ Hset) as ->.
        rewrite (fetch_one_set_raises _ _ _ _ _ _ _ _ _ _ Hreg Hg Hf Hset)
          in Hone.
        injection Hone as <- _. unfold error_payload. eauto.
    + rewrite (fetch_one_fetch_raises _ _ _ _ _ _ _ _ _ Hreg Hg Hf) in Hone.
      injection Hone as <- _. unfold error_payload. eauto.
    + rewrite (fetch_one_fetch_escapes _ _ _ _ _ _ _ _ _ _ Hreg Hg Hf)
        in Hone.
      discriminate Hone.
Qed.

Lemma fetch_loop_keeps location names : forall data e w k,
  (~ In k names \/ PyDict.get k (_sources e) = None) ->
  forall bundle s',
    fetch_loop location names data (e, w) = (Ok bundle, s') ->
    bundle !! k = data !! k.
Proof.
  induction names as [| n rest IH]; intros data e w k Hk bundle s' Hloop.
  - cbn in Hloop. unfold ret in Hloop. now injection Hloop as <- _.
  - apply fetch_loop_cons_ok in Hloop as (data1 & [e1 w1] & Hone & Hloop).
    pose proof (fetch_one_ok _ _ _ _ _ _ _ _ Hone) as (Hsrc & Hframe & _).
    rewrite (IH data1 e1 w1 k) with (bundle := bundle) (s' := s');
      [| rewrite Hsrc; cbn in Hk; tauto | exact Hloop].
    destruct (String.eqb_spec k n) as [-> | Hne].
    + destruct Hk as [Hk | Hk]; [cbn in Hk; tauto |].
      rewrite (fetch_one_unregistered _ _ _ _ _ Hk) in Hone.
      now injection Hone as <- _ _.
    + apply Hframe. exact Hne.
Qed.

Lemma fetch_loop_payload location names : forall data e w k source,
  PyDict.get k (_sources e) = Some source ->
  (In k names \/ exists p, data !! k = Some (BPayload p)) ->
  forall bundle s',
    fetch_loop location names data (e, w) = (Ok bundle, s') ->
    exists p, bundle !! k = Some (BPayload p).
Proof.
  induction names as [| n rest IH];
    intros data e w k source Hreg Hk bundle s' Hloop.
  - cbn in Hloop. unfold ret in Hloop. injection Hloop as <- _.
    destruct Hk as [[] | Hk]. exact Hk.
  - apply fetch_loop_cons_ok in Hloop as (data1 & [e1 w1] & Hone & Hloop).
    pose proof (fetch_one_ok _ _ _ _ _ _ _ _ Hone) as (Hsrc & Hframe & _).
    rewrite <- Hsrc in Hreg.
    eapply (IH data1 e1 w1 k source Hreg); [| exact Hloop].
    destruct (String.eqb_spec k n) as [-> | Hne].
    + right. rewrite Hsrc in Hreg.
      destruct (fetch_one_registered_payload _ _ _ _ _ _ _ _ Hreg Hone)
        as [p ->].
      exists p. apply lookup_insert_eq.
    + destruct Hk as [[Hk | Hk] | [p Hp]]; [congruence | now left |].
      right. exists p. now rewrite Hframe.
Qed.

(** X20. The bundle of [fetch_data] holds the location under "_location"
    unless a source is registered under that very name and requested: then
    the entry is that source's payload (or error mapping) and the location
    is no longer in the bundle.  This holds of every bundle [fetch_data]
    returns, and it returns one whenever the registered sources raise only
    instances of [Exception]. *)
Theorem bundle_location_entry
    (e : PollinatorEngine.t) (w : World) (location : Location.t)
    (sources : option (list string)) :
  (forall bundle s',
     fetch_data location sources (e, w) = (Ok bundle, s') ->
     (~ In "_location" (requested e sources)
      \/ PyDict.get "_location" (_sources e) = None ->
      bundle !! "_location" = Some (BLocation location))
     /\ (In "_location" (requested e sources) ->
         is_Some (PyDict.get "_location" (_sources e)) ->
         exists p, bundle !! "_location" = Some (BPayload p)))
  /\ (sources_raise_only_Exception e ->
      exists bundle s', fetch_data location sources (e, w) = (Ok bundle, s')).
Proof.
  unfold fetch_data. split.
  - intros bundle s' Hloop. split.
    + intros Hk.
      rewrite (fetch_loop_keeps _ _ _ _ _ _ Hk _ _ Hloop).
      apply lookup_singleton_eq.
    + intros Hin [source Hreg].
      eapply fetch_loop_payload; [exact Hreg | left; exact Hin | exact Hloop].
  - intros Hexc.
    destruct (fetch_loop_returns location (requested e sources)
                {["_location" := BLocation location]} e w Hexc)
      as (bundle & e' & w' & Hloop).
    exists bundle, (e', w'). exact Hloop.
Qed.

Lemma bundle_location_entry_witness :
  sources_raise_only_Exception sample_engine
  /\ exists bundle s',
       fetch_data murray None (sample_engine, world_at (2 * hour))
       = (Ok bundle, s')
       /\ bundle !! "_location" = Some (BLocation murray).
Proof.
  split; [exact sample_engine_raises_only_Exception |].
  destruct (bundle_location_entry sample_engine (world_at (2 * hour))
              murray None) as (Hentry & Hret).
  destruct (Hret sample_engine_raises_only_Exception)
    as (bundle & s' & Hdata).
  exists bundle, s'. split; [exact Hdata |].
  apply (Hentry bundle s' Hdata). right. reflexivity.
Defined.

(** X21. Names that are not registered are skipped without a trace: a
    request that names only unregistered sources returns the bundle with
    the location alone and leaves the engine and the world as they were
    (no clock reading, no fetch, no counter moved). *)
Theorem unregistered_sources_are_skipped
    (e : PollinatorEngine.t) (w : World) (location : Location.t)
    (n : string) (ns : list string)
    (Hnone : Forall (fun k => PyDict.get k (_sources e) = None) (n :: ns)) :
  fetch_data location (Some (n :: ns)) (e, w)
  = (Ok {["_location" := BLocation location]}, (e, w)).
Proof.
  unfold fetch_data. cbn [requested].
  generalize ({["_location" := BLocation location]} : gmap string BundleValue).
  revert Hnone. generalize (n :: ns). clear n ns.
  intros names. induction names as [| k rest IH]; intros Hnone data.
  - reflexivity.
  - apply Forall_cons in Hnone as [Hk Hrest].
    rewrite (fetch_loop_cons _ _ _ _ _ _ _
               (fetch_one_unregistered location k data e w Hk)).
    now apply IH.
Qed.

Lemma unregistered_sources_are_skipped_witness :
  fetch_data murray (Some ["weather"; "soil"])
    (sample_engine, world_at (2 * hour))
  = (Ok {["_location" := BLocation murray]},
     (sample_engine, world_at (2 * hour))).
Proof.
  apply (unregistered_sources_are_skipped sample_engine
           (world_at (2 * hour)) murray "weather" ["soil"]).
  repeat constructor.
Defined.

(** X22. What the engine has fetched it serves from the cache: after an
    iteration that fetched a payload and stored it, the next iteration for
    the same source and location whose clock reading is within the TTL of
    the write puts the same payload in the bundle, counts a hit and makes
    no call to [fetch]. *)
Theorem second_fetch_is_served_from_cache
    (e : PollinatorEngine.t) (w : World) (location : Location.t)
    (n : string) (data data2 : gmap string BundleValue)
    (source : DataSource.t World) (result : Payload)
    (e1 : PollinatorEngine.t) (w1 : World) (cm2 : CacheManager.t)
    (Hreg : PyDict.get n (_sources e) = Some source)
    (Hmiss : cache_get n location (e, w) = (Ok None, (e1, w1)))
    (Hfetch : DataSource.fetch source w1 location = Ok result)
    (Hset : CacheManager.set (_cache e1) n location result
              (clock w1 (reads w1)) = Ok cm2)
    (Hfresh : clock w1 (S (reads w1)) - clock w1 (reads w1)
              < CacheManager.ttl cm2) :
  fetch_one location n data (e, w)
  = (Ok (<[n := BPayload result]> data),
     (with_cache e1 cm2, tick (log_fetch (DataSource.name source) location w1)))
  /\ fetch_one location n data2
       (with_cache e1 cm2,
        tick (log_fetch (DataSource.name source) location w1))
     = (Ok (<[n := BPayload result]> data2),
        (with_cache e1
           (CacheManager.with_stats cm2
              (CacheManager.count_hit (CacheManager.stats cm2))),
         tick (tick (log_fetch (DataSource.name source) location w1))))
  /\ fetch_log (tick (tick (log_fetch (DataSource.name source) location w1)))
     = (fetch_log w1 ++ [(DataSource.name source, location)])%list.
Proof.
  split; [now apply fetch_one_stored |]. split; [| reflexivity].
  assert (Hsrc : _sources e1 = _sources e).
  { destruct (cache_get_returns location n e w)
      as (r & e0 & w0 & Hget & Hs & _).
    rewrite Hget in Hmiss. now injection Hmiss as _ <- _. }
  pose proof (set_then_get _ _ _ _ _ _
                (clock w1 (S (reads w1))) Hset Hfresh) as Hhit.
  assert (Hkey : PyDict.get (key_of n location) (CacheManager._cache cm2)
                 = Some {| CacheManager.data := result;
                           CacheManager.timestamp := clock w1 (reads w1) |}).
  { unfold CacheManager.set in Hset.
    destruct (_ <=? _);
      [destruct (CacheManager.oldest_key _); [| discriminate] |];
      injection Hset as <-; cbn; apply get_setitem_eq. }
  eapply fetch_one_hit.
  - cbn [_sources with_cache]. rewrite Hsrc. exact Hreg.
  - unfold cache_get.
    cbn [_cache with_cache clock reads tick log_fetch].
    rewrite Hhit. fold (key_of n location). rewrite Hkey. reflexivity.
Qed.

Lemma second_fetch_is_served_from_cache_witness :
  fetch_log
    (fetch_one murray "inat" ∅
       (fetch_one murray "inat" ∅
          (sample_engine, world_at (2 * hour))).2).2.2
  = [("inat", murray)].
Proof.
  set (s1 := cache_get "inat" murray (sample_engine, world_at (2 * hour))).
  destruct (second_fetch_is_served_from_cache sample_engine
              (world_at (2 * hour)) murray "inat" ∅ ∅ inat
              [("count", PyInt 7)] s1.2.1 s1.2.2
              (CacheManager.insert_entry (_cache s1.2.1) "inat" murray
                 [("count", PyInt 7)] (2 * hour)))
    as (Hfirst & Hsecond & _);
    [reflexivity | reflexivity | reflexivity | reflexivity
    | vm_compute; reflexivity |].
  rewrite Hfirst. cbn [snd]. rewrite Hsecond. reflexivity.
Defined.

End PollinatorEngine_more.

(** ** Scoring through the engine *)

Section PollinatorEngine_scoring.
Import PollinatorEngine.

Implicit Types (e : PollinatorEngine.t) (w : World)
  (data : gmap string BundleValue).

Lemma fetch_loop_raises location names : forall data e w b s',
  fetch_loop location names data (e, w) = (Raise b, s') ->
  exists cls msg, b = NotException cls msg.
Proof.
  induction names as [| n rest IH]; intros data e w b s' Hloop.
  - discriminate Hloop.
  - destruct (fetch_one_cases location n data e w)
      as [(data1 & e1 & w1 & Hone & _)
         | (source & cls & msg & e1 & w1 & w0 & _ & _ & Hone & _)].
    + rewrite (fetch_loop_cons _ _ _ _ _ _ _ Hone) in Hloop.
      eapply IH. exact Hloop.
    + rewrite (fetch_loop_cons_raise _ _ _ _ _ _ _ Hone) in Hloop.
      injection Hloop as <- _. eauto.
Qed.

(** X23. With a registered algorithm [score] fetches every registered
    source and then returns what the algorithm's [calculate] returns or
    raises on the bundle, from the state the fetching has reached: an
    exception of [calculate] is not caught.  When the registered sources
    raise only instances of [Exception] the fetching returns a bundle, so
    a source that fails in this way does not make [score] fail.  The one
    way the fetching fails is an exception of a [fetch] that is not an
    instance of [Exception]: it leaves [score], and [calculate] is not
    run. *)
Theorem score_runs_the_algorithm_on_the_bundle
    (e : PollinatorEngine.t) (w : World) (location : Location.t)
    (algorithm : string) (algo : ScoringAlgorithm.t)
    (Hreg : _algorithms e !! algorithm = Some algo) :
  (forall bundle s',
     fetch_data location None (e, w) = (Ok bundle, s') ->
     score location algorithm (e, w)
     = (ScoringAlgorithm.calculate algo location bundle, s')
     /\ (forall n, is_Some (PyDict.get n (_sources e)) ->
                   is_Some (bundle !! n))
     /\ (forall r, ScoringAlgorithm.calculate algo location bundle = Ok r ->
                   score location algorithm (e, w) = (Ok r, s'))
     /\ (forall x, ScoringAlgorithm.calculate algo location bundle = Raise x ->
                   score location algorithm (e, w) = (Raise x, s')))
  /\ (sources_raise_only_Exception e ->
      exists bundle s', fetch_data location None (e, w) = (Ok bundle, s'))
  /\ (forall b s',
        fetch_data location None (e, w) = (Raise b, s') ->
        score location algorithm (e, w) = (Raise b, s')
        /\ exists cls msg, b = NotException cls msg)
  /\ (forall n source others cls msg e1 w1,
        _sources e = (n, source) :: others ->
        cache_get n location (e, w) = (Ok None, (e1, w1)) ->
        DataSource.fetch source w1 location = Raise (NotException cls msg) ->
        score location algorithm (e, w)
        = (Raise (NotException cls msg),
           (e1, log_fetch (DataSource.name source) location w1))).
Proof.
  assert (Hscore : score location algorithm (e, w)
                   = match fetch_data location None (e, w) with
                     | (Ok bundle, s') =>
                         (ScoringAlgorithm.calculate algo location bundle, s')
                     | (Raise b, s') => (Raise b, s')
                     end).
  { unfold score. rewrite Hreg. unfold bind. reflexivity. }
  split; [| split; [| split]].
  - intros bundle [e' w'] Hdata. rewrite Hscore, Hdata.
    split; [reflexivity |]. split.
    + apply fetch_loop_ok in Hdata as (_ & _ & Hin).
      intros n Hn. apply Hin; [| exact Hn].
      cbn [requested]. destruct Hn as [s Hs].
      apply get_In in Hs.
      unfold PyDict.keys. apply (in_map fst) in Hs. exact Hs.
    + split; intros ? Hc; now rewrite Hc.
  - intros Hexc.
    destruct (fetch_loop_returns location (requested e None)
                {["_location" := BLocation location]} e w Hexc)
      as (bundle & e' & w' & Hloop).
    exists bundle, (e', w'). exact Hloop.
  - intros b s' Hdata. rewrite Hscore, Hdata. split; [reflexivity |].
    eapply fetch_loop_raises. exact Hdata.
  - intros n source others cls msg e1 w1 Hsrc Hmiss Hesc.
    rewrite Hscore. unfold fetch_data. cbn [requested].
    assert (Hget : PyDict.get n (_sources e) = Some source)
      by (rewrite Hsrc; cbn; now rewrite String.eqb_refl).
    rewrite Hsrc. cbn [PyDict.keys map fst].
    now rewrite (fetch_loop_cons_raise _ _ _ _ _ _ _
                   (fetch_one_fetch_escapes _ _ _ _ _ _ _ _ _ _
                      Hget Hmiss Hesc)).
Qed.

Lemma score_runs_the_algorithm_on_the_bundle_witness :
  (score murray "always_fails"
     (register_algorithm sample_engine
        {| ScoringAlgorithm.name := "always_fails";
           ScoringAlgorithm.tool := "pollinator_path";
           ScoringAlgorithm.calculate :=
             fun _ _ => Raise (ValueError "no data") |},
      world_at (2 * hour))).1
  = Raise (ValueError "no data").
Proof.
  destruct (score_runs_the_algorithm_on_the_bundle
              (register_algorithm sample_engine
                 {| ScoringAlgorithm.name := "always_fails";
                    ScoringAlgorithm.tool := "pollinator_path";
                    ScoringAlgorithm.calculate :=
                      fun _ _ => Raise (ValueError "no data") |})
              (world_at (2 * hour)) murray "always_fails"
              {| ScoringAlgorithm.name := "always_fails";
                 ScoringAlgorithm.tool := "pollinator_path";
                 ScoringAlgorithm.calculate :=
                   fun _ _ => Raise (ValueError "no data") |})
    as (Hrun & Hret & _).
  - apply lookup_insert_eq.
  - destruct (Hret sample_engine_raises_only_Exception)
      as (bundle & s' & Hdata).
    destruct (Hrun bundle s' Hdata) as (_ & _ & _ & Hraise).
    rewrite (Hraise (ValueError "no data")); reflexivity.
Defined.

Lemma batch_score_cons loc rest algorithm s :
  batch_score (loc :: rest) algorithm s
  = match score loc algorithm s with
    | (Ok r, s1) =>
        match batch_score rest algorithm s1 with
        | (Ok rs, s2) => (Ok (r :: rs), s2)
        | (Raise x, s2) => (Raise x, s2)
        end
    | (Raise x, s1) => (Raise x, s1)
    end.
Proof.
  cbn [batch_score]. unfold bind, ret.
  destruct (score loc algorithm s) as [[r | x] s1]; [| reflexivity].
  destruct (batch_score rest algorithm s1) as [[rs | x] s2]; reflexivity.
Qed.

Lemma batch_score_length locations algorithm : forall s rs s',
  batch_score locations algorithm s = (Ok rs, s') ->
  length rs = length locations.
Proof.
  induction locations as [| loc rest IH]; intros s rs s' H.
  - cbn in H. unfold ret in H. now injection H as <- _.
  - rewrite batch_score_cons in H.
    destruct (score loc algorithm s) as [[r | x] s1]; [| discriminate].
    destruct (batch_score rest algorithm s1) as [[rs1 | x] s2] eqn:Hb;
      [| discriminate].
    injection H as <- _. cbn. f_equal. eapply IH. exact Hb.
Qed.

Lemma batch_score_aborts done_ : forall algorithm s rs s1 loc rest x s2,
  batch_score done_ algorithm s = (Ok rs, s1) ->
  score loc algorithm s1 = (Raise x, s2) ->
  batch_score (done_ ++ loc :: rest) algorithm s = (Raise x, s2).
Proof.
  induction done_ as [| l0 done_ IH];
    intros algorithm s rs s1 loc rest x s2 Hok Hfail.
  - cbn in Hok. unfold ret in Hok. injection Hok as _ <-.
    cbn [app]. rewrite batch_score_cons, Hfail. reflexivity.
  - cbn [app]. rewrite batch_score_cons in *.
    destruct (score l0 algorithm s) as [[r | y] sa]; [| discriminate].
    destruct (batch_score done_ algorithm sa) as [[rs1 | y] sb] eqn:Hb;
      [| discriminate].
    injection Hok as _ <-.
    now rewrite (IH algorithm sa rs1 sb loc rest x s2 Hb Hfail).
Qed.

(** X24. [batch_score] scores the locations in order and stops at the
    first failure: when it returns there is one result per location; when
    the score of a location raises after the locations before it were
    scored, the whole call raises that exception from the state reached
    and the results obtained so far are not returned.  An empty batch
    returns the empty list without touching the state, even for an unknown
    algorithm; a non-empty batch with an unknown algorithm raises at once. *)
Theorem batch_score_stops_at_first_failure
    (s : PollinatorEngine.t * World) (algorithm : string) :
  batch_score [] algorithm s = (Ok [], s)
  /\ (forall locations rs s',
        batch_score locations algorithm s = (Ok rs, s') ->
        length rs = length locations)
  /\ (forall scored rs s1 loc rest x s2,
        batch_score scored algorithm s = (Ok rs, s1) ->
        score loc algorithm s1 = (Raise x, s2) ->
        batch_score (scored ++ loc :: rest) algorithm s = (Raise x, s2))
  /\ (forall loc rest,
        _algorithms s.1 !! algorithm = None ->
        batch_score (loc :: rest) algorithm s
        = (Raise (ValueError ("Unknown algorithm: " ++ algorithm)), s)).
Proof.
  split; [reflexivity |].
  split; [intros locations rs s'; apply batch_score_length |].
  split; [intros scored rs s1 loc rest x s2; apply batch_score_aborts |].
  intros loc rest Hnone. destruct s as [e w]. cbn [fst] in Hnone.
  rewrite batch_score_cons. unfold score. rewrite Hnone. reflexivity.
Qed.

Lemma batch_score_stops_at_first_failure_witness :
  batch_score [murray; murray] "homeowner_v1"
    (sample_engine, world_at (2 * hour))
  = (Raise (ValueError "Unknown algorithm: homeowner_v1"),
     (sample_engine, world_at (2 * hour))).
Proof.
  destruct (batch_score_stops_at_first_failure
              (sample_engine, world_at (2 * hour)) "homeowner_v1")
    as (_ & _ & _ & Hunknown).
  apply Hunknown. reflexivity.
Defined.

Lemma cache_get_within_capacity location n e w r e1 w1 :
  cache_within_capacity e ->
  cache_get n location (e, w) = (Ok r, (e1, w1)) ->
  cache_within_capacity e1
  /\ CacheManager.max_entries (_cache e1) = CacheManager.max_entries (_cache e)
  /\ CacheManager.ttl_hours (_cache e1) = CacheManager.ttl_hours (_cache e).
Proof.
  intros (Hwf & Hpos & Hcap) Hget. unfold cache_get in Hget.
  pose proof (get_within_capacity (_cache e) n location (clock w (reads w)))
    as (Hlen & Hmax & Httl).
  pose proof (wf_get (_cache e) n location (clock w (reads w)) Hwf) as Hwf1.
  destruct (CacheManager.get (_cache e) n location (clock w (reads w)))
    as [r0 cm].
  injection Hget as _ <- _. cbn [snd] in *.
  unfold cache_within_capacity. cbn [_cache with_cache].
  rewrite Hmax. repeat split; try assumption. lia.
Qed.

Lemma fetch_one_within_capacity location n data e w :
  cache_within_capacity e ->
  cache_within_capacity (fetch_one location n data (e, w)).2.1
  /\ CacheManager.max_entries (_cache (fetch_one location n data (e, w)).2.1)
     = CacheManager.max_entries (_cache e)
  /\ CacheManager.ttl_hours (_cache (fetch_one location n data (e, w)).2.1)
     = CacheManager.ttl_hours (_cache e).
Proof.
  intros Hinv.
  destruct (PyDict.get n (_sources e)) as [source |] eqn:Hreg;
    [| rewrite fetch_one_unregistered by exact Hreg; auto].
  destruct (cache_get_returns location n e w) as (r & e1 & w1 & Hget & _).
  destruct (cache_get_within_capacity _ _ _ _ _ _ _ Hinv Hget)
    as (Hinv1 & Hmax1 & Httl1).
  destruct r as [p |].
  - rewrite (fetch_one_hit _ _ _ _ _ _ _ _ Hreg Hget). auto.
  - destruct (DataSource.fetch source w1 location)
      as [result | [x | cls msg]] eqn:Hf.
    + destruct Hinv1 as (Hwf1 & Hpos1 & Hcap1).
      destruct (set_within_capacity (_cache e1) n location result
                  (clock w1 (reads w1)) Hwf1 Hpos1 Hcap1)
        as (cm2 & Hset & Hlen2 & Hmax2 & Httl2 & Hwf2).
      rewrite (fetch_one_stored _ _ _ _ _ _ _ _ _ _ Hreg Hget Hf Hset).
      unfold cache_within_capacity. cbn [snd fst _cache with_cache].
      rewrite Hmax2, Httl2 in *. repeat split; try assumption; congruence.
    + rewrite (fetch_one_fetch_raises _ _ _ _ _ _ _ _ _ Hreg Hget Hf). auto.
    + rewrite (fetch_one_fetch_escapes _ _ _ _ _ _ _ _ _ _ Hreg Hget Hf).
      auto.
Qed.

Lemma fetch_loop_within_capacity location names : forall data e w,
  cache_within_capacity e ->
  cache_within_capacity (fetch_loop location names data (e, w)).2.1
  /\ CacheManager.max_entries (_cache (fetch_loop location names data (e, w)).2.1)
     = CacheManager.max_entries (_cache e)
  /\ CacheManager.ttl_hours (_cache (fetch_loop location names data (e, w)).2.1)
     = CacheManager.ttl_hours (_cache e).
Proof.
  induction names as [| n rest IH]; intros data e w Hinv; [cbn; auto |].
  pose proof (fetch_one_within_capacity location n data e w Hinv)
    as (Hinv1 & Hmax1 & Httl1).
  destruct (fetch_one location n data (e, w)) as [[data1 | b] [e1 w1]] eqn:Hone;
    cbn [snd fst] in Hinv1, Hmax1, Httl1.
  - rewrite (fetch_loop_cons _ _ _ _ _ _ _ Hone).
    destruct (IH data1 e1 w1 Hinv1) as (Hinv2 & Hmax2 & Httl2).
    split; [exact Hinv2 |]. split; congruence.
  - rewrite (fetch_loop_cons_raise _ _ _ _ _ _ _ Hone). cbn [snd fst]. auto.
Qed.

(** X25. The memory of the engine is bounded: a new engine has an empty
    cache of capacity 1000, and [fetch_data], [clear_cache] and the
    registrations keep the cache within its capacity, with each key held
    once and the capacity and the TTL unchanged; so the cache of an engine
    never holds more than 1000 entries. *)
Theorem engine_cache_is_bounded
    (e : PollinatorEngine.t) (w : World) (location : Location.t)
    (sources : option (list string)) (cache_ttl_hours : Z)
    (Hinv : cache_within_capacity e) :
  cache_within_capacity (fetch_data location sources (e, w)).2.1
  /\ CacheManager.max_entries (_cache (fetch_data location sources (e, w)).2.1)
     = CacheManager.max_entries (_cache e)
  /\ CacheManager.ttl_hours (_cache (fetch_data location sources (e, w)).2.1)
     = CacheManager.ttl_hours (_cache e)
  /\ cache_within_capacity (clear_cache e)
  /\ (forall source, cache_within_capacity (register_source e source))
  /\ (forall a, cache_within_capacity (register_algorithm e a))
  /\ cache_within_capacity (init cache_ttl_hours)
  /\ CacheManager.max_entries (_cache (init cache_ttl_hours)) = 1000.
Proof.
  pose proof (fetch_loop_within_capacity location (requested e sources)
                {["_location" := BLocation location]} e w Hinv) as Hloop.
  split; [apply Hloop |]. split; [apply Hloop |]. split; [apply Hloop |].
  destruct Hinv as (Hwf & Hpos & Hcap).
  split; [| split; [| split; [| split]]].
  - unfold cache_within_capacity, clear_cache. cbn.
    split; [apply NoDup_nil_2 | split; [exact Hpos | lia]].
  - intros source. unfold cache_within_capacity. cbn. auto.
  - intros a. unfold cache_within_capacity. cbn. auto.
  - unfold cache_within_capacity. cbn.
    split; [apply NoDup_nil_2 | split; lia].
  - reflexivity.
Qed.

Lemma engine_cache_is_bounded_witness :
  cache_within_capacity sample_engine
  /\ cache_within_capacity
       (fetch_data murray None (sample_engine, world_at (2 * hour))).2.1.
Proof.
  assert (H : cache_within_capacity sample_engine).
  { unfold cache_within_capacity. cbn.
    split; [apply NoDup_nil_2 | split; lia]. }
  split; [exact H |].
  destruct (engine_cache_is_bounded sample_engine (world_at (2 * hour))
              murray None 24 H) as (Hfetch & _).
  exact Hfetch.
Defined.

(** X26. [clear_cache] empties the store and keeps everything else: the
    counters, the TTL, the capacity and the registries are as before, and
    every lookup misses; so after it the next iteration for any registered
    source calls the source's [fetch] again, without reading the clock for
    the lookup. *)
Theorem clear_cache_forces_refetch
    (e : PollinatorEngine.t) (w : World) (location : Location.t)
    (n : string) (data : gmap string BundleValue)
    (source : DataSource.t World)
    (Hreg : PyDict.get n (_sources e) = Some source) :
  CacheManager._cache (_cache (clear_cache e)) = []
  /\ CacheManager.stats (_cache (clear_cache e)) = CacheManager.stats (_cache e)
  /\ CacheManager.ttl_hours (_cache (clear_cache e))
     = CacheManager.ttl_hours (_cache e)
  /\ CacheManager.max_entries (_cache (clear_cache e))
     = CacheManager.max_entries (_cache e)
  /\ _sources (clear_cache e) = _sources e
  /\ _algorithms (clear_cache e) = _algorithms e
  /\ cache_get n location (clear_cache e, w)
     = (Ok None,
        (with_cache e
           (CacheManager.with_stats (_cache (clear_cache e))
              (CacheManager.count_miss (CacheManager.stats (_cache e)))),
         w))
  /\ fetch_log (fetch_one location n data (clear_cache e, w)).2.2
     = (fetch_log w ++ [(DataSource.name source, location)])%list.
Proof.
  repeat (split; [reflexivity |]).
  apply fetch_one_absent_calls_fetch; [exact Hreg | reflexivity].
Qed.

Lemma clear_cache_forces_refetch_witness :
  fetch_log (fetch_one murray "broken" ∅
               (clear_cache stale_engine, world_at hour)).2.2
  = [("broken", murray)].
Proof.
  destruct (clear_cache_forces_refetch stale_engine (world_at hour) murray
              "broken" ∅ broken) as (_ & _ & _ & _ & _ & _ & _ & Hlog);
    [reflexivity |].
  rewrite Hlog. reflexivity.
Defined.

End PollinatorEngine_scoring.

(** ** The model table *)

Section ScoringConfig_properties.
Import ScoringConfig.

(** X27. In every model of the table the four component weights sum to
    100; the table has the two versions "2.0.0" and "2.1.0-beta" and no
    other, and the active model is the one of the active version, the
    fallback of [get_active_model] is not taken. *)
Theorem model_weights_sum_to_100 (version : string) (model : Json)
    (Hmodel : get_model version = Some model) :
  weights_sum model = Some 100%Q
  /\ (version = "2.0.0" \/ version = "2.1.0-beta")
  /\ get_active_model = get_model get_model_version.
Proof.
  unfold get_model, SCORING_MODELS in Hmodel. cbn [PyDict.get] in Hmodel.
  destruct (String.eqb version "2.0.0") eqn:E1.
  - apply String.eqb_eq in E1. injection Hmodel as <-.
    split; [vm_compute; reflexivity |]. split; [now left | reflexivity].
  - destruct (String.eqb version "2.1.0-beta") eqn:E2; [| discriminate].
    apply String.eqb_eq in E2. injection Hmodel as <-.
    split; [vm_compute; reflexivity |]. split; [now right | reflexivity].
Qed.

Lemma model_weights_sum_to_100_witness :
  exists model,
    get_model "2.1.0-beta" = Some model /\ weights_sum model = Some 100%Q.
Proof.
  destruct (get_model "2.1.0-beta") as [model |] eqn:Hm;
    [| vm_compute in Hm; discriminate].
  exists model. split; [reflexivity |].
  exact (proj1 (model_weights_sum_to_100 "2.1.0-beta" model Hm)).
Defined.

(** X28. The category maxima of the code are the component weights of the
    active model: for every property the floral, nesting, connectivity and
    management totals are at most the weights the active model gives to
    these components (35, 30, 20, 15), and the raw score is at most their
    sum. *)
Theorem category_totals_within_active_weights (data : ScoringV2.PropertyData) :
  exists wf wn wc wm,
    (get_active_model ≫= num_at ["weights"; "floral"]) = Some wf
    /\ (get_active_model ≫= num_at ["weights"; "nesting"]) = Some wn
    /\ (get_active_model ≫= num_at ["weights"; "connectivity"]) = Some wc
    /\ (get_active_model ≫= num_at ["weights"; "management"]) = Some wm
    /\ (ScoringV2.Floral.total (ScoringV2.score_floral_resources data) <= wf)%Q
    /\ (ScoringV2.Nesting.total (ScoringV2.score_nesting_habitat data) <= wn)%Q
    /\ (ScoringV2.Connectivity.total (ScoringV2.score_connectivity data) <= wc)%Q
    /\ (ScoringV2.Management.total (ScoringV2.score_management data) <= wm)%Q
    /\ (ScoringV2.raw_score (ScoringV2.score_property data)
        <= wf + wn + wc + wm)%Q.
Proof.
  exists 35%Q, 30%Q, 20%Q, 15%Q.
  do 4 (split; [vm_compute; reflexivity |]).
  pose proof (floral_total_bounds data) as Hf.
  pose proof (nesting_total_bounds data) as Hn.
  pose proof (connectivity_total_le_20 data) as Hc.
  pose proof (management_total_bounds data) as Hm.
  repeat (split; [lra |]).
  rewrite raw_score_parts. lra.
Qed.

End ScoringConfig_properties.

(** ** Building the property data *)

Section ScoreEngine_properties.
Import ScoreEngine.
Context {V : Type}.

Lemma build_plant_list_returns (rows : list (string -> V)) :
  exists plant_list,
    build_plant_list (List.map Ok rows) = Ok plant_list
    /\ length plant_list = length rows.
Proof.
  induction rows as [| p rest (plant_list & IH & Hlen)].
  - exists []. split; reflexivity.
  - eexists. cbn [build_plant_list List.map].
    change (construct "PlantInventory" PlantInventory_fields _)
      with (Ok (Instance "PlantInventory" [
              ("species", Given (p "species"));
              ("count", Given (p "count"));
              ("bloom_seasons", Given (p "bloom_seasons"));
              ("is_native", Given (p "is_native"));
              ("is_milkweed", Given (p "is_milkweed"))])).
    rewrite IH. split; [reflexivity |]. cbn. now rewrite Hlen.
Qed.

(** X29. [build_property_data] never returns a [PropertyData].  The final
    call passes the keyword [flower_coverage_pct], which is no field of
    [PropertyData] (the field is [estimated_flower_coverage_pct]): whenever
    the plant rows and the argument expressions evaluate, every
    [PlantInventory] is built, one per row, and the call of [PropertyData]
    raises [TypeError] for an unexpected keyword argument; otherwise the
    exception of the evaluation is raised. *)
Theorem build_property_data_always_raises
    (plants : list (Result (string -> V))) (args : Result (string -> V)) :
  (exists x, build_property_data plants args = Raise x)
  /\ (forall obj, build_property_data plants args <> Ok obj)
  /\ (forall rows arg,
        plants = List.map Ok rows -> args = Ok arg ->
        build_property_data plants args
        = Raise (TypeError
            "PropertyData.__init__() got an unexpected keyword argument 'flower_coverage_pct'")
        /\ exists plant_list,
             build_plant_list plants = Ok plant_list
             /\ length plant_list = length rows)
  /\ is_field PropertyData_fields "flower_coverage_pct" = false
  /\ is_field PropertyData_fields "estimated_flower_coverage_pct" = true.
Proof.
  assert (H : exists x, build_property_data plants args = Raise x).
  { unfold build_property_data.
    destruct (build_plant_list plants) as [plant_list | x]; [| eauto].
    destruct args as [arg | x]; [| eauto].
    eexists. reflexivity. }
  split; [exact H |].
  split; [intros obj Hobj; destruct H as [x H]; rewrite H in Hobj;
          discriminate |].
  split; [| split; reflexivity].
  intros rows arg -> ->.
  destruct (build_plant_list_returns rows) as (plant_list & Hpl & Hlen).
  split; [| eauto].
  unfold build_property_data. rewrite Hpl. reflexivity.
Qed.

End ScoreEngine_properties.

Lemma build_property_data_always_raises_witness :
  ScoreEngine.build_property_data [Ok (fun _ : string => PyNone)] (Ok (fun _ => PyNone))
  = Raise (ScoreEngine.TypeError
      "PropertyData.__init__() got an unexpected keyword argument 'flower_coverage_pct'").
Proof.
  destruct (build_property_data_always_raises
              [Ok (fun _ : string => PyNone)] (Ok (fun _ => PyNone)))
    as (_ & _ & Hall & _).
  destruct (Hall [fun _ => PyNone] (fun _ => PyNone)) as [Hraise _];
    [reflexivity | reflexivity | exact Hraise].
Defined.

(** ** The keys of the cache *)

Section Cache_keys.
Import CacheManager.

Lemma make_key_nil g : _make_key "" g = String ":"%char g.
Proof. reflexivity. Qed.

Lemma make_key_cons c s g : _make_key (String c s) g = String c (_make_key s g).
Proof. reflexivity. Qed.

Lemma make_key_injective s : forall s' g g',
  has_colon s = false -> has_colon s' = false ->
  _make_key s g = _make_key s' g' -> s = s' /\ g = g'.
Proof.
  induction s as [| c s IH]; intros [| c' s'] g g' Hs Hs' Hkey.
  - rewrite !make_key_nil in Hkey. injection Hkey as ->. auto.
  - rewrite make_key_nil, make_key_cons in Hkey. injection Hkey as <- _.
    cbn in Hs'. discriminate.
  - rewrite make_key_nil, make_key_cons in Hkey. injection Hkey as -> _.
    cbn in Hs. discriminate.
  - rewrite !make_key_cons in Hkey. injection Hkey as -> Hkey.
    cbn in Hs, Hs'. apply orb_false_iff in Hs as [_ Hs].
    apply orb_false_iff in Hs' as [_ Hs'].
    destruct (IH s' g g' Hs Hs' Hkey) as [-> ->]. auto.
Qed.

(** X30. Cache keys separate sources and fingerprints only when the
    source names hold no colon: for source names without ":" two keys are
    equal only for the same source and the same fingerprint, so an entry
    is only ever read back by the pair that wrote it; a source name with a
    colon can share its key with another pair. *)
Theorem cache_keys_separate_colon_free_sources
    (source source' : string) (location location' : Location.t)
    (Hs : has_colon source = false) (Hs' : has_colon source' = false) :
  (key_of source location = key_of source' location'
   <-> source = source'
       /\ Location.grid_hash location = Location.grid_hash location')
  /\ (forall cm d T cm1,
        (source, Location.grid_hash location)
        <> (source', Location.grid_hash location') ->
        Z.of_nat (length (_cache cm)) < max_entries cm ->
        set cm source location d T = Ok cm1 ->
        PyDict.get (key_of source' location') (_cache cm1)
        = PyDict.get (key_of source' location') (_cache cm))
  /\ key_of "gbif:v2" murray
     = _make_key "gbif" ("v2:" ++ Location.grid_hash murray).
Proof.
  split; [| split; [| reflexivity]].
  - split.
    + intros Hkey. now apply (make_key_injective source source').
    + intros [-> Hg]. unfold key_of. now rewrite Hg.
  - intros cm d T cm1 Hne Hroom Hset.
    unfold set in Hset. apply Z.leb_gt in Hroom. rewrite Hroom in Hset.
    injection Hset as <-. cbn [_cache insert_entry with_cache].
    apply get_setitem_ne. fold (key_of source location). intros Hkey.
    apply Hne.
    destruct (make_key_injective source source' _ _ Hs Hs' Hkey) as [-> ->].
    reflexivity.
Qed.

Lemma cache_keys_separate_colon_free_sources_witness :
  has_colon "inat" = false /\ has_colon "soil" = false
  /\ key_of "inat" murray <> key_of "soil" murray.
Proof.
  split; [reflexivity |]. split; [reflexivity |].
  destruct (cache_keys_separate_colon_free_sources "inat" "soil" murray murray)
    as ((Hinj & _) & _); [reflexivity | reflexivity |].
  intros Hkey. destruct (Hinj Hkey) as [Hsrc _]. discriminate Hsrc.
Defined.

End Cache_keys.
